(** * Expense tracker back end: record access and reporting

    A shallow embedding of the controllers of the expense tracker
    ([expenseController.js], [reportController.js]), of the Expense model
    (its validators, the static methods [getMonthlySummary] and
    [getExpensesByCategory], the creation and the saving of a document)
    and of the authentication middleware, with the properties of their
    results.

    Conventions of the embedding.
    - A JavaScript Number that the schema has validated ([Number.isFinite])
      is an exact rational ([Q]); binary rounding of the IEEE doubles is
      not modelled.  The result of a division is a [JS.Number], which adds
      the non-finite values.
    - A Date is its time value, the milliseconds since the epoch ([Z]).
    - The collection is the list of its documents, in natural order. *)

From Stdlib Require Import ZArith QArith Qround Qabs Qminmax.
From Stdlib Require Import List String Ascii Bool Lia Permutation Sorted.
Import ListNotations.

Open Scope Z_scope.

(** ** The JavaScript built-ins the controllers use *)

Module JS.

(** *** Numbers *)

Inductive Number : Type :=
| Finite (q : Q)
| PosInfinity
| NegInfinity
| NaN.

(** [x / y] on finite operands. *)
Definition div (x y : Q) : Number :=
  if Qeq_bool y 0 then
    match (0 ?= x)%Q with
    | Lt => PosInfinity
    | Gt => NegInfinity
    | Eq => NaN
    end
  else Finite (x / y).

(** [n * k] for a finite [k]; the non-finite cases are those of a [k > 0]. *)
Definition mul (n : Number) (k : Q) : Number :=
  match n with
  | Finite q => Finite (q * k)
  | other => other
  end.

(** [x.toFixed(2)] read back by [parseFloat], for a finite [x]: the
    multiple of 1/100 nearest to [x], the larger one at a tie, computed on
    the absolute value; from 1e21 on, [toFixed] prints the number itself. *)
Definition toFixed2 (x : Q) : Q :=
  if Qle_bool (1000000000000000000000 # 1) (Qabs x) then x
  else if Qle_bool 0 x then Qmake (Qfloor (x * (100 # 1) + (1 # 2))) 100
  else Qopp (Qmake (Qfloor ((- x) * (100 # 1) + (1 # 2))) 100).

(** [parseFloat(n.toFixed(2))]: "Infinity" and "NaN" are read back as
    themselves. *)
Definition parseFloat_toFixed2 (n : Number) : Number :=
  match n with
  | Finite q => Finite (toFixed2 q)
  | other => other
  end.

(** [n || 0]. *)
Definition or_zero (n : Number) : Number :=
  match n with
  | NaN => Finite 0
  | Finite q => if Qeq_bool q 0 then Finite 0 else Finite q
  | other => other
  end.


(** [Math.ceil(a / b)] on integers, [b <> 0]. *)
Definition ceil_div (a b : Z) : Z := - ((- a) / b).

(** [Math.max(...xs)] and [Math.min(...xs)] of a non-empty spread. *)
Definition Math_max (x : Q) (xs : list Q) : Q := fold_left Qmax xs x.
Definition Math_min (x : Q) (xs : list Q) : Q := fold_left Qmin xs x.

(** *** Dates (ECMAScript, section "Date objects") *)

Definition msPerDay : Z := 86400000.
Definition msPerHour : Z := 3600000.
Definition msPerMinute : Z := 60000.
Definition msPerSecond : Z := 1000.

Definition Day (t : Z) : Z := t / msPerDay.
Definition TimeWithinDay (t : Z) : Z := t mod msPerDay.

Definition DayFromYear (y : Z) : Z :=
  365 * (y - 1970) + (y - 1969) / 4 - (y - 1901) / 100 + (y - 1601) / 400.

Definition InLeapYear (y : Z) : bool :=
  if negb (y mod 4 =? 0) then false
  else if negb (y mod 100 =? 0) then true
  else if negb (y mod 400 =? 0) then false
  else true.

Definition DaysInYear (y : Z) : Z := if InLeapYear y then 366 else 365.

(** The year of a day number: the largest [y] with [DayFromYear y <= d].
    An estimate from the mean length of a year, corrected by one. *)
Definition YearFromDay (d : Z) : Z :=
  let y0 := 1970 + (400 * d) / 146097 in
  if d <? DayFromYear y0 then y0 - 1
  else if DayFromYear (y0 + 1) <=? d then y0 + 1
  else y0.

Definition YearFromTime (t : Z) : Z := YearFromDay (Day t).

(** The day within the year at which month [m] (0 to 11) starts. *)
Definition monthStart (leap : bool) (m : Z) : Z :=
  let l := if leap then 1 else 0 in
  match m with
  | 0 => 0
  | 1 => 31
  | 2 => 59 + l
  | 3 => 90 + l
  | 4 => 120 + l
  | 5 => 151 + l
  | 6 => 181 + l
  | 7 => 212 + l
  | 8 => 243 + l
  | 9 => 273 + l
  | 10 => 304 + l
  | 11 => 334 + l
  | _ => 365 + l
  end.

Definition DayWithinYear (t : Z) : Z := Day t - DayFromYear (YearFromTime t).

Fixpoint monthOfDay (leap : bool) (dwy : Z) (m : nat) : Z :=
  match m with
  | O => 0
  | S m' => if monthStart leap (Z.of_nat m) <=? dwy then Z.of_nat m
            else monthOfDay leap dwy m'
  end.

Definition MonthFromTime (t : Z) : Z :=
  monthOfDay (InLeapYear (YearFromTime t)) (DayWithinYear t) 11.

Definition DateFromTime (t : Z) : Z :=
  DayWithinYear t
  - monthStart (InLeapYear (YearFromTime t)) (MonthFromTime t) + 1.

Definition HourFromTime (t : Z) : Z := (t / msPerHour) mod 24.
Definition MinFromTime (t : Z) : Z := (t / msPerMinute) mod 60.
Definition SecFromTime (t : Z) : Z := (t / msPerSecond) mod 60.
Definition msFromTime (t : Z) : Z := t mod msPerSecond.

(** [MakeDay(year, month, date)]: the month index may leave 0..11 and
    the date may leave the month, both carry over. *)
Definition MakeDay (year month date : Z) : Z :=
  let ym := year + month / 12 in
  let mn := month mod 12 in
  DayFromYear ym + monthStart (InLeapYear ym) mn + date - 1.

Definition MakeTime (hour min sec ms : Z) : Z :=
  hour * msPerHour + min * msPerMinute + sec * msPerSecond + ms.

Definition MakeDate (day time : Z) : Z := day * msPerDay + time.

(** [new Date(year, monthIndex, day, hours, minutes, seconds)]: the
    arguments are local time; [LocalTZA] is the offset of the server's
    time zone in milliseconds (taken constant).  The milliseconds argument
    is absent, hence 0. *)
Definition newDate (LocalTZA : Z)
  (year monthIndex day hours minutes seconds : Z) : Z :=
  MakeDate (MakeDay year monthIndex day) (MakeTime hours minutes seconds 0)
  - LocalTZA.

(** [d.getDate()]: the day of the month in local time. *)
Definition getDate (LocalTZA : Z) (t : Z) : Z := DateFromTime (t + LocalTZA).

(** *** Date.prototype.toISOString *)

Definition digit (d : Z) : ascii := ascii_of_nat (48 + Z.to_nat (d mod 10)).

(** [n] written with [width] decimal digits, zero padded. *)
Fixpoint pad (width : nat) (n : Z) : string :=
  match width with
  | O => EmptyString
  | S w => (pad w (n / 10) ++ String (digit n) EmptyString)%string
  end.

Definition isoYear (y : Z) : string :=
  if (0 <=? y) && (y <=? 9999) then pad 4 y
  else if y <? 0 then String "-"%char (pad 6 (- y))
  else String "+"%char (pad 6 y).

Definition toISOString (t : Z) : string :=
  (isoYear (YearFromTime t) ++ "-" ++ pad 2 (MonthFromTime t + 1) ++ "-"
   ++ pad 2 (DateFromTime t) ++ "T" ++ pad 2 (HourFromTime t) ++ ":"
   ++ pad 2 (MinFromTime t) ++ ":" ++ pad 2 (SecFromTime t) ++ "."
   ++ pad 3 (msFromTime t) ++ "Z")%string.

(** [s.slice(0, n)]. *)
Definition slice0 (n : nat) (s : string) : string := substring 0 n s.

(** *** Comparison of strings and sorting *)

(** [a.localeCompare(b)], taken as the comparison by code units (on the
    digits and the hyphen of the month labels the collation agrees). *)
Definition localeCompare (a b : string) : comparison := String.compare a b.

(** [Array.prototype.sort] is stable; [le a b] is "the comparator does not
    put [b] before [a]". *)
Fixpoint insert_by {A : Type} (le : A -> A -> bool) (x : A) (l : list A)
  : list A :=
  match l with
  | [] => [x]
  | y :: l' => if le x y then x :: l else y :: insert_by le x l'
  end.

Definition sort_by {A : Type} (le : A -> A -> bool) (l : list A) : list A :=
  fold_right (insert_by le) [] l.

End JS.

(** ** What Mongoose and the driver hand back *)

Module Mongoose.

(** An error that a call throws: [save()] when a cast or a validator of the
    schema fails, a query when the server refuses the command. *)
Inductive Thrown : Type :=
| ValidationError
| MongoServerError.

Inductive Result (A : Type) : Type :=
| Ok (a : A)
| Throw (error : Thrown).

Arguments Ok {A} a.
Arguments Throw {A} error.

End Mongoose.

(** ** The Expense collection as Mongoose sees it *)

Module Store.
Import Mongoose.

(** A stored expense document: the paths of [expenseSchema] and the two
    timestamps that the [timestamps] option maintains. *)
Record Expense : Type := mkExpense {
  _id : string;
  userId : string;
  title : string;
  amount : Q;
  category : string;
  date : Z;
  notes : string;
  paymentMethod : string;
  createdAt : Z;
  updatedAt : Z
}.

Definition Collection : Type := list Expense.

(** A query filter.  Every filter of the controllers names the owner; the
    other conditions are optional: [_id], [category], and the two bounds of
    [date: { $gte, $lte }]. *)
Record Filter : Type := mkFilter {
  by_id : option string;
  by_userId : string;
  by_category : option string;
  date_gte : option Z;
  date_lte : option Z
}.

Definition opt_test {A : Type} (test : A -> bool) (o : option A) : bool :=
  match o with
  | None => true
  | Some a => test a
  end.

Definition matches (f : Filter) (e : Expense) : bool :=
  opt_test (String.eqb (_id e)) (by_id f)
  && String.eqb (userId e) (by_userId f)
  && opt_test (String.eqb (category e)) (by_category f)
  && opt_test (fun lo => lo <=? date e) (date_gte f)
  && opt_test (fun hi => date e <=? hi) (date_lte f).

(** [Expense.find(filter)] *)
Definition find (f : Filter) (c : Collection) : list Expense :=
  List.filter (matches f) c.

(** [Expense.countDocuments(filter)] *)
Definition countDocuments (f : Filter) (c : Collection) : Z :=
  Z.of_nat (List.length (find f c)).

(** [Expense.findOne(filter)] *)
Definition findOne (f : Filter) (c : Collection) : option Expense :=
  List.find (matches f) c.

(** [Expense.findOneAndDelete(filter)]: the first matching document leaves
    the collection and is handed back. *)
Fixpoint findOneAndDelete (f : Filter) (c : Collection)
  : option Expense * Collection :=
  match c with
  | [] => (None, [])
  | e :: c' =>
      if matches f e then (Some e, c')
      else let (r, c'') := findOneAndDelete f c' in (r, e :: c'')
  end.

(** The write that [save()] issues for a loaded document: the first
    document with its [_id] is replaced.  ([_id] has a unique index: the
    properties that depend on it assume the ids of a collection distinct.) *)
Fixpoint updateOne (e : Expense) (c : Collection) : Collection :=
  match c with
  | [] => []
  | d :: c' => if String.eqb (_id d) (_id e) then e :: c'
               else d :: updateOne e c'
  end.

(** The order of two documents on a path, as [.sort({ [path]: dir })]
    compares them; on a path that no document has, all are equal. *)
Definition comparePath (path : string) (a b : Expense) : comparison :=
  if String.eqb path "date" then date a ?= date b
  else if String.eqb path "amount" then (amount a ?= amount b)%Q
  else if String.eqb path "title" then String.compare (title a) (title b)
  else if String.eqb path "category" then
    String.compare (category a) (category b)
  else if String.eqb path "notes" then String.compare (notes a) (notes b)
  else if String.eqb path "paymentMethod" then
    String.compare (paymentMethod a) (paymentMethod b)
  else if String.eqb path "createdAt" then createdAt a ?= createdAt b
  else if String.eqb path "updatedAt" then updatedAt a ?= updatedAt b
  else if String.eqb path "userId" then String.compare (userId a) (userId b)
  else if String.eqb path "_id" then String.compare (_id a) (_id b)
  else Eq.

Definition leDir (dir : Z) (cmp : comparison) : bool :=
  match cmp with
  | Eq => true
  | Lt => 0 <? dir
  | Gt => dir <? 0
  end.

(** [query.sort({ [path]: dir })], [dir] being 1 or -1. *)
Definition sort (path : string) (dir : Z) (l : list Expense) : list Expense :=
  JS.sort_by (fun a b => leDir dir (comparePath path a b)) l.

(** [query.skip(n).limit(m)].  The server refuses a negative skip; a
    negative limit is taken by its absolute value. *)
Definition skip_limit (n m : Z) (l : list Expense) : Result (list Expense) :=
  if n <? 0 then Throw MongoServerError
  else Ok (firstn (Z.abs_nat m) (skipn (Z.to_nat n) l)).

(** One group of a [$group] stage with [$sum: '$amount'] and [$sum: 1]. *)
Record Group : Type := mkGroup {
  group_id : string;
  group_total : Q;
  group_count : Z
}.

Fixpoint group_add (key : string) (x : Q) (gs : list Group) : list Group :=
  match gs with
  | [] => [mkGroup key x 1]
  | g :: gs' =>
      if String.eqb (group_id g) key
      then mkGroup key (group_total g + x) (group_count g + 1) :: gs'
      else g :: group_add key x gs'
  end.

(** [{ $group: { _id: '$key', total: { $sum: '$amount' }, count: { $sum: 1 } } }] *)
Definition group_by (key : Expense -> string) (docs : list Expense)
  : list Group :=
  fold_left (fun gs e => group_add (key e) (amount e) gs) docs [].

(** [{ $sort: { total: -1 } }] *)
Definition sort_total_desc (gs : list Group) : list Group :=
  JS.sort_by (fun a b => Qle_bool (group_total b) (group_total a)) gs.

End Store.

(** ** The error middleware *)

Module ErrorHandler.

(** A message: a text of this repository, or the message of an error that
    was thrown ([error.message]), whose text is Mongoose's or the server's
    and is never empty. *)
Inductive Message : Type :=
| Text (s : string)
| MessageOf (error : Mongoose.Thrown).

(** [message || fallback] *)
Definition orElse (m : Message) (fallback : string) : Message :=
  match m with
  | Text EmptyString => Text fallback
  | _ => m
  end.

(** [new AppError(message, statusCode)] *)
Record AppError : Type := mkAppError {
  message : Message;
  statusCode : Z
}.

(** The response of [errorHandler] to an [AppError]: the status and the
    message.  (The branches on [err.name] and [err.code] are for errors of
    other classes.) *)
Definition errorHandler (err : AppError) : Z * Message :=
  (if statusCode err =? 0 then 500 else statusCode err,
   orElse (message err) "Internal Server Error").

End ErrorHandler.

(** What a handler does with a request: [res.status(code).json(...)] with
    the [data] of the envelope, or [next(error)]. *)
Inductive Outcome (A : Type) : Type :=
| Json (status : Z) (msg : string) (data : A)
| Next (err : ErrorHandler.AppError).

Arguments Json {A} status msg data.
Arguments Next {A} err.

(** ** The Expense model: schema validation and documents *)

Module ExpenseModel.
Import Store.

Definition categories : list string :=
  ["Food"; "Transportation"; "Entertainment"; "Healthcare"; "Shopping";
   "Bills"; "Education"; "Travel"; "Personal"; "Other"]%string.

Definition paymentMethods : list string :=
  ["Cash"; "Credit Card"; "Debit Card"; "UPI"; "Net Banking"; "Other"]%string.

(** [xs.includes(x)] on strings. *)
Definition includes (xs : list string) (x : string) : bool :=
  existsb (String.eqb x) xs.

(** The validators of [expenseSchema], path by path: [required],
    [maxlength], [min] with the custom validator of [amount], [enum]. *)
Definition validate (e : Expense) : bool :=
  negb (String.eqb (userId e) EmptyString)
  && negb (String.eqb (title e) EmptyString)
  && (String.length (title e) <=? 200)%nat
  && Qle_bool (1 # 100) (amount e)
  && negb (Qle_bool (amount e) 0)
  && includes categories (category e)
  && (String.length (notes e) <=? 500)%nat
  && includes paymentMethods (paymentMethod e).

(** A value of a request body, as the request validators leave it: a
    string, a number ([toFloat]; "1e400" is read as [Infinity]) or a Date
    ([toDate]). *)
Inductive Value : Type :=
| VString (s : string)
| VNumber (n : JS.Number)
| VDate (t : Z).

(** *** String.prototype.trim, the setter of the [trim: true] paths *)

Definition isWhiteSpace (c : ascii) : bool :=
  let n := nat_of_ascii c in
  ((9 <=? n) && (n <=? 13) || (n =? 32))%nat.

Fixpoint trimStart (s : string) : string :=
  match s with
  | EmptyString => EmptyString
  | String c s' => if isWhiteSpace c then trimStart s' else s
  end.

Fixpoint reverse (s acc : string) : string :=
  match s with
  | EmptyString => acc
  | String c s' => reverse s' (String c acc)
  end.

Definition trim (s : string) : string :=
  reverse (trimStart (reverse (trimStart s) EmptyString)) EmptyString.

(** A loaded Mongoose document: the current values of its paths, and the
    paths whose assigned value [save()] will refuse whatever else is
    assigned: a value that could not be cast, or a number that is not
    finite, which the validator of [amount] rejects. *)
Record Document : Type := mkDocument {
  fields : Expense;
  refused : list string
}.

Definition hydrate (e : Expense) : Document := mkDocument e [].

Definition refuse (path : string) (d : Document) : Document :=
  mkDocument (fields d) (path :: refused d).

Definition setFields (e : Expense) (d : Document) : Document :=
  mkDocument e (refused d).

(** [expense[key] = value] for the paths of the allow-list.  The request
    validators hand over values of the type of their path; a value of
    another type is a cast error here.  Any other key is outside the schema
    paths that the controller assigns. *)
Definition assign (key : string) (v : Value) (d : Document) : Document :=
  let e := fields d in
  if String.eqb key "title" then
    match v with
    | VString s =>
        setFields (mkExpense (_id e) (userId e) (trim s) (amount e)
                     (category e) (date e) (notes e) (paymentMethod e)
                     (createdAt e) (updatedAt e)) d
    | _ => refuse key d
    end
  else if String.eqb key "amount" then
    match v with
    | VNumber (JS.Finite q) =>
        setFields (mkExpense (_id e) (userId e) (title e) q
                     (category e) (date e) (notes e) (paymentMethod e)
                     (createdAt e) (updatedAt e)) d
    | _ => refuse key d
    end
  else if String.eqb key "category" then
    match v with
    | VString s =>
        setFields (mkExpense (_id e) (userId e) (title e) (amount e)
                     s (date e) (notes e) (paymentMethod e)
                     (createdAt e) (updatedAt e)) d
    | _ => refuse key d
    end
  else if String.eqb key "date" then
    match v with
    | VDate t =>
        setFields (mkExpense (_id e) (userId e) (title e) (amount e)
                     (category e) t (notes e) (paymentMethod e)
                     (createdAt e) (updatedAt e)) d
    | _ => refuse key d
    end
  else if String.eqb key "notes" then
    match v with
    | VString s =>
        setFields (mkExpense (_id e) (userId e) (title e) (amount e)
                     (category e) (date e) (trim s) (paymentMethod e)
                     (createdAt e) (updatedAt e)) d
    | _ => refuse key d
    end
  else if String.eqb key "paymentMethod" then
    match v with
    | VString s =>
        setFields (mkExpense (_id e) (userId e) (title e) (amount e)
                     (category e) (date e) (notes e) s
                     (createdAt e) (updatedAt e)) d
    | _ => refuse key d
    end
  else d.

(** Whether two states of a document hold the same values. *)
Definition sameValues (a b : Expense) : bool :=
  String.eqb (_id a) (_id b)
  && String.eqb (userId a) (userId b)
  && String.eqb (title a) (title b)
  && Qeq_bool (amount a) (amount b)
  && String.eqb (category a) (category b)
  && (date a =? date b)
  && String.eqb (notes a) (notes b)
  && String.eqb (paymentMethod a) (paymentMethod b)
  && (createdAt a =? createdAt b)
  && (updatedAt a =? updatedAt b).

Definition touch (now : Z) (e : Expense) : Expense :=
  mkExpense (_id e) (userId e) (title e) (amount e) (category e) (date e)
    (notes e) (paymentMethod e) (createdAt e) now.

(** [expense.save()] at time [now] for a document that was loaded as
    [loaded]: validation first (an error is thrown, nothing is written);
    then, when a path was modified, the update timestamp is refreshed and
    the document is written. *)
Definition save (now : Z) (loaded : Expense) (d : Document) (c : Collection)
  : Mongoose.Result (Expense * Collection) :=
  match refused d with
  | _ :: _ => Mongoose.Throw Mongoose.ValidationError
  | [] =>
      if validate (fields d) then
        if sameValues loaded (fields d) then Mongoose.Ok (fields d, c)
        else let e' := touch now (fields d) in
             Mongoose.Ok (e', updateOne e' c)
      else Mongoose.Throw Mongoose.ValidationError
  end.

(** *** The static method [getMonthlySummary] *)

Record BreakdownItem : Type := mkBreakdownItem {
  item_category : string;
  item_amount : Q;
  item_count : Z;
  item_percentage : JS.Number
}.

Record MonthlySummary : Type := mkMonthlySummary {
  summary_month : Z;
  summary_year : Z;
  summary_totalExpenses : Q;
  summary_totalTransactions : Z;
  summary_categoryBreakdown : list BreakdownItem
}.

(** The [$match] stage of the monthly queries: the owner and the window
    from [new Date(year, month - 1, 1)] to
    [new Date(year, month, 0, 23, 59, 59)]. *)
Definition monthStartDate (LocalTZA year month : Z) : Z :=
  JS.newDate LocalTZA year (month - 1) 1 0 0 0.

Definition monthEndDate (LocalTZA year month : Z) : Z :=
  JS.newDate LocalTZA year month 0 23 59 59.

Definition monthFilter (LocalTZA : Z) (uid : string) (month year : Z)
  : Filter :=
  mkFilter None uid None
    (Some (monthStartDate LocalTZA year month))
    (Some (monthEndDate LocalTZA year month)).

(** The aggregation pipeline: [$match], [$group] by category, [$sort]. *)
Definition monthlyGroups (LocalTZA : Z) (uid : string) (month year : Z)
  (c : Collection) : list Group :=
  sort_total_desc
    (group_by category (find (monthFilter LocalTZA uid month year) c)).

Definition getMonthlySummary (LocalTZA : Z) (uid : string) (month year : Z)
  (c : Collection) : MonthlySummary :=
  let summary := monthlyGroups LocalTZA uid month year c in
  let totalExpenses :=
    fold_left (fun sum item => (sum + group_total item)%Q) summary (0 # 1) in
  let totalTransactions :=
    fold_left (fun sum item => sum + group_count item) summary 0 in
  mkMonthlySummary month year (JS.toFixed2 totalExpenses) totalTransactions
    (map (fun item =>
            mkBreakdownItem (group_id item)
              (JS.toFixed2 (group_total item))
              (group_count item)
              (JS.parseFloat_toFixed2
                 (JS.mul (JS.div (group_total item) totalExpenses) (100 # 1))))
       summary).

(** *** The static method [getExpensesByCategory] *)

Definition getExpensesByCategory (userId category : string) (c : Collection)
  : list Expense :=
  Store.sort "date" (-1)
    (find (mkFilter None userId (Some category) None None) c).

(** *** [Expense.create] *)

(** A new document of [owner] before its other paths are set: the
    generated [_id], the defaults of the schema ([date: Date.now],
    [notes: ''], [paymentMethod: 'Other']) and the timestamps of the
    insertion at [now].  A required path that has no value yet ([title],
    [amount], [category]) is held as the empty string or as 0, which the
    validators refuse as [required] refuses the missing value. *)
Definition blank (newId owner : string) (now : Z) : Expense :=
  mkExpense newId owner EmptyString (0 # 1) EmptyString now EmptyString
    "Other" now now.

(** A path of the object given to the constructor: [undefined] sets
    nothing. *)
Definition setPath (d : Document) (kv : string * option Value) : Document :=
  match snd kv with
  | Some v => assign (fst kv) v d
  | None => d
  end.

(** [new Expense(obj)] *)
Definition construct (newId owner : string) (now : Z)
  (obj : list (string * option Value)) : Document :=
  fold_left setPath obj (hydrate (blank newId owner now)).

(** The insertion of a new document: validation first (an error is thrown,
    nothing is written); the unique index of [_id] refuses an id that is
    taken. *)
Definition insertOne (d : Document) (c : Collection)
  : Mongoose.Result (Expense * Collection) :=
  match refused d with
  | _ :: _ => Mongoose.Throw Mongoose.ValidationError
  | [] =>
      if validate (fields d) then
        if existsb (fun e => String.eqb (_id e) (_id (fields d))) c
        then Mongoose.Throw Mongoose.MongoServerError
        else Mongoose.Ok (fields d, c ++ [fields d])
      else Mongoose.Throw Mongoose.ValidationError
  end.

End ExpenseModel.

(** ** expenseController.js *)

Module ExpenseController.
Import Store ExpenseModel ErrorHandler.

(** The query string of [GET /api/expenses], its numbers and dates read:
    an absent (or empty) parameter is [None]. *)
Record ListQuery : Type := mkListQuery {
  q_category : option string;
  q_startDate : option Z;
  q_endDate : option Z;
  q_sortBy : option string;
  q_order : option string;
  q_limit : option Z;
  q_page : option Z
}.

Record Pagination : Type := mkPagination {
  currentPage : Z;
  totalPages : Z;
  pagination_totalExpenses : Z;
  expensesPerPage : Z
}.

Record Summary : Type := mkSummary {
  totalExpenses : Z;
  totalAmount : Q
}.

Record ListData : Type := mkListData {
  expenses : list Expense;
  pagination : option Pagination;
  summary : Summary
}.

Definition default {A : Type} (o : option A) (d : A) : A :=
  match o with
  | Some a => a
  | None => d
  end.

(** [if (category)]: the empty string is falsy. *)
Definition truthyString (o : option string) : option string :=
  match o with
  | Some s => if String.eqb s EmptyString then None else Some s
  | None => None
  end.

(** [if (limitNum)]: [null] and 0 are falsy. *)
Definition truthyNumber (o : option Z) : option Z :=
  match o with
  | Some n => if n =? 0 then None else Some n
  | None => None
  end.

Definition listFilter (uid : string) (q : ListQuery) : Filter :=
  mkFilter None uid (truthyString (q_category q)) (q_startDate q) (q_endDate q).

Definition getAllExpenses (uid : string) (q : ListQuery) (c : Collection)
  : Outcome ListData :=
  let sortBy := default (q_sortBy q) "date"%string in
  let order := default (q_order q) "desc"%string in
  let filter := listFilter uid q in
  let sortOrder := if String.eqb order "asc" then 1 else -1 in
  let pageNum := default (q_page q) 1 in
  let limitNum := truthyNumber (q_limit q) in
  let skip := match limitNum with
              | Some l => (pageNum - 1) * l
              | None => 0
              end in
  let query := Store.sort sortBy sortOrder (find filter c) in
  let result := match limitNum with
                | Some l => skip_limit skip l query
                | None => Mongoose.Ok query
                end in
  match result with
  | Mongoose.Throw error =>
      Next (mkAppError
              (orElse (MessageOf error) "Failed to retrieve expenses") 500)
  | Mongoose.Ok expenses =>
      let totalExpenses := countDocuments filter c in
      let totalAmount :=
        fold_left (fun sum expense => (sum + amount expense)%Q) expenses (0 # 1) in
      Json 200 "Expenses retrieved successfully"
        (mkListData expenses
           (match limitNum with
            | Some l => Some (mkPagination pageNum
                                (JS.ceil_div totalExpenses l) totalExpenses l)
            | None => None
            end)
           (mkSummary totalExpenses (JS.toFixed2 totalAmount)))
  end.

Definition notFound : AppError :=
  mkAppError (Text "Expense not found or unauthorized") 404.

Definition byIdAndOwner (id uid : string) : Filter :=
  mkFilter (Some id) uid None None None.

Definition getExpenseById (uid id : string) (c : Collection)
  : Outcome Expense :=
  match findOne (byIdAndOwner id uid) c with
  | None => Next notFound
  | Some expense => Json 200 "Expense retrieved successfully" expense
  end.

(** [req.body]: the own keys in their order, each with its value. *)
Definition Body : Type := list (string * Value).

Definition Object_keys (o : Body) : list string := map fst o.

Fixpoint get (o : Body) (key : string) : option Value :=
  match o with
  | [] => None
  | (k, v) :: o' => if String.eqb k key then Some v else get o' key
  end.

Definition allowedUpdates : list string :=
  ["title"; "amount"; "category"; "date"; "notes"; "paymentMethod"]%string.

(** [Object.keys(updates).forEach(key => ...)] *)
Definition applyUpdates (updates : Body) (expense : Document) : Document :=
  fold_left
    (fun doc key =>
       if includes allowedUpdates key then
         match get updates key with
         | Some v => assign key v doc
         | None => doc
         end
       else doc)
    (Object_keys updates) expense.

(** The handlers that write take the collection and give it back. *)
Definition updateExpense (now : Z) (uid id : string) (updates : Body)
  (c : Collection) : Outcome Expense * Collection :=
  match findOne (byIdAndOwner id uid) c with
  | None => (Next notFound, c)
  | Some expense =>
      match save now expense (applyUpdates updates (hydrate expense)) c with
      | Mongoose.Throw error =>
          (Next (mkAppError
                   (orElse (MessageOf error) "Failed to update expense") 500),
           c)
      | Mongoose.Ok (saved, c') =>
          (Json 200 "Expense updated successfully" saved, c')
      end
  end.

Definition deleteExpense (uid id : string) (c : Collection)
  : Outcome Expense * Collection :=
  match findOneAndDelete (byIdAndOwner id uid) c with
  | (None, c') => (Next notFound, c')
  | (Some expense, c') => (Json 200 "Expense deleted successfully" expense, c')
  end.

(** [!v] is false: the empty string, 0 and NaN are falsy, a Date is an
    object. *)
Definition truthy (v : Value) : bool :=
  match v with
  | VString s => negb (String.eqb s EmptyString)
  | VNumber (JS.Finite q) => negb (Qeq_bool q 0)
  | VNumber JS.NaN => false
  | VNumber _ => true
  | VDate _ => true
  end.

(** [v || fallback] for a value of the body that may be missing. *)
Definition orValue (v : option Value) (fallback : Value) : Value :=
  match v with
  | Some x => if truthy x then x else fallback
  | None => fallback
  end.

(** [clock] is the [new Date()] of the handler, [now] the time of the
    insertion, [newId] the [_id] that the driver generates. *)
Definition createExpense (clock now : Z) (newId uid : string) (body : Body)
  (c : Collection) : Outcome Expense * Collection :=
  let title := get body "title" in
  let amount := get body "amount" in
  let category := get body "category" in
  let date := get body "date" in
  let notes := get body "notes" in
  let paymentMethod := get body "paymentMethod" in
  let expense :=
    construct newId uid now
      [ ("title"%string, title);
        ("amount"%string, amount);
        ("category"%string, category);
        ("date"%string, Some (orValue date (VDate clock)));
        ("notes"%string, Some (orValue notes (VString EmptyString)));
        ("paymentMethod"%string,
         Some (orValue paymentMethod (VString "Other"))) ] in
  match insertOne expense c with
  | Mongoose.Throw error =>
      (Next (mkAppError
               (orElse (MessageOf error) "Failed to create expense") 500),
       c)
  | Mongoose.Ok (created, c') =>
      (Json 201 "Expense created successfully" created, c')
  end.

End ExpenseController.

(** ** reportController.js *)

Module ReportController.
Import Store ExpenseModel ErrorHandler.

(** What [.select('title amount category date paymentMethod')] keeps. *)
Record Selected : Type := mkSelected {
  sel_id : string;
  sel_title : string;
  sel_amount : Q;
  sel_category : string;
  sel_date : Z;
  sel_paymentMethod : string
}.

Definition select (e : Expense) : Selected :=
  mkSelected (_id e) (title e) (amount e) (category e) (date e)
    (paymentMethod e).

Record MonthlyData : Type := mkMonthlyData {
  monthly_summary : MonthlySummary;
  dailyAverage : JS.Number;
  daysInMonth : Z;
  monthly_expenses : list Selected
}.

Definition getMonthlyReport (LocalTZA : Z) (uid : string) (month year : Z)
  (c : Collection) : Outcome MonthlyData :=
  let summary := getMonthlySummary LocalTZA uid month year c in
  let expenses :=
    map select
      (Store.sort "date" (-1) (find (monthFilter LocalTZA uid month year) c)) in
  let daysInMonth :=
    JS.getDate LocalTZA (JS.newDate LocalTZA year month 0 0 0 0) in
  let dailyAverage :=
    JS.div (summary_totalExpenses summary) (inject_Z daysInMonth) in
  Json 200 "Monthly report generated successfully"
    (mkMonthlyData summary (JS.parseFloat_toFixed2 dailyAverage) daysInMonth
       expenses).

(** *** Category report *)

Record Statistics : Type := mkStatistics {
  totalExpenses : Z;
  totalAmount : Q;
  averageAmount : JS.Number;
  maxExpense : Q;
  minExpense : Q
}.

(** An entry of the accumulator of the trend, then of [trendData]. *)
Record TrendEntry : Type := mkTrendEntry {
  month : string;
  total : Q;
  count : Z
}.

Record TrendItem : Type := mkTrendItem {
  trend_month : string;
  trend_total : Q;
  trend_count : Z;
  trend_average : JS.Number
}.

Record CategoryData : Type := mkCategoryData {
  report_category : string;
  statistics : Statistics;
  monthlyTrend : list TrendItem;
  report_expenses : list Expense
}.

Definition categoryFilter (uid category : string)
  (startDate endDate : option Z) : Filter :=
  mkFilter None uid (Some category) startDate endDate.

(** [new Date(expense.date).toISOString().slice(0, 7)] *)
Definition monthKey (expense : Expense) : string :=
  JS.slice0 7 (JS.toISOString (date expense)).

(** The accumulator object of the [reduce]: its keys in insertion order. *)
Definition TrendAcc : Type := list (string * TrendEntry).

Definition has (acc : TrendAcc) (key : string) : bool :=
  existsb (fun kv => String.eqb (fst kv) key) acc.

Fixpoint modify (key : string) (f : TrendEntry -> TrendEntry) (acc : TrendAcc)
  : TrendAcc :=
  match acc with
  | [] => []
  | (k, v) :: acc' => if String.eqb k key then (k, f v) :: acc'
                      else (k, v) :: modify key f acc'
  end.

Definition trendStep (acc : TrendAcc) (expense : Expense) : TrendAcc :=
  let key := monthKey expense in
  let acc1 := if has acc key then acc
              else acc ++ [(key, mkTrendEntry key (0 # 1) 0)] in
  modify key
    (fun item => mkTrendEntry (month item) (total item + amount expense)
                   (count item + 1))
    acc1.

Definition Object_values (acc : TrendAcc) : list TrendEntry := map snd acc.

Definition monthNotAfter (a b : TrendEntry) : bool :=
  match JS.localeCompare (month a) (month b) with
  | Gt => false
  | _ => true
  end.

Definition trendData (expenses : list Expense) : list TrendItem :=
  map (fun item =>
         mkTrendItem (month item) (JS.toFixed2 (total item)) (count item)
           (JS.parseFloat_toFixed2
              (JS.div (total item) (inject_Z (count item)))))
    (JS.sort_by monthNotAfter
       (Object_values (fold_left trendStep expenses []))).

Definition amounts (expenses : list Expense) : list Q := map amount expenses.

Definition getCategoryReport (uid category : string)
  (startDate endDate : option Z) (c : Collection) : Outcome CategoryData :=
  let filter := categoryFilter uid category startDate endDate in
  let expenses := Store.sort "date" (-1) (find filter c) in
  let totalAmount :=
    fold_left (fun sum expense => (sum + amount expense)%Q) expenses (0 # 1) in
  let length := Z.of_nat (List.length expenses) in
  let averageAmount :=
    if 0 <? length then JS.div totalAmount (inject_Z length)
    else JS.Finite (0 # 1) in
  let maxExpense := match amounts expenses with
                    | x :: xs => JS.Math_max x xs
                    | [] => 0 # 1
                    end in
  let minExpense := match amounts expenses with
                    | x :: xs => JS.Math_min x xs
                    | [] => 0 # 1
                    end in
  Json 200 ("Category report for " ++ category ++ " generated successfully")
    (mkCategoryData category
       (mkStatistics length (JS.toFixed2 totalAmount)
          (JS.parseFloat_toFixed2 averageAmount)
          (JS.toFixed2 maxExpense) (JS.toFixed2 minExpense))
       (trendData expenses) expenses).

(** *** Overall statistics *)

(** The document of the [$group] stage with [_id: null]. *)
Record OverallGroup : Type := mkOverallGroup {
  stats_totalExpenses : Z;
  stats_totalAmount : Q;
  stats_avgAmount : JS.Number;
  stats_maxAmount : Q;
  stats_minAmount : Q
}.

Definition groupAll (docs : list Expense) : list OverallGroup :=
  match amounts docs with
  | [] => []
  | x :: xs =>
      let sum := fold_left Qplus (x :: xs) (0 # 1) in
      let n := Z.of_nat (List.length docs) in
      [mkOverallGroup n sum (JS.div sum (inject_Z n))
         (JS.Math_max x xs) (JS.Math_min x xs)]
  end.

Record Overall : Type := mkOverall {
  overall_totalExpenses : Z;
  overall_totalAmount : JS.Number;
  overall_averageAmount : JS.Number;
  overall_maxAmount : JS.Number;
  overall_minAmount : JS.Number
}.

Record Share : Type := mkShare {
  share_key : string;
  share_total : Q;
  share_count : Z;
  share_percentage : JS.Number
}.

Record StatsData : Type := mkStatsData {
  overall : Overall;
  categoryBreakdown : list Share;
  paymentMethodBreakdown : list Share
}.

Definition statsFilter (uid : string) (startDate endDate : option Z) : Filter :=
  mkFilter None uid None startDate endDate.

Definition shares (totalAmount : Q) (gs : list Group) : list Share :=
  map (fun item =>
         mkShare (group_id item) (JS.toFixed2 (group_total item))
           (group_count item)
           (JS.parseFloat_toFixed2
              (JS.mul (JS.div (group_total item) totalAmount) (100 # 1))))
    gs.

Definition getOverallStats (uid : string) (startDate endDate : option Z)
  (c : Collection) : Outcome StatsData :=
  let filter := statsFilter uid startDate endDate in
  let stats := groupAll (find filter c) in
  let categoryStats := sort_total_desc (group_by category (find filter c)) in
  let paymentMethodStats :=
    sort_total_desc (group_by paymentMethod (find filter c)) in
  let overallStats :=
    match stats with
    | s :: _ => s
    | [] => mkOverallGroup 0 (0 # 1) (JS.Finite (0 # 1)) (0 # 1) (0 # 1)
    end in
  let fixed (n : JS.Number) := JS.parseFloat_toFixed2 (JS.or_zero n) in
  Json 200 "Overall statistics generated successfully"
    (mkStatsData
       (mkOverall (stats_totalExpenses overallStats)
          (fixed (JS.Finite (stats_totalAmount overallStats)))
          (fixed (stats_avgAmount overallStats))
          (fixed (JS.Finite (stats_maxAmount overallStats)))
          (fixed (JS.Finite (stats_minAmount overallStats))))
       (shares (stats_totalAmount overallStats) categoryStats)
       (shares (stats_totalAmount overallStats) paymentMethodStats)).

End ReportController.

(** ** authMiddleware.js *)

Module AuthMiddleware.

(** [s.startsWith(prefix)] *)
Definition startsWith (s prefix : string) : bool := String.prefix prefix s.

(** [s.split(sep)] for a separator that is not empty: the pieces between
    the occurrences of [sep], which are looked for from the left, each after
    the end of the one before.  [skip] counts the characters of an
    occurrence that are still to pass, [piece] is the piece read so far. *)
Fixpoint splitFrom (sep : string) (skip : nat) (piece s : string)
  : list string :=
  match skip with
  | S k =>
      match s with
      | EmptyString => [piece]
      | String _ s' => splitFrom sep k piece s'
      end
  | O =>
      if String.prefix sep s then
        match s with
        | EmptyString => [piece]
        | String _ s' =>
            piece :: splitFrom sep (String.length sep - 1) EmptyString s'
        end
      else
        match s with
        | EmptyString => [piece]
        | String ch s' =>
            splitFrom sep O (piece ++ String ch EmptyString)%string s'
        end
  end.

Definition split (s sep : string) : list string :=
  splitFrom sep O EmptyString s.

(** What [verifyIdToken] resolves to. *)
Record DecodedToken : Type := mkDecodedToken {
  token_uid : string;
  token_email : string;
  token_email_verified : bool
}.

(** The error that [verifyIdToken] rejects with. *)
Record AuthError : Type := mkAuthError {
  code : string;
  error_message : string
}.

(** [req.user] *)
Record User : Type := mkUser {
  uid : string;
  email : string;
  emailVerified : bool
}.

(** What the middleware does with a request: it answers
    [res.status(status).json({ success: false, message, error })], or it
    sets [req.user] and calls [next()]. *)
Inductive Reply : Type :=
| Respond (status : Z) (message error : string)
| Proceed (user : User).

Section Verification.

(** [admin.auth().verifyIdToken], the check of Firebase. *)
Variable verifyIdToken : string -> DecodedToken + AuthError.

(** [authorization] is [req.headers.authorization], [None] when the header
    is absent. *)
Definition verifyFirebaseToken (authorization : option string) : Reply :=
  let noToken :=
    Respond 401 "Unauthorized: No token provided"
      "Missing or invalid Authorization header" in
  match authorization with
  | None => noToken
  | Some authHeader =>
      if String.eqb authHeader EmptyString
         || negb (startsWith authHeader "Bearer ")
      then noToken
      else
        match nth_error (split authHeader "Bearer ") 1 with
        | None | Some EmptyString =>
            Respond 401 "Unauthorized: Invalid token format"
              "Token is empty or malformed"
        | Some idToken =>
            match verifyIdToken idToken with
            | inl decodedToken =>
                Proceed (mkUser (token_uid decodedToken)
                           (token_email decodedToken)
                           (token_email_verified decodedToken))
            | inr error =>
                if String.eqb (code error) "auth/id-token-expired" then
                  Respond 401 "Unauthorized: Token has expired"
                    "Please login again to get a new token"
                else if String.eqb (code error) "auth/id-token-revoked" then
                  Respond 401 "Unauthorized: Token has been revoked"
                    "Please login again"
                else if String.eqb (code error) "auth/argument-error" then
                  Respond 401 "Unauthorized: Invalid token"
                    "Token format is invalid"
                else
                  Respond 401 "Unauthorized: Authentication failed"
                    (error_message error)
            end
        end
  end.

End Verification.

End AuthMiddleware.

(** ** Vocabulary of the statements *)

(** The sum of a list of rationals. *)
Definition Qsum (l : list Q) : Q := fold_right Qplus (0 # 1) l.

(** The Gregorian rule and the lengths of the months (1 to 12). *)
Definition isLeapYear (y : Z) : bool :=
  (y mod 4 =? 0) && (negb (y mod 100 =? 0) || (y mod 400 =? 0)).

Definition daysOfMonth (y month : Z) : Z :=
  match month with
  | 2 => if isLeapYear y then 29 else 28
  | 4 | 6 | 9 | 11 => 30
  | _ => 31
  end.

(** A sample expense of [uid] with the given id, amount, category and
    date, for the closed examples. *)
Definition sample (id uid : string) (amt : Q) (cat : string) (t : Z)
  : Store.Expense :=
  Store.mkExpense id uid "Sample" amt cat t EmptyString "Other" t t.

(** The documents of a list whose grouping key is [k]. *)
Definition withKey (key : Store.Expense -> string) (k : string)
  (docs : list Store.Expense) : list Store.Expense :=
  List.filter (fun e => String.eqb (key e) k) docs.

Definition amountsOf (docs : list Store.Expense) : list Q :=
  map Store.amount docs.

(** [gs] are the groups of [docs] by [key]: one group for each key that
    occurs, with the sum and the number of the documents of that key. *)
Definition groups_of (key : Store.Expense -> string)
  (docs : list Store.Expense) (gs : list Store.Group) : Prop :=
  NoDup (map Store.group_id gs)
  /\ (forall g, In g gs ->
        withKey key (Store.group_id g) docs <> []
        /\ (Store.group_total g
            == Qsum (amountsOf (withKey key (Store.group_id g) docs)))%Q
        /\ Store.group_count g
           = Z.of_nat (List.length (withKey key (Store.group_id g) docs)))
  /\ (forall e, In e docs -> In (key e) (map Store.group_id gs)).

(** The scenario of the testable properties: three expenses of user U in
    January 2025 (at noon of the 5th, 20th and 10th), and one of another
    user. *)
Definition scenario : Store.Collection :=
  [ sample "e1" "U" (100 # 1) "Food" (JS.newDate 0 2025 0 5 12 0 0);
    sample "e2" "U" (50 # 1) "Food" (JS.newDate 0 2025 0 20 12 0 0);
    sample "e3" "U" (30 # 1) "Transportation" (JS.newDate 0 2025 0 10 12 0 0);
    sample "e4" "V" (70 # 1) "Bills" (JS.newDate 0 2025 0 11 12 0 0) ].

(** An expense of half a second before the end of January 2025. *)
Definition lateJanuary : Store.Expense :=
  sample "e9" "U" (40 # 1) "Food" (JS.newDate 0 2025 1 1 0 0 0 - 500).



(** The same list query without a page size. *)
Definition withoutLimit (q : ExpenseController.ListQuery)
  : ExpenseController.ListQuery :=
  ExpenseController.mkListQuery
    (ExpenseController.q_category q) (ExpenseController.q_startDate q)
    (ExpenseController.q_endDate q) (ExpenseController.q_sortBy q)
    (ExpenseController.q_order q) None (ExpenseController.q_page q).

(** The matching records of a list query in the order of its sort. *)
Definition ordered (uid : string) (q : ExpenseController.ListQuery)
  (c : Store.Collection) : list Store.Expense :=
  Store.sort
    (ExpenseController.default (ExpenseController.q_sortBy q) "date"%string)
    (if String.eqb
          (ExpenseController.default (ExpenseController.q_order q) "desc"%string)
          "asc"
     then 1 else -1)
    (Store.find (ExpenseController.listFilter uid q) c).

(** A list query with only a page size and a page number. *)
Definition pageQuery (limit page : Z) : ExpenseController.ListQuery :=
  ExpenseController.mkListQuery None None None None None (Some limit)
    (Some page).

(** The records of a user in the collection. *)
Definition recordsOf (uid : string) (c : Store.Collection) : Store.Collection :=
  List.filter (fun e => String.eqb (Store.userId e) uid) c.

(** The caller owns a record of that id. *)
Definition owns (uid id : string) (c : Store.Collection) : Prop :=
  exists e, In e c /\ Store._id e = id /\ Store.userId e = uid.

(** The request body, applied to the loaded record, passes [save()]. *)
Definition accepted (updates : ExpenseController.Body) (e : Store.Expense)
  : bool :=
  let d := ExpenseController.applyUpdates updates (ExpenseModel.hydrate e) in
  match ExpenseModel.refused d with
  | [] => ExpenseModel.validate (ExpenseModel.fields d)
  | _ :: _ => false
  end.

(** The value of a record at a path, by the name of the path. *)
Definition readPath (name : string) (e : Store.Expense)
  : option ExpenseModel.Value :=
  if String.eqb name "_id" then Some (ExpenseModel.VString (Store._id e))
  else if String.eqb name "userId" then
    Some (ExpenseModel.VString (Store.userId e))
  else if String.eqb name "title" then
    Some (ExpenseModel.VString (Store.title e))
  else if String.eqb name "amount" then
    Some (ExpenseModel.VNumber (JS.Finite (Store.amount e)))
  else if String.eqb name "category" then
    Some (ExpenseModel.VString (Store.category e))
  else if String.eqb name "date" then Some (ExpenseModel.VDate (Store.date e))
  else if String.eqb name "notes" then
    Some (ExpenseModel.VString (Store.notes e))
  else if String.eqb name "paymentMethod" then
    Some (ExpenseModel.VString (Store.paymentMethod e))
  else if String.eqb name "createdAt" then
    Some (ExpenseModel.VDate (Store.createdAt e))
  else if String.eqb name "updatedAt" then
    Some (ExpenseModel.VDate (Store.updatedAt e))
  else None.

(** A request body that retitles an expense and also names the owner and
    the creation timestamp. *)
Definition intrusiveBody : ExpenseController.Body :=
  [ ("title"%string, ExpenseModel.VString " Lunch ");
    ("userId"%string, ExpenseModel.VString "V");
    ("createdAt"%string, ExpenseModel.VDate 0) ].

(** The scenario with other records of user V: the records of U are the
    same. *)
Definition scenarioOtherV : Store.Collection :=
  [ sample "e5" "V" (9 # 1) "Travel" (JS.newDate 0 2025 0 2 12 0 0);
    sample "e1" "U" (100 # 1) "Food" (JS.newDate 0 2025 0 5 12 0 0);
    sample "e2" "U" (50 # 1) "Food" (JS.newDate 0 2025 0 20 12 0 0);
    sample "e3" "U" (30 # 1) "Transportation" (JS.newDate 0 2025 0 10 12 0 0) ].

(** A check that the strings of a list are distinct. *)
Fixpoint distinctb (l : list string) : bool :=
  match l with
  | [] => true
  | x :: l' => negb (existsb (String.eqb x) l') && distinctb l'
  end.





(** The entry of [trendData] for an entry of the accumulator. *)
Definition trendItem (item : ReportController.TrendEntry)
  : ReportController.TrendItem :=
  ReportController.mkTrendItem (ReportController.month item)
    (JS.toFixed2 (ReportController.total item))
    (ReportController.count item)
    (JS.parseFloat_toFixed2
       (JS.div (ReportController.total item)
          (inject_Z (ReportController.count item)))).

(** The path and the direction by which a list query sorts. *)
Definition sortPath (q : ExpenseController.ListQuery) : string :=
  ExpenseController.default (ExpenseController.q_sortBy q) "date"%string.

Definition ascending (q : ExpenseController.ListQuery) : bool :=
  String.eqb
    (ExpenseController.default (ExpenseController.q_order q) "desc"%string)
    "asc".

(** [a] may stand before [b] in a listing by [path], ascending or not. *)
Definition mayPrecede (path : string) (asc : bool) (a b : Store.Expense)
  : Prop :=
  match Store.comparePath path a b with
  | Eq => True
  | Lt => asc = true
  | Gt => asc = false
  end.

(** No two of the records are equal on the path: their order by that path
    is determined.  (The store leaves the order of records that are equal
    on the sort path open; the embedding keeps them in their order of
    insertion.) *)
Definition distinctOn (path : string) (l : list Store.Expense) : Prop :=
  forall a b, In a l -> In b l -> Store.comparePath path a b = Eq -> a = b.

(** The same list query with a page size and a page number. *)
Definition withPage (q : ExpenseController.ListQuery) (limit page : Z)
  : ExpenseController.ListQuery :=
  ExpenseController.mkListQuery
    (ExpenseController.q_category q) (ExpenseController.q_startDate q)
    (ExpenseController.q_endDate q) (ExpenseController.q_sortBy q)
    (ExpenseController.q_order q) (Some limit) (Some page).

(** The records that a list call answers with, none when it fails. *)
Definition listed (uid : string) (q : ExpenseController.ListQuery)
  (c : Store.Collection) : list Store.Expense :=
  match ExpenseController.getAllExpenses uid q c with
  | Json _ _ data => ExpenseController.expenses data
  | Next _ => []
  end.

(** The document that a create call builds from the body. *)
Definition proposed (clock now : Z) (newId uid : string)
  (body : ExpenseController.Body) : ExpenseModel.Document :=
  ExpenseModel.construct newId uid now
    [ ("title"%string, ExpenseController.get body "title");
      ("amount"%string, ExpenseController.get body "amount");
      ("category"%string, ExpenseController.get body "category");
      ("date"%string,
       Some (ExpenseController.orValue (ExpenseController.get body "date")
               (ExpenseModel.VDate clock)));
      ("notes"%string,
       Some (ExpenseController.orValue (ExpenseController.get body "notes")
               (ExpenseModel.VString EmptyString)));
      ("paymentMethod"%string,
       Some (ExpenseController.orValue
               (ExpenseController.get body "paymentMethod")
               (ExpenseModel.VString "Other"))) ].

(** The value that a path of the allow-list holds once a value of its type
    was assigned to it: the [trim: true] paths hold the trimmed string. *)
Definition stored (key : string) (v : ExpenseModel.Value)
  : option ExpenseModel.Value :=
  match v with
  | ExpenseModel.VString s =>
      if String.eqb key "title" || String.eqb key "notes"
      then Some (ExpenseModel.VString (ExpenseModel.trim s))
      else if String.eqb key "category" || String.eqb key "paymentMethod"
           then Some v
           else None
  | ExpenseModel.VNumber (JS.Finite _) =>
      if String.eqb key "amount" then Some v else None
  | ExpenseModel.VNumber _ => None
  | ExpenseModel.VDate _ => if String.eqb key "date" then Some v else None
  end.


(** The invariant of the collection: every document passes the validators
    of the schema, and no two documents share their [_id]. *)
Definition validStore (c : Store.Collection) : Prop :=
  Forall (fun e => ExpenseModel.validate e = true) c
  /\ NoDup (map Store._id c).

(** A body for a lunch of 12 units that also names an owner. *)
Definition lunchBody : ExpenseController.Body :=
  [ ("title"%string, ExpenseModel.VString " Lunch ");
    ("amount"%string, ExpenseModel.VNumber (JS.Finite (12 # 1)));
    ("category"%string, ExpenseModel.VString "Food");
    ("userId"%string, ExpenseModel.VString "V") ].

(** What [applyUpdates] does for one key of the body. *)
Definition assignKey (updates : ExpenseController.Body)
  (doc : ExpenseModel.Document) (key : string) : ExpenseModel.Document :=
  if ExpenseModel.includes ExpenseController.allowedUpdates key then
    match ExpenseController.get updates key with
    | Some v => ExpenseModel.assign key v doc
    | None => doc
    end
  else doc.

(** The number of records that the entries of a trend count. *)
Definition countedBy (acc : ReportController.TrendAcc) : Z :=
  fold_right Z.add 0
    (map ReportController.count (ReportController.Object_values acc)).


(** Whether a character occurs in a string. *)
Fixpoint occursIn (ch : ascii) (s : string) : bool :=
  match s with
  | EmptyString => false
  | String c s' => Ascii.eqb c ch || occursIn ch s'
  end.

(** The user that the middleware attaches for a decoded token. *)
Definition userOf (decoded : AuthMiddleware.DecodedToken)
  : AuthMiddleware.User :=
  AuthMiddleware.mkUser (AuthMiddleware.token_uid decoded)
    (AuthMiddleware.token_email decoded)
    (AuthMiddleware.token_email_verified decoded).

(** * Properties *)

(** ** Sums of rationals *)

Lemma Qsum_app (l1 l2 : list Q) : (Qsum (l1 ++ l2) == Qsum l1 + Qsum l2)%Q.
Proof.
  induction l1 as [|x l1 IH]; simpl.
  - ring.
  - rewrite IH. ring.
Qed.




Lemma Qsum_pos (l : list Q) :
  l <> [] -> Forall (fun x => (0 < x)%Q) l -> (0 < Qsum l)%Q.
Proof.
  intros Hne Hall. induction Hall as [|x l Hx Hl IH].
  - contradiction.
  - simpl. destruct l as [|y l'].
    + simpl. rewrite Qplus_0_r. exact Hx.
    + assert (0 < Qsum (y :: l'))%Q by (apply IH; discriminate).
      apply (Qlt_trans _ (x + 0)).
      * rewrite Qplus_0_r. exact Hx.
      * apply Qplus_lt_r. assumption.
Qed.

(** ** The stable sort *)

Section Sorting.
Context {A : Type}.
Variable le : A -> A -> bool.

Lemma insert_by_perm (x : A) (l : list A) :
  Permutation (JS.insert_by le x l) (x :: l).
Proof.
  induction l as [|y l IH]; simpl.
  - apply Permutation_refl.
  - destruct (le x y).
    + apply Permutation_refl.
    + eapply perm_trans; [apply perm_skip, IH | apply perm_swap].
Qed.

Lemma sort_by_perm (l : list A) : Permutation (JS.sort_by le l) l.
Proof.
  induction l as [|x l IH]; simpl.
  - apply perm_nil.
  - eapply perm_trans; [apply insert_by_perm | apply perm_skip, IH].
Qed.


Lemma sort_by_In (l : list A) (x : A) : In x (JS.sort_by le l) <-> In x l.
Proof.
  split; apply Permutation_in;
    [apply sort_by_perm | apply Permutation_sym, sort_by_perm].
Qed.

Hypothesis le_total : forall a b, le a b = false -> le b a = true.

Lemma insert_by_sorted (x : A) (l : list A) :
  Sorted (fun a b => le a b = true) l ->
  Sorted (fun a b => le a b = true) (JS.insert_by le x l).
Proof.
  induction 1 as [|y l Hs IH Hhd]; simpl.
  - repeat constructor.
  - destruct (le x y) eqn:Hxy.
    + constructor; [constructor; assumption | constructor; exact Hxy].
    + constructor; [exact IH|].
      destruct l as [|z l']; simpl.
      * constructor. apply le_total, Hxy.
      * destruct (le x z); constructor.
        -- apply le_total, Hxy.
        -- inversion Hhd; assumption.
Qed.

Lemma sort_by_sorted (l : list A) :
  Sorted (fun a b => le a b = true) (JS.sort_by le l).
Proof.
  induction l as [|x l IH]; simpl.
  - constructor.
  - apply insert_by_sorted, IH.
Qed.

Hypothesis le_trans :
  forall a b c, le a b = true -> le b c = true -> le a c = true.

Lemma sort_by_strongly_sorted (l : list A) :
  StronglySorted (fun a b => le a b = true) (JS.sort_by le l).
Proof.
  apply Sorted_StronglySorted.
  - intros a b c. apply le_trans.
  - apply sort_by_sorted.
Qed.
End Sorting.

Lemma StronglySorted_weaken {A : Type} (R R' : A -> A -> Prop) (l : list A) :
  (forall a b, R a b -> R' a b) -> StronglySorted R l -> StronglySorted R' l.
Proof.
  intros Himp. induction 1 as [|x l Hs IH Hall]; constructor.
  - exact IH.
  - eapply Forall_impl; [|exact Hall]. intros b. apply Himp.
Qed.

(** ** Rounding to two decimals *)

Lemma Qfloor_proper (x y : Q) : (x == y)%Q -> Qfloor x = Qfloor y.
Proof. intros H. apply Qfloor_comp. exact H. Qed.

Lemma toFixed2_Qeq (x y : Q) : (x == y)%Q -> (JS.toFixed2 x == JS.toFixed2 y)%Q.
Proof.
  intros H. unfold JS.toFixed2.
  assert (Ha : Qle_bool (1000000000000000000000 # 1) (Qabs x)
               = Qle_bool (1000000000000000000000 # 1) (Qabs y)).
  { apply eq_true_iff_eq. rewrite !Qle_bool_iff. rewrite H. reflexivity. }
  assert (Hb : Qle_bool 0 x = Qle_bool 0 y).
  { apply eq_true_iff_eq. rewrite !Qle_bool_iff. rewrite H. reflexivity. }
  rewrite Ha, Hb.
  destruct (Qle_bool _ (Qabs y)); [exact H|].
  destruct (Qle_bool 0 y).
  - rewrite (Qfloor_proper (x * (100 # 1) + (1 # 2)) (y * (100 # 1) + (1 # 2)));
      [reflexivity | rewrite H; reflexivity].
  - rewrite (Qfloor_proper (- x * (100 # 1) + (1 # 2)) (- y * (100 # 1) + (1 # 2)));
      [reflexivity | rewrite H; reflexivity].
Qed.

(** Below 1e21 the result is the hundredth nearest to the argument. *)
Lemma toFixed2_nearest (x : Q) :
  (Qabs x < 1000000000000000000000 # 1)%Q ->
  exists n : Z, JS.toFixed2 x = Qmake n 100
                /\ (Qabs (JS.toFixed2 x - x) <= 1 # 200)%Q.
Proof.
  intros Hx. unfold JS.toFixed2.
  destruct (Qle_bool (1000000000000000000000 # 1) (Qabs x)) eqn:Hbig.
  - apply Qle_bool_iff in Hbig. exfalso. apply (Qlt_irrefl (Qabs x)).
    eapply Qlt_le_trans; eassumption.
  - destruct (Qle_bool 0 x) eqn:Hsign.
    + set (r := (x * (100 # 1) + (1 # 2))%Q).
      exists (Qfloor r). split; [reflexivity|].
      pose proof (Qfloor_le r) as Hlo. pose proof (Qlt_floor r) as Hhi.
      assert (Heq : (Qmake (Qfloor r) 100 == inject_Z (Qfloor r) / (100 # 1))%Q).
      { unfold Qeq, Qdiv, Qmult, Qinv, inject_Z; simpl. lia. }
      rewrite Heq. apply Qabs_Qle_condition.
      rewrite inject_Z_plus in Hhi. unfold r in *.
      split.
      * apply Qle_minus_iff. apply Qlt_le_weak in Hhi.
        apply Qle_minus_iff in Hhi.
        setoid_replace (inject_Z (Qfloor (x * (100 # 1) + (1 # 2))) / (100 # 1)
                        - x + - - (1 # 200))%Q
          with ((inject_Z (Qfloor (x * (100 # 1) + (1 # 2))) + inject_Z 1
                 + - (x * (100 # 1) + (1 # 2))) * (1 # 100))%Q by (field).
        apply Qmult_le_0_compat; [exact Hhi | discriminate].
      * apply Qle_minus_iff. apply Qle_minus_iff in Hlo.
        setoid_replace ((1 # 200) + - (inject_Z (Qfloor (x * (100 # 1) + (1 # 2)))
                                      / (100 # 1) - x))%Q
          with ((x * (100 # 1) + (1 # 2)
                 + - inject_Z (Qfloor (x * (100 # 1) + (1 # 2)))) * (1 # 100))%Q
          by (field).
        apply Qmult_le_0_compat; [exact Hlo | discriminate].
    + set (r := (- x * (100 # 1) + (1 # 2))%Q).
      exists (- Qfloor r). split; [reflexivity|].
      pose proof (Qfloor_le r) as Hlo. pose proof (Qlt_floor r) as Hhi.
      assert (Heq : (- Qmake (Qfloor r) 100 == - (inject_Z (Qfloor r) / (100 # 1)))%Q).
      { unfold Qeq, Qdiv, Qmult, Qinv, Qopp, inject_Z; simpl. lia. }
      rewrite Heq. apply Qabs_Qle_condition.
      rewrite inject_Z_plus in Hhi. unfold r in *.
      split.
      * apply Qle_minus_iff. apply Qle_minus_iff in Hlo.
        setoid_replace (- (inject_Z (Qfloor (- x * (100 # 1) + (1 # 2))) / (100 # 1))
                        - x + - - (1 # 200))%Q
          with ((- x * (100 # 1) + (1 # 2)
                 + - inject_Z (Qfloor (- x * (100 # 1) + (1 # 2)))) * (1 # 100))%Q
          by (field).
        apply Qmult_le_0_compat; [exact Hlo | discriminate].
      * apply Qle_minus_iff. apply Qlt_le_weak in Hhi.
        apply Qle_minus_iff in Hhi.
        setoid_replace ((1 # 200)
                        + - (- (inject_Z (Qfloor (- x * (100 # 1) + (1 # 2)))
                                / (100 # 1)) - x))%Q
          with ((inject_Z (Qfloor (- x * (100 # 1) + (1 # 2))) + inject_Z 1
                 + - (- x * (100 # 1) + (1 # 2))) * (1 # 100))%Q by (field).
        apply Qmult_le_0_compat; [exact Hhi | discriminate].
Qed.

(** ** The calendar *)

Ltac div_by_cases := Z.div_mod_to_equations; lia.

Lemma DayFromYear_succ (y : Z) :
  JS.DayFromYear (y + 1) = JS.DayFromYear y + JS.DaysInYear y.
Proof.
  unfold JS.DayFromYear, JS.DaysInYear, JS.InLeapYear.
  destruct (y mod 4 =? 0) eqn:H4; cbn [negb].
  - apply Z.eqb_eq in H4.
    replace ((y + 1 - 1969) / 4) with ((y - 1969) / 4 + 1) by div_by_cases.
    destruct (y mod 100 =? 0) eqn:H100; cbn [negb].
    + apply Z.eqb_eq in H100.
      replace ((y + 1 - 1901) / 100) with ((y - 1901) / 100 + 1)
        by div_by_cases.
      destruct (y mod 400 =? 0) eqn:H400; cbn [negb].
      * apply Z.eqb_eq in H400.
        replace ((y + 1 - 1601) / 400) with ((y - 1601) / 400 + 1)
          by div_by_cases.
        lia.
      * apply Z.eqb_neq in H400.
        replace ((y + 1 - 1601) / 400) with ((y - 1601) / 400)
          by div_by_cases.
        lia.
    + apply Z.eqb_neq in H100.
      replace ((y + 1 - 1901) / 100) with ((y - 1901) / 100) by div_by_cases.
      replace ((y + 1 - 1601) / 400) with ((y - 1601) / 400) by div_by_cases.
      lia.
  - apply Z.eqb_neq in H4.
    replace ((y + 1 - 1969) / 4) with ((y - 1969) / 4) by div_by_cases.
    replace ((y + 1 - 1901) / 100) with ((y - 1901) / 100) by div_by_cases.
    replace ((y + 1 - 1601) / 400) with ((y - 1601) / 400) by div_by_cases.
    lia.
Qed.

Lemma DaysInYear_bounds (y : Z) : 365 <= JS.DaysInYear y <= 366.
Proof. unfold JS.DaysInYear. destruct (JS.InLeapYear y); lia. Qed.

Lemma DayFromYear_mono (y1 y2 : Z) :
  y1 <= y2 -> JS.DayFromYear y1 <= JS.DayFromYear y2.
Proof.
  intros H. unfold JS.DayFromYear. div_by_cases.
Qed.

Lemma DayFromYear_lt (y1 y2 : Z) :
  y1 < y2 -> JS.DayFromYear y1 < JS.DayFromYear y2.
Proof.
  intros H.
  pose proof (DayFromYear_mono (y1 + 1) y2 ltac:(lia)).
  pose proof (DayFromYear_succ y1). pose proof (DaysInYear_bounds y1). lia.
Qed.

(** The year of a day is the one whose days contain it. *)
Lemma YearFromDay_spec (d : Z) :
  JS.DayFromYear (JS.YearFromDay d) <= d < JS.DayFromYear (JS.YearFromDay d + 1).
Proof.
  unfold JS.YearFromDay.
  set (y0 := 1970 + 400 * d / 146097).
  assert (Hy0 : JS.DayFromYear (y0 - 1) <= d < JS.DayFromYear (y0 + 2)).
  { unfold JS.DayFromYear. subst y0. div_by_cases. }
  destruct (d <? JS.DayFromYear y0) eqn:H1.
  - apply Z.ltb_lt in H1. replace (y0 - 1 + 1) with y0 by lia. lia.
  - apply Z.ltb_ge in H1.
    destruct (JS.DayFromYear (y0 + 1) <=? d) eqn:H2.
    + apply Z.leb_le in H2. replace (y0 + 1 + 1) with (y0 + 2) by lia. lia.
    + apply Z.leb_gt in H2. lia.
Qed.

Lemma YearFromDay_unique (d y : Z) :
  JS.DayFromYear y <= d < JS.DayFromYear (y + 1) -> JS.YearFromDay d = y.
Proof.
  intros [Hlo Hhi]. pose proof (YearFromDay_spec d) as [Hlo' Hhi'].
  destruct (Z.lt_trichotomy (JS.YearFromDay d) y) as [Hlt | [Heq | Hgt]].
  - pose proof (DayFromYear_mono (JS.YearFromDay d + 1) y ltac:(lia)). lia.
  - exact Heq.
  - pose proof (DayFromYear_mono (y + 1) (JS.YearFromDay d) ltac:(lia)). lia.
Qed.

Lemma InLeapYear_gregorian (y : Z) : JS.InLeapYear y = isLeapYear y.
Proof.
  unfold JS.InLeapYear, isLeapYear.
  destruct (y mod 4 =? 0), (y mod 100 =? 0), (y mod 400 =? 0); reflexivity.
Qed.

Lemma MakeDay_in_year (y m d : Z) :
  0 <= m <= 11 ->
  JS.MakeDay y m d = JS.DayFromYear y + JS.monthStart (JS.InLeapYear y) m + d - 1.
Proof.
  intros Hm. unfold JS.MakeDay.
  rewrite Z.div_small, Z.mod_small by lia.
  rewrite Z.add_0_r. reflexivity.
Qed.

Lemma MakeDay_month_12 (y d : Z) :
  JS.MakeDay y 12 d
  = JS.DayFromYear y + JS.monthStart (JS.InLeapYear y) 12 + d - 1.
Proof.
  unfold JS.MakeDay.
  change (12 / 12) with 1. change (12 mod 12) with 0.
  rewrite DayFromYear_succ. unfold JS.DaysInYear, JS.monthStart.
  destruct (JS.InLeapYear y), (JS.InLeapYear (y + 1)); lia.
Qed.

(** Within a year, month index 12 is the start of the next year. *)
Lemma MakeDay_upto_12 (y m d : Z) :
  0 <= m <= 12 ->
  JS.MakeDay y m d = JS.DayFromYear y + JS.monthStart (JS.InLeapYear y) m + d - 1.
Proof.
  intros Hm. destruct (Z.eq_dec m 12) as [-> | Hne].
  - apply MakeDay_month_12.
  - apply MakeDay_in_year. lia.
Qed.

Lemma month_cases (m : Z) :
  1 <= m <= 12 ->
  m = 1 \/ m = 2 \/ m = 3 \/ m = 4 \/ m = 5 \/ m = 6 \/ m = 7 \/ m = 8
  \/ m = 9 \/ m = 10 \/ m = 11 \/ m = 12.
Proof. lia. Qed.

Ltac each_month H :=
  apply month_cases in H;
  repeat (destruct H as [H | H]); subst.

Lemma monthStart_step (leap : bool) (y m : Z) :
  1 <= m <= 12 -> leap = isLeapYear y ->
  JS.monthStart leap m = JS.monthStart leap (m - 1) + daysOfMonth y m.
Proof.
  intros Hm ->.
  each_month Hm; unfold daysOfMonth;
    cbn [JS.monthStart Z.sub Z.add Z.opp Z.pos_sub Pos.pred_double];
    destruct (isLeapYear y); reflexivity.
Qed.

(** The end of the window is one second before the start of the next
    month, and the month between the two starts has its calendar
    length. *)
Lemma monthEndDate_is_next_start_minus_second (tza year month : Z) :
  ExpenseModel.monthEndDate tza year month
  = ExpenseModel.monthStartDate tza year (month + 1) - 1000.
Proof.
  unfold ExpenseModel.monthEndDate, ExpenseModel.monthStartDate, JS.newDate,
    JS.MakeDate, JS.MakeTime, JS.MakeDay.
  replace (month + 1 - 1) with month by lia.
  unfold JS.msPerDay, JS.msPerHour, JS.msPerMinute, JS.msPerSecond. lia.
Qed.

Lemma month_length (tza year month : Z) :
  1 <= month <= 12 ->
  ExpenseModel.monthStartDate tza year (month + 1)
  = ExpenseModel.monthStartDate tza year month
    + daysOfMonth year month * JS.msPerDay.
Proof.
  intros Hm. unfold ExpenseModel.monthStartDate, JS.newDate, JS.MakeDate.
  replace (month + 1 - 1) with month by lia.
  rewrite (MakeDay_upto_12 year month) by lia.
  rewrite (MakeDay_upto_12 year (month - 1)) by lia.
  rewrite (monthStart_step (JS.InLeapYear year) year month Hm
             (InLeapYear_gregorian year)).
  lia.
Qed.

(** The calendar functions invert the construction of a date: a day [d]
    of month [m] (1 to 12) of year [y], at any time of the day, is read
    back as year [y], month index [m - 1] and date [d]. *)
Lemma Day_MakeDate (day time : Z) :
  0 <= time < JS.msPerDay -> JS.Day (JS.MakeDate day time) = day.
Proof.
  unfold JS.Day, JS.MakeDate, JS.msPerDay. intros H. div_by_cases.
Qed.

Lemma daysOfMonth_bounds (y m : Z) : 28 <= daysOfMonth y m <= 31.
Proof.
  unfold daysOfMonth.
  repeat match goal with
         | |- context [match ?x with _ => _ end] => destruct x
         end; lia.
Qed.

Lemma monthStart_last (leap : bool) :
  JS.monthStart leap 12 = if leap then 366 else 365.
Proof. destruct leap; reflexivity. Qed.

Lemma monthStart_mono (y m : Z) :
  1 <= m <= 12 ->
  0 <= JS.monthStart (isLeapYear y) (m - 1)
  /\ JS.monthStart (isLeapYear y) m <= JS.DaysInYear y.
Proof.
  intros Hm. unfold JS.DaysInYear. rewrite InLeapYear_gregorian.
  each_month Hm; cbn [JS.monthStart Z.sub Z.add Z.opp Z.pos_sub Pos.pred_double];
    destruct (isLeapYear y); lia.
Qed.

Lemma monthOfDay_spec (leap : bool) (dwy m : Z) :
  1 <= m <= 12 ->
  JS.monthStart leap (m - 1) <= dwy < JS.monthStart leap m ->
  JS.monthOfDay leap dwy 11 = m - 1.
Proof.
  intros Hm H.
  each_month Hm; destruct leap; simpl in H;
    cbv [JS.monthOfDay JS.monthStart Z.of_nat Pos.of_succ_nat Pos.succ];
    repeat match goal with
           | |- context [?a <=? ?b] => destruct (Z.leb_spec a b); try lia
           end;
    reflexivity.
Qed.

Lemma calendar_round_trip (y m d time : Z) :
  1 <= m <= 12 -> 1 <= d <= daysOfMonth y m -> 0 <= time < JS.msPerDay ->
  let t := JS.MakeDate (JS.MakeDay y (m - 1) d) time in
  JS.YearFromTime t = y /\ JS.MonthFromTime t = m - 1 /\ JS.DateFromTime t = d.
Proof.
  intros Hm Hd Htime t.
  assert (Hday : JS.Day t
                 = JS.DayFromYear y + JS.monthStart (isLeapYear y) (m - 1) + d - 1).
  { unfold t. rewrite Day_MakeDate by exact Htime.
    rewrite MakeDay_in_year by lia. rewrite InLeapYear_gregorian. reflexivity. }
  pose proof (monthStart_step (isLeapYear y) y m Hm eq_refl) as Hstep.
  pose proof (monthStart_mono y m Hm) as [Hlo Hhi].
  assert (Hyear : JS.YearFromTime t = y).
  { unfold JS.YearFromTime. apply YearFromDay_unique.
    rewrite DayFromYear_succ, Hday. lia. }
  assert (Hdwy : JS.DayWithinYear t
                 = JS.monthStart (isLeapYear y) (m - 1) + d - 1).
  { unfold JS.DayWithinYear. rewrite Hyear, Hday. lia. }
  assert (Hmonth : JS.MonthFromTime t = m - 1).
  { unfold JS.MonthFromTime. rewrite Hyear, Hdwy, InLeapYear_gregorian.
    apply monthOfDay_spec; [exact Hm | lia]. }
  split; [exact Hyear|]. split; [exact Hmonth|].
  unfold JS.DateFromTime.
  rewrite Hdwy, Hyear, Hmonth, InLeapYear_gregorian. lia.
Qed.

(** [daysInMonth] of the monthly report: the date of day 0 of the next
    month is the length of the month. *)
Lemma getDate_day_0 (tza year month : Z) :
  1 <= month <= 12 ->
  JS.getDate tza (JS.newDate tza year month 0 0 0 0) = daysOfMonth year month.
Proof.
  intros Hm. unfold JS.getDate, JS.newDate.
  replace (JS.MakeDate (JS.MakeDay year month 0) (JS.MakeTime 0 0 0 0)
           - tza + tza)
    with (JS.MakeDate (JS.MakeDay year (month - 1) (daysOfMonth year month)) 0)
    by (rewrite (MakeDay_upto_12 year month) by lia;
        rewrite (MakeDay_upto_12 year (month - 1)) by lia;
        rewrite (monthStart_step (JS.InLeapYear year) year month Hm
                   (InLeapYear_gregorian year));
        unfold JS.MakeDate, JS.MakeTime; lia).
  pose proof (daysOfMonth_bounds year month).
  apply (calendar_round_trip year month (daysOfMonth year month) 0 Hm);
    [lia | unfold JS.msPerDay; lia].
Qed.

(** The documents that the monthly [$match] keeps. *)
Lemma monthFilter_matches (tza : Z) (uid : string) (month year : Z)
  (e : Store.Expense) :
  Store.matches (ExpenseModel.monthFilter tza uid month year) e = true
  <-> Store.userId e = uid
      /\ ExpenseModel.monthStartDate tza year month <= Store.date e
         <= ExpenseModel.monthStartDate tza year (month + 1) - 1000.
Proof.
  unfold Store.matches, ExpenseModel.monthFilter; simpl.
  rewrite !andb_true_iff, String.eqb_eq, !Z.leb_le.
  rewrite monthEndDate_is_next_start_minus_second. tauto.
Qed.

(** ** Grouping *)

Section Grouping.
Import Store.
Variable key : Expense -> string.

Lemma group_add_ids (k : string) (x : Q) (gs : list Group) :
  map group_id (group_add k x gs)
  = if existsb (fun g => String.eqb (group_id g) k) gs
    then map group_id gs else map group_id gs ++ [k].
Proof.
  induction gs as [|g gs IH]; simpl.
  - reflexivity.
  - destruct (String.eqb (group_id g) k) eqn:Hk; simpl.
    + apply String.eqb_eq in Hk. now rewrite Hk.
    + rewrite IH. destruct (existsb _ gs); reflexivity.
Qed.

Lemma existsb_group_id (k : string) (gs : list Group) :
  existsb (fun g => String.eqb (group_id g) k) gs = true
  <-> In k (map group_id gs).
Proof.
  rewrite existsb_exists, in_map_iff.
  split; intros [g [H1 H2]]; exists g.
  - apply String.eqb_eq in H2. tauto.
  - rewrite String.eqb_eq. tauto.
Qed.

Lemma group_add_In (k : string) (x : Q) (gs : list Group) (g' : Group) :
  NoDup (map group_id gs) ->
  In g' (group_add k x gs) ->
  (In g' gs /\ group_id g' <> k)
  \/ (group_id g' = k
      /\ ((exists g, In g gs /\ group_id g = k
                     /\ group_total g' = (group_total g + x)%Q
                     /\ group_count g' = group_count g + 1)
          \/ (~ In k (map group_id gs)
              /\ group_total g' = x /\ group_count g' = 1))).
Proof.
  induction gs as [|g gs IH]; simpl; intros Hnd.
  - intros [<- | []]. right. simpl. split; [reflexivity|]. right. tauto.
  - inversion Hnd as [|? ? Hnotin Hnd']; subst.
    destruct (String.eqb (group_id g) k) eqn:Hk.
    + apply String.eqb_eq in Hk. intros [<- | Hin].
      * right. simpl. split; [reflexivity|]. left. exists g. tauto.
      * left. split; [right; exact Hin|].
        intros Heq. apply Hnotin. rewrite Hk, <- Heq.
        apply in_map, Hin.
    + apply String.eqb_neq in Hk. intros [<- | Hin].
      * left. tauto.
      * destruct (IH Hnd' Hin) as [[H1 H2] | [H1 [H2 | H2]]].
        -- left. tauto.
        -- right. split; [exact H1|]. left.
           destruct H2 as [g0 [Hg0 Hrest]]. exists g0. tauto.
        -- right. split; [exact H1|]. right.
           split; [|tauto]. intros [Heq | Hin']; [congruence | tauto].
Qed.

Lemma group_add_NoDup (k : string) (x : Q) (gs : list Group) :
  NoDup (map group_id gs) -> NoDup (map group_id (group_add k x gs)).
Proof.
  intros Hnd. rewrite group_add_ids.
  destruct (existsb _ gs) eqn:Hex; [exact Hnd|].
  assert (Hnot : ~ In k (map group_id gs)).
  { intros Hin. apply existsb_group_id in Hin. congruence. }
  apply Permutation_NoDup with (l := k :: map group_id gs).
  - apply Permutation_cons_append.
  - constructor; assumption.
Qed.

Lemma withKey_snoc (k : string) (docs : list Expense) (e : Expense) :
  withKey key k (docs ++ [e])
  = withKey key k docs ++ (if String.eqb (key e) k then [e] else []).
Proof. unfold withKey. rewrite filter_app. reflexivity. Qed.

Lemma withKey_nil_iff (k : string) (docs : list Expense) :
  withKey key k docs = [] <-> (forall e, In e docs -> key e <> k).
Proof.
  unfold withKey. induction docs as [|d docs IH]; simpl.
  - split; [intros _ e [] | reflexivity].
  - destruct (String.eqb (key d) k) eqn:Hk.
    + apply String.eqb_eq in Hk. split; [discriminate|].
      intros H. exfalso. apply (H d); auto.
    + apply String.eqb_neq in Hk. rewrite IH. split.
      * intros H e [<- | Hin]; auto.
      * intros H e Hin. apply H. auto.
Qed.

(** One more document keeps the groups those of the documents. *)
Lemma groups_of_step (docs : list Expense) (gs : list Group) (e : Expense) :
  groups_of key docs gs ->
  groups_of key (docs ++ [e]) (group_add (key e) (amount e) gs).
Proof.
  intros [Hnd [Hgs Hall]]. split; [|split].
  - apply group_add_NoDup, Hnd.
  - intros g' Hin.
    destruct (group_add_In _ _ _ _ Hnd Hin) as [[H1 H2] | [H1 [H2 | H2]]].
    + destruct (Hgs g' H1) as [Hne [Ht Hc]].
      rewrite withKey_snoc.
      assert (Hk : String.eqb (key e) (group_id g') = false)
        by (apply String.eqb_neq; congruence).
      rewrite Hk, app_nil_r. tauto.
    + destruct H2 as [g [Hg [Hid [Ht Hc]]]].
      destruct (Hgs g Hg) as [Hne [Ht' Hc']].
      rewrite withKey_snoc, H1, String.eqb_refl.
      rewrite Hid in *. split; [|split].
      * intros Habs. apply app_eq_nil in Habs. destruct Habs; discriminate.
      * rewrite Ht, Ht'. unfold amountsOf. rewrite map_app, Qsum_app.
        simpl. ring.
      * rewrite Hc, Hc', length_app. simpl. lia.
    + destruct H2 as [Hnot [Ht Hc]].
      assert (Hempty : withKey key (key e) docs = []).
      { apply withKey_nil_iff. intros d Hd Heq. apply Hnot.
        rewrite <- Heq. apply Hall, Hd. }
      rewrite withKey_snoc, H1, String.eqb_refl, Hempty. simpl.
      split; [discriminate|]. split; [rewrite Ht; ring | exact Hc].
  - intros d Hd. rewrite group_add_ids.
    apply in_app_or in Hd. destruct Hd as [Hd | [<- | []]].
    + destruct (existsb _ gs); [|apply in_or_app; left]; apply Hall, Hd.
    + destruct (existsb _ gs) eqn:Hex.
      * apply existsb_group_id, Hex.
      * apply in_or_app. right. left. reflexivity.
Qed.

Lemma groups_of_fold (docs pre : list Expense) (gs : list Group) :
  groups_of key pre gs ->
  groups_of key (pre ++ docs)
    (fold_left (fun gs e => group_add (key e) (amount e) gs) docs gs).
Proof.
  revert pre gs. induction docs as [|e docs IH]; intros pre gs H; simpl.
  - rewrite app_nil_r. exact H.
  - replace (pre ++ e :: docs) with ((pre ++ [e]) ++ docs)
      by (rewrite <- app_assoc; reflexivity).
    apply IH, groups_of_step, H.
Qed.

Lemma group_by_groups_of (docs : list Expense) :
  groups_of key docs (group_by key docs).
Proof.
  apply (groups_of_fold docs [] []).
  split; [constructor | split; [intros g [] | intros e []]].
Qed.







Lemma groups_of_perm (docs : list Expense) (gs gs' : list Group) :
  Permutation gs gs' -> groups_of key docs gs -> groups_of key docs gs'.
Proof.
  intros Hp [Hnd [Hgs Hall]]. split; [|split].
  - eapply Permutation_NoDup; [apply Permutation_map, Hp | exact Hnd].
  - intros g Hg. apply Hgs. eapply Permutation_in; [symmetry; exact Hp | exact Hg].
  - intros e He. eapply Permutation_in; [apply Permutation_map, Hp|].
    apply Hall, He.
Qed.

Lemma sort_total_desc_sorted (gs : list Group) :
  StronglySorted (fun a b => (group_total b <= group_total a)%Q)
    (sort_total_desc gs).
Proof.
  unfold sort_total_desc.
  eapply StronglySorted_weaken; [|apply sort_by_strongly_sorted].
  - intros a b H. apply Qle_bool_iff in H. exact H.
  - intros a b H. apply Qle_bool_iff.
    destruct (Qlt_le_dec (group_total a) (group_total b)) as [Hlt | Hle].
    + apply Qlt_le_weak, Hlt.
    + apply Qle_bool_iff in Hle. congruence.
  - intros a b c H1 H2. apply Qle_bool_iff in H1, H2. apply Qle_bool_iff.
    eapply Qle_trans; eassumption.
Qed.

Lemma sorted_groups_of (docs : list Expense) :
  groups_of key docs (sort_total_desc (group_by key docs)).
Proof.
  eapply groups_of_perm; [|apply group_by_groups_of].
  symmetry. apply sort_by_perm.
Qed.


Lemma Zsum_perm (l1 l2 : list Z) :
  Permutation l1 l2 -> fold_right Z.add 0 l1 = fold_right Z.add 0 l2.
Proof. induction 1; simpl; lia. Qed.

End Grouping.

(** ** Percentages *)




Section GroupShares.
Import Store.
Variable key : Expense -> string.
Variable docs : list Expense.
Hypothesis positive : Forall (fun e => (0 < amount e)%Q) docs.

Lemma amountsOf_positive (l : list Expense) :
  (forall e, In e l -> In e docs) ->
  Forall (fun x => (0 < x)%Q) (amountsOf l).
Proof.
  intros Hsub. unfold amountsOf. apply Forall_forall. intros x Hx.
  apply in_map_iff in Hx. destruct Hx as [e [<- He]].
  rewrite Forall_forall in positive. apply positive, Hsub, He.
Qed.

Lemma group_total_positive (gs : list Group) (g : Group) :
  groups_of key docs gs -> In g gs -> (0 < group_total g)%Q.
Proof.
  intros [_ [Hgs _]] Hin. destruct (Hgs g Hin) as [Hne [Ht _]].
  rewrite Ht. apply Qsum_pos.
  - unfold amountsOf. intros Habs. apply map_eq_nil in Habs. contradiction.
  - apply amountsOf_positive. intros e He. unfold withKey in He.
    apply filter_In in He. tauto.
Qed.

End GroupShares.

Lemma find_subset (f : Store.Filter) (c : Store.Collection) (e : Store.Expense) :
  In e (Store.find f c) -> In e c.
Proof. unfold Store.find. intros H. apply filter_In in H. tauto. Qed.

Lemma find_positive (f : Store.Filter) (c : Store.Collection) :
  Forall (fun e => (0 < Store.amount e)%Q) c ->
  Forall (fun e => (0 < Store.amount e)%Q) (Store.find f c).
Proof.
  intros H. apply Forall_forall. intros e He.
  rewrite Forall_forall in H. apply H, (find_subset f), He.
Qed.

Lemma group_by_nil (key : Store.Expense -> string) :
  Store.sort_total_desc (Store.group_by key []) = [].
Proof. reflexivity. Qed.

(** ** The monthly summary *)

Import Store ExpenseModel.





Lemma scenario_positive : Forall (fun e => (0 < amount e)%Q) scenario.
Proof. repeat (constructor; [reflexivity|]). constructor. Qed.



(** C2: the window of the monthly report ends at 23:59:59.000 of the last
    day.  An expense of user U dated 2025-01-31T23:59:59.500 lies within
    January 2025 (from the first instant of the month, before the first
    instant of February) and is not matched: the summary counts no
    transaction and the report lists no expense. *)
Theorem monthly_report_misses_final_second :
  monthStartDate 0 2025 1 <= date lateJanuary < monthStartDate 0 2025 2
  /\ JS.toISOString (date lateJanuary) = "2025-01-31T23:59:59.500Z"%string
  /\ find (monthFilter 0 "U" 1 2025) [lateJanuary] = []
  /\ summary_totalTransactions (getMonthlySummary 0 "U" 1 2025 [lateJanuary]) = 0
  /\ exists data msg,
       ReportController.getMonthlyReport 0 "U" 1 2025 [lateJanuary]
       = Json 200 msg data
       /\ ReportController.monthly_expenses data = [].
Proof.
  split; [vm_compute; split; [discriminate | reflexivity]|].
  split; [reflexivity|]. split; [reflexivity|]. split; [reflexivity|].
  eexists. eexists. split; reflexivity.
Qed.

(** ** No division by zero in the percentages *)







(** ** Listing and pagination *)

Lemma ceil_div_spec (N P : Z) :
  0 < P -> (JS.ceil_div N P - 1) * P < N <= JS.ceil_div N P * P.
Proof.
  intros HP. unfold JS.ceil_div.
  pose proof (Z.div_mod (- N) P ltac:(lia)) as H.
  pose proof (Z.mod_pos_bound (- N) P HP) as Hr.
  nia.
Qed.

Lemma last_page_size (N P k : Z) :
  0 < P -> 1 <= k -> k = JS.ceil_div N P ->
  Z.min P (N - (k - 1) * P) = if N mod P =? 0 then P else N mod P.
Proof.
  intros HP Hk ->. pose proof (ceil_div_spec N P HP) as Hc.
  set (k := JS.ceil_div N P) in *.
  pose proof (Z.div_mod N P ltac:(lia)) as H.
  pose proof (Z.mod_pos_bound N P HP) as Hr.
  destruct (N mod P =? 0) eqn:E.
  - apply Z.eqb_eq in E. assert (N / P = k) by nia. nia.
  - apply Z.eqb_neq in E. assert (N / P = k - 1) by nia. nia.
Qed.

Lemma page_length {A : Type} (l : list A) (P s : Z) :
  0 < P -> 0 <= s ->
  Z.of_nat (List.length (firstn (Z.abs_nat P) (skipn (Z.to_nat s) l)))
  = Z.max 0 (Z.min P (Z.of_nat (List.length l) - s)).
Proof.
  intros HP Hs. rewrite length_firstn, length_skipn. lia.
Qed.

(** The response of a list call with a page size. *)
Lemma getAllExpenses_page (uid : string) (q : ExpenseController.ListQuery)
  (c : Collection) (P k : Z) :
  ExpenseController.q_limit q = Some P ->
  ExpenseController.default (ExpenseController.q_page q) 1 = k ->
  P <> 0 -> 0 <= (k - 1) * P ->
  let N := countDocuments (ExpenseController.listFilter uid q) c in
  let page := firstn (Z.abs_nat P)
                (skipn (Z.to_nat ((k - 1) * P)) (ordered uid q c)) in
  ExpenseController.getAllExpenses uid q c
  = Json 200 "Expenses retrieved successfully"
      (ExpenseController.mkListData page
         (Some (ExpenseController.mkPagination k (JS.ceil_div N P) N P))
         (ExpenseController.mkSummary N
            (JS.toFixed2
               (fold_left (fun sum expense => (sum + amount expense)%Q)
                  page (0 # 1))))).
Proof.
  intros Hl Hk HP Hs N page.
  unfold ExpenseController.getAllExpenses.
  rewrite Hl, Hk. unfold ExpenseController.truthyNumber.
  destruct (P =? 0) eqn:E; [apply Z.eqb_eq in E; contradiction|].
  unfold skip_limit.
  destruct ((k - 1) * P <? 0) eqn:E'; [apply Z.ltb_lt in E'; lia|].
  reflexivity.
Qed.

(** A page before the first one: the query is refused. *)
Lemma getAllExpenses_negative_skip (uid : string)
  (q : ExpenseController.ListQuery) (c : Collection) (P k : Z) :
  ExpenseController.q_limit q = Some P ->
  ExpenseController.default (ExpenseController.q_page q) 1 = k ->
  P <> 0 -> (k - 1) * P < 0 ->
  ExpenseController.getAllExpenses uid q c
  = Next (ErrorHandler.mkAppError
            (ErrorHandler.MessageOf Mongoose.MongoServerError) 500).
Proof.
  intros Hl Hk HP Hs.
  unfold ExpenseController.getAllExpenses.
  rewrite Hl, Hk. unfold ExpenseController.truthyNumber.
  destruct (P =? 0) eqn:E; [apply Z.eqb_eq in E; contradiction|].
  unfold skip_limit.
  destruct ((k - 1) * P <? 0) eqn:E'; [|apply Z.ltb_ge in E'; lia].
  reflexivity.
Qed.

(** The response of a list call without a page size. *)
Lemma getAllExpenses_unpaginated (uid : string)
  (q : ExpenseController.ListQuery) (c : Collection) :
  ExpenseController.truthyNumber (ExpenseController.q_limit q) = None ->
  let N := countDocuments (ExpenseController.listFilter uid q) c in
  ExpenseController.getAllExpenses uid q c
  = Json 200 "Expenses retrieved successfully"
      (ExpenseController.mkListData (ordered uid q c) None
         (ExpenseController.mkSummary N
            (JS.toFixed2
               (fold_left (fun sum expense => (sum + amount expense)%Q)
                  (ordered uid q c) (0 # 1))))).
Proof.
  intros Hl N. unfold ExpenseController.getAllExpenses. rewrite Hl.
  reflexivity.
Qed.

Lemma ordered_perm (uid : string) (q : ExpenseController.ListQuery)
  (c : Collection) :
  Permutation (ordered uid q c) (find (ExpenseController.listFilter uid q) c).
Proof. apply sort_by_perm. Qed.

(** C1: the count of the summary is that of the whole filtered set, the
    amount is the sum of the returned page only.  User U has three
    expenses, 180 in all; the first page of two records reports
    totalExpenses 3 and totalAmount 80. *)
Theorem list_summary_amount_is_of_the_page :
  exists data msg,
    ExpenseController.getAllExpenses "U" (pageQuery 2 1) scenario
    = Json 200 msg data
    /\ map _id (ExpenseController.expenses data) = ["e2"; "e3"]%string
    /\ ExpenseController.totalExpenses (ExpenseController.summary data) = 3
    /\ (ExpenseController.totalAmount (ExpenseController.summary data)
        == 80 # 1)%Q
    /\ (Qsum (amountsOf
                (find (ExpenseController.listFilter "U" (pageQuery 2 1))
                   scenario))
        == 180 # 1)%Q.
Proof.
  eexists. eexists. split; [reflexivity|].
  repeat split; reflexivity.
Qed.

(** C4 (as the code has it): with N matching records, a page size P > 0
    and a page number k >= 1, the response carries the pagination summary
    with totalPages the ceiling of N / P; the page is what is left of the
    ordered matching records after skipping (k - 1) * P of them, cut at P;
    on page k = ceil(N / P), which is a page when N > 0, there are N mod P
    records, or P if N mod P = 0; and without a page size the response
    carries all the matching records in their order and no pagination
    summary. *)
Theorem list_pagination (uid : string) (q : ExpenseController.ListQuery)
  (c : Collection) (P k : Z) :
  ExpenseController.q_limit q = Some P ->
  ExpenseController.default (ExpenseController.q_page q) 1 = k ->
  0 < P -> 1 <= k ->
  let matching := find (ExpenseController.listFilter uid q) c in
  let N := Z.of_nat (List.length matching) in
  (exists data msg,
     ExpenseController.getAllExpenses uid q c = Json 200 msg data
     /\ ExpenseController.pagination data
        = Some (ExpenseController.mkPagination k (JS.ceil_div N P) N P)
     /\ (JS.ceil_div N P - 1) * P < N <= JS.ceil_div N P * P
     /\ ExpenseController.expenses data
        = firstn (Z.to_nat P) (skipn (Z.to_nat ((k - 1) * P)) (ordered uid q c))
     /\ Permutation (ordered uid q c) matching
     /\ Z.of_nat (List.length (ExpenseController.expenses data)) <= P
     /\ (k = JS.ceil_div N P ->
         0 < N
         /\ Z.of_nat (List.length (ExpenseController.expenses data))
            = if N mod P =? 0 then P else N mod P))
  /\ (exists data msg,
        ExpenseController.getAllExpenses uid (withoutLimit q) c
        = Json 200 msg data
        /\ ExpenseController.expenses data = ordered uid q c
        /\ ExpenseController.pagination data = None).
Proof.
  intros Hl Hk HP Hk1 matching N. split.
  - assert (Hs : 0 <= (k - 1) * P) by nia.
    rewrite (getAllExpenses_page uid q c P k Hl Hk ltac:(lia) Hs).
    eexists. eexists. split; [reflexivity|].
    cbn [ExpenseController.pagination ExpenseController.expenses].
    fold matching. unfold countDocuments. fold matching. fold N.
    assert (Hlen : Z.of_nat (List.length (ordered uid q c)) = N).
    { unfold N, matching. f_equal. apply Permutation_length, ordered_perm. }
    split; [reflexivity|]. split; [apply ceil_div_spec, HP|].
    split; [f_equal; lia|]. split; [apply ordered_perm|].
    rewrite (page_length _ P _ HP Hs), Hlen. split; [lia|].
    intros Hlast. pose proof (ceil_div_spec N P HP) as Hc.
    rewrite <- Hlast in Hc.
    split; [nia|].
    rewrite <- (last_page_size N P k HP Hk1 Hlast). lia.
  - rewrite getAllExpenses_unpaginated by reflexivity.
    eexists. eexists. split; [reflexivity|]. split; reflexivity.
Qed.

Lemma list_pagination_witness :
  ExpenseController.q_limit (pageQuery 2 2) = Some 2
  /\ ExpenseController.default (ExpenseController.q_page (pageQuery 2 2)) 1 = 2
  /\ 0 < 2 /\ 1 <= 2
  /\ exists data msg,
       ExpenseController.getAllExpenses "U" (pageQuery 2 2) scenario
       = Json 200 msg data
       /\ Z.of_nat (List.length (ExpenseController.expenses data)) <= 2.
Proof.
  split; [reflexivity|]. split; [reflexivity|].
  split; [lia|]. split; [lia|].
  destruct (list_pagination "U" (pageQuery 2 2) scenario 2 2
              eq_refl eq_refl ltac:(lia) ltac:(lia))
    as [[data [msg [H1 [_ [_ [_ [_ [H2 _]]]]]]]] _].
  exists data, msg. split; assumption.
Defined.

(** C4, the claim as stated, fails for N = 0: page ceil(0 / 10) is page 0,
    whose skip is negative and refused; and no page of an empty list
    has the ten records that "P if N mod P = 0" asks for. *)
Lemma last_page_of_no_records :
  countDocuments (ExpenseController.listFilter "U" (pageQuery 10 0)) [] = 0
  /\ JS.ceil_div 0 10 = 0
  /\ (exists err,
        ExpenseController.getAllExpenses "U" (pageQuery 10 (JS.ceil_div 0 10)) []
        = Next err)
  /\ forall k data msg,
       ExpenseController.getAllExpenses "U" (pageQuery 10 k) []
       = Json 200 msg data ->
       Z.of_nat (List.length (ExpenseController.expenses data))
       <> (if 0 mod 10 =? 0 then 10 else 0 mod 10).
Proof.
  split; [reflexivity|]. split; [reflexivity|].
  split; [eexists; reflexivity|].
  intros k data msg H.
  destruct (Z_lt_le_dec ((k - 1) * 10) 0) as [Hneg | Hpos].
  - rewrite (getAllExpenses_negative_skip "U" (pageQuery 10 k) [] 10 k
               eq_refl eq_refl ltac:(lia) Hneg) in H.
    discriminate.
  - rewrite (getAllExpenses_page "U" (pageQuery 10 k) [] 10 k
               eq_refl eq_refl ltac:(lia) Hpos) in H.
    injection H as _ <-. cbn [ExpenseController.expenses].
    change (ordered "U" (pageQuery 10 k) []) with (@nil Expense).
    rewrite ?skipn_nil, ?firstn_nil. cbn. lia.
Qed.

(** ** Lookup by id and owner *)

Lemma matches_byIdAndOwner (id uid : string) (e : Expense) :
  matches (ExpenseController.byIdAndOwner id uid) e = true
  <-> _id e = id /\ userId e = uid.
Proof.
  unfold matches, ExpenseController.byIdAndOwner; simpl.
  rewrite !andb_true_r, andb_true_iff, !String.eqb_eq. tauto.
Qed.

Lemma findOne_owns (uid id : string) (c : Collection) :
  (exists e, findOne (ExpenseController.byIdAndOwner id uid) c = Some e)
  <-> owns uid id c.
Proof.
  unfold findOne, owns. split.
  - intros [e He]. apply find_some in He. destruct He as [Hin Hm].
    apply matches_byIdAndOwner in Hm. exists e. tauto.
  - intros [e [Hin [Hid Hu]]].
    destruct (List.find _ c) as [e'|] eqn:Hf; [exists e'; reflexivity|].
    exfalso. pose proof (find_none _ _ Hf e Hin) as Hn.
    assert (Hm : matches (ExpenseController.byIdAndOwner id uid) e = true)
      by (apply matches_byIdAndOwner; tauto).
    congruence.
Qed.

Lemma findOne_None_iff (uid id : string) (c : Collection) :
  findOne (ExpenseController.byIdAndOwner id uid) c = None <-> ~ owns uid id c.
Proof.
  rewrite <- findOne_owns.
  destruct (findOne _ c) as [e|]; split; intros H.
  - discriminate.
  - exfalso. apply H. exists e. reflexivity.
  - intros [e He]. discriminate.
  - reflexivity.
Qed.

Lemma findOne_Some_inv (uid id : string) (c : Collection) (e : Expense) :
  findOne (ExpenseController.byIdAndOwner id uid) c = Some e ->
  In e c /\ _id e = id /\ userId e = uid.
Proof.
  intros H. apply find_some in H. destruct H as [Hin Hm].
  apply matches_byIdAndOwner in Hm. tauto.
Qed.

(** *** Deleting *)

Lemma findOneAndDelete_fst (f : Filter) (c : Collection) :
  fst (findOneAndDelete f c) = findOne f c.
Proof.
  unfold findOne. induction c as [|e c IH]; simpl.
  - reflexivity.
  - destruct (matches f e); [reflexivity|].
    destruct (findOneAndDelete f c). exact IH.
Qed.

Lemma findOneAndDelete_none (f : Filter) (c : Collection) :
  findOne f c = None -> findOneAndDelete f c = (None, c).
Proof.
  unfold findOne. induction c as [|e c IH]; simpl.
  - reflexivity.
  - destruct (matches f e); [discriminate|].
    intros H. rewrite (IH H). reflexivity.
Qed.

Lemma findOneAndDelete_rest_In (f : Filter) (c : Collection) (e : Expense) :
  In e (snd (findOneAndDelete f c)) -> In e c.
Proof.
  induction c as [|d c IH]; simpl.
  - auto.
  - destruct (matches f d); simpl; [auto|].
    destruct (findOneAndDelete f c) as [r c'] eqn:Hd. simpl in *.
    intros [-> | Hin]; auto.
Qed.

(** With distinct ids, nothing of that id and owner is left. *)
Lemma findOneAndDelete_rest_none (uid id : string) (c : Collection) :
  NoDup (map _id c) ->
  findOne (ExpenseController.byIdAndOwner id uid)
    (snd (findOneAndDelete (ExpenseController.byIdAndOwner id uid) c))
  = None.
Proof.
  intros Hnd. apply findOne_None_iff. intros [e [Hin [Hid Hu]]].
  induction c as [|d c IH]; simpl in Hin.
  - contradiction.
  - inversion Hnd as [|? ? Hnotin Hnd']; subst.
    destruct (matches (ExpenseController.byIdAndOwner (_id e) (userId e)) d)
      eqn:Hm.
    + apply matches_byIdAndOwner in Hm. destruct Hm as [Hid _].
      simpl in Hin. apply Hnotin. rewrite Hid. apply in_map, Hin.
    + destruct (findOneAndDelete _ c) as [r c'] eqn:Hd. simpl in *.
      destruct Hin as [-> | Hin].
      * assert (Ht : matches (ExpenseController.byIdAndOwner (_id e) (userId e)) e
                     = true) by (apply matches_byIdAndOwner; tauto).
        congruence.
      * apply IH; assumption.
Qed.

Lemma deleteExpense_outcome (uid id : string) (c : Collection) :
  ExpenseController.deleteExpense uid id c
  = match findOne (ExpenseController.byIdAndOwner id uid) c with
    | Some e => (Json 200 "Expense deleted successfully" e,
                 snd (findOneAndDelete (ExpenseController.byIdAndOwner id uid) c))
    | None => (Next ExpenseController.notFound, c)
    end.
Proof.
  unfold ExpenseController.deleteExpense.
  rewrite <- findOneAndDelete_fst.
  destruct (findOneAndDelete _ c) as [[e|] c'] eqn:Hd; simpl.
  - reflexivity.
  - pose proof (findOneAndDelete_fst (ExpenseController.byIdAndOwner id uid) c)
      as Hf.
    rewrite Hd in Hf. simpl in Hf. symmetry in Hf.
    rewrite (findOneAndDelete_none _ _ Hf) in Hd. congruence.
Qed.

(** *** Updating *)

Lemma updateExpense_outcome (now : Z) (uid id : string)
  (updates : ExpenseController.Body) (c : Collection) :
  ExpenseController.updateExpense now uid id updates c
  = match findOne (ExpenseController.byIdAndOwner id uid) c with
    | None => (Next ExpenseController.notFound, c)
    | Some e =>
        if accepted updates e then
          let d := ExpenseController.applyUpdates updates (hydrate e) in
          if sameValues e (fields d)
          then (Json 200 "Expense updated successfully" (fields d), c)
          else (Json 200 "Expense updated successfully" (touch now (fields d)),
                updateOne (touch now (fields d)) c)
        else (Next (ErrorHandler.mkAppError
                      (ErrorHandler.MessageOf Mongoose.ValidationError) 500),
              c)
    end.
Proof.
  unfold ExpenseController.updateExpense, accepted, save.
  destruct (findOne _ c) as [e|]; [|reflexivity].
  destruct (refused _); [|reflexivity].
  destruct (validate _); [|reflexivity].
  destruct (sameValues _ _); reflexivity.
Qed.

Lemma distinctb_NoDup (l : list string) : distinctb l = true -> NoDup l.
Proof.
  induction l as [|x l IH]; simpl; intros H.
  - constructor.
  - apply andb_true_iff in H. destruct H as [Hx Hl].
    constructor; [|apply IH, Hl].
    intros Hin. apply negb_true_iff in Hx.
    assert (Hex : existsb (String.eqb x) l = true).
    { apply existsb_exists. exists x. split; [exact Hin | apply String.eqb_refl]. }
    congruence.
Qed.

Lemma scenario_ids_distinct : NoDup (map _id scenario).
Proof. apply distinctb_NoDup. reflexivity. Qed.

(** C6 (as the code has it): get and delete succeed exactly when the
    caller owns a record of that id; update succeeds exactly when the caller
    owns one and the body, applied to it, passes the validation of save;
    each of the three signals Not-Found (404) exactly when the caller owns
    no record of that id, by one and the same error whether the id is
    absent or belongs to another user; and a second delete of the same id
    signals Not-Found. *)
Theorem not_found_semantics (now : Z) (uid id : string)
  (updates : ExpenseController.Body) (c : Collection) :
  NoDup (map _id c) ->
  ((exists e msg, ExpenseController.getExpenseById uid id c = Json 200 msg e)
   <-> owns uid id c)
  /\ (ExpenseController.getExpenseById uid id c
      = Next ExpenseController.notFound <-> ~ owns uid id c)
  /\ ((exists e msg c',
         ExpenseController.deleteExpense uid id c = (Json 200 msg e, c'))
      <-> owns uid id c)
  /\ (ExpenseController.deleteExpense uid id c
      = (Next ExpenseController.notFound, c) <-> ~ owns uid id c)
  /\ ((exists e msg c',
         ExpenseController.updateExpense now uid id updates c
         = (Json 200 msg e, c'))
      <-> exists e, findOne (ExpenseController.byIdAndOwner id uid) c = Some e
                    /\ accepted updates e = true)
  /\ (ExpenseController.updateExpense now uid id updates c
      = (Next ExpenseController.notFound, c) <-> ~ owns uid id c)
  /\ ErrorHandler.errorHandler ExpenseController.notFound
     = (404, ErrorHandler.Text "Expense not found or unauthorized")
  /\ ExpenseController.deleteExpense uid id
       (snd (ExpenseController.deleteExpense uid id c))
     = (Next ExpenseController.notFound,
        snd (ExpenseController.deleteExpense uid id c)).
Proof.
  intros Hnd.
  pose proof (findOne_owns uid id c) as Hown.
  pose proof (findOne_None_iff uid id c) as Hnone.
  repeat split.
  - intros [e [msg H]]. apply Hown.
    unfold ExpenseController.getExpenseById in H.
    destruct (findOne _ c) as [e'|]; [exists e'; reflexivity | discriminate].
  - intros H. apply Hown in H. destruct H as [e He].
    unfold ExpenseController.getExpenseById. rewrite He. eauto.
  - intros H. apply Hnone. unfold ExpenseController.getExpenseById in H.
    destruct (findOne _ c); [discriminate | reflexivity].
  - intros H. apply Hnone in H.
    unfold ExpenseController.getExpenseById. rewrite H. reflexivity.
  - intros [e [msg [c' H]]]. apply Hown.
    rewrite deleteExpense_outcome in H.
    destruct (findOne _ c) as [e'|]; [exists e'; reflexivity | discriminate].
  - intros H. apply Hown in H. destruct H as [e He].
    rewrite deleteExpense_outcome, He. eauto.
  - intros H. apply Hnone. rewrite deleteExpense_outcome in H.
    destruct (findOne _ c); [discriminate | reflexivity].
  - intros H. apply Hnone in H. rewrite deleteExpense_outcome, H. reflexivity.
  - intros [e [msg [c' H]]]. rewrite updateExpense_outcome in H.
    destruct (findOne _ c) as [e'|]; [|discriminate].
    exists e'. split; [reflexivity|].
    destruct (accepted updates e'); [reflexivity | discriminate].
  - intros [e [He Hacc]]. rewrite updateExpense_outcome, He, Hacc. cbv zeta.
    destruct (sameValues _ _); eauto.
  - intros H. apply Hnone. rewrite updateExpense_outcome in H.
    destruct (findOne _ c) as [e'|]; [|reflexivity].
    destruct (accepted updates e'); cbv zeta in H;
      [destruct (sameValues _ _)|]; discriminate.
  - intros H. apply Hnone in H. rewrite updateExpense_outcome, H. reflexivity.
  - rewrite (deleteExpense_outcome uid id (snd _)).
    rewrite (deleteExpense_outcome uid id c).
    destruct (findOne _ c) as [e|] eqn:He; cbn [snd].
    + rewrite (findOneAndDelete_rest_none uid id c Hnd). reflexivity.
    + rewrite He. reflexivity.
Qed.

Lemma not_found_semantics_witness :
  NoDup (map _id scenario)
  /\ ExpenseController.deleteExpense "U" "e1"
       (snd (ExpenseController.deleteExpense "U" "e1" scenario))
     = (Next ExpenseController.notFound,
        snd (ExpenseController.deleteExpense "U" "e1" scenario)).
Proof.
  split; [exact scenario_ids_distinct|].
  apply (not_found_semantics 0 "U" "e1" [] scenario scenario_ids_distinct).
Defined.

(** C6, the claim as stated, fails for an update: user U owns the record
    e1, and the update of its amount to -5, or to the number that "1e400"
    is read as, neither succeeds nor signals Not-Found; save refuses the
    amount, the handler answers 500, and the record stays as it was. *)
Lemma update_of_owned_record_can_fail :
  owns "U" "e1" scenario
  /\ ExpenseController.updateExpense 99 "U" "e1"
       [("amount"%string, VNumber (JS.Finite (-5 # 1)))] scenario
     = (Next (ErrorHandler.mkAppError
                (ErrorHandler.MessageOf Mongoose.ValidationError) 500),
        scenario)
  /\ ExpenseController.updateExpense 99 "U" "e1"
       [("amount"%string, VNumber JS.PosInfinity)] scenario
     = (Next (ErrorHandler.mkAppError
                (ErrorHandler.MessageOf Mongoose.ValidationError) 500),
        scenario)
  /\ fst (ErrorHandler.errorHandler
            (ErrorHandler.mkAppError
               (ErrorHandler.MessageOf Mongoose.ValidationError) 500))
     = 500.
Proof.
  split; [|split; [|split]].
  - eexists. split; [left; reflexivity|]. split; reflexivity.
  - vm_compute. reflexivity.
  - vm_compute. reflexivity.
  - reflexivity.
Qed.

(** ** The frame of an update *)

Ltac name_cases name :=
  repeat match goal with
         | |- context [String.eqb name ?s] =>
             let E := fresh "E" in
             destruct (String.eqb name s) eqn:E;
             [apply String.eqb_eq in E; try congruence|]
         end.

Lemma assign_frame (key : string) (v : Value) (d : Document) (name : string) :
  name <> key ->
  readPath name (fields (assign key v d)) = readPath name (fields d).
Proof.
  intros Hne. unfold assign.
  repeat match goal with
         | |- context [if String.eqb key ?s then _ else _] =>
             let E := fresh "K" in
             destruct (String.eqb key s) eqn:E;
             [apply String.eqb_eq in E; subst key;
              destruct v as [? | [] | ?]; cbn [fields setFields refuse];
              unfold readPath; cbn [_id userId title amount category date
                                      notes paymentMethod createdAt updatedAt];
              name_cases name; reflexivity|]
         end.
  reflexivity.
Qed.

Lemma includes_In (xs : list string) (x : string) :
  includes xs x = true <-> In x xs.
Proof.
  unfold includes. rewrite existsb_exists. split.
  - intros [y [Hy Heq]]. apply String.eqb_eq in Heq. congruence.
  - intros H. exists x. split; [exact H | apply String.eqb_refl].
Qed.

Lemma applyUpdates_frame (updates : ExpenseController.Body) (d : Document)
  (name : string) :
  ~ In name (ExpenseController.Object_keys updates)
  \/ ~ In name ExpenseController.allowedUpdates ->
  readPath name (fields (ExpenseController.applyUpdates updates d))
  = readPath name (fields d).
Proof.
  unfold ExpenseController.applyUpdates.
  generalize (ExpenseController.Object_keys updates) as keys.
  intros keys. revert d.
  induction keys as [|key keys IH]; intros d Hname; cbn [fold_left].
  - reflexivity.
  - assert (Hrest : ~ In name keys
                    \/ ~ In name ExpenseController.allowedUpdates).
    { destruct Hname as [H | H]; [left | right; exact H].
      intros Hin. apply H. right. exact Hin. }
    rewrite (IH _ Hrest).
    destruct (includes ExpenseController.allowedUpdates key) eqn:Hinc;
      [|reflexivity].
    destruct (ExpenseController.get updates key) as [v|]; [|reflexivity].
    apply assign_frame. intros ->.
    apply includes_In in Hinc.
    destruct Hname as [H | H]; [apply H; left; reflexivity | exact (H Hinc)].
Qed.

Lemma touch_frame (now : Z) (e : Expense) (name : string) :
  name <> "updatedAt"%string -> readPath name (touch now e) = readPath name e.
Proof.
  intros Hne. unfold readPath, touch.
  cbn [_id userId title amount category date notes paymentMethod createdAt
         updatedAt].
  name_cases name; reflexivity.
Qed.

Lemma readPath_userId (a b : Expense) :
  readPath "userId" a = readPath "userId" b -> userId a = userId b.
Proof. unfold readPath. simpl. congruence. Qed.

Lemma readPath_createdAt (a b : Expense) :
  readPath "createdAt" a = readPath "createdAt" b -> createdAt a = createdAt b.
Proof. unfold readPath. simpl. congruence. Qed.

Lemma readPath_id (a b : Expense) :
  readPath "_id" a = readPath "_id" b -> _id a = _id b.
Proof. unfold readPath. simpl. congruence. Qed.

Lemma not_allowed_userId : ~ In "userId"%string ExpenseController.allowedUpdates.
Proof. simpl. intuition discriminate. Qed.

Lemma not_allowed_createdAt :
  ~ In "createdAt"%string ExpenseController.allowedUpdates.
Proof. simpl. intuition discriminate. Qed.

Lemma not_allowed_id : ~ In "_id"%string ExpenseController.allowedUpdates.
Proof. simpl. intuition discriminate. Qed.





(** ** Isolation between users *)

Lemma matches_owner (f : Filter) (e : Expense) :
  matches f e = true -> String.eqb (userId e) (by_userId f) = true.
Proof.
  unfold matches. rewrite !andb_true_iff. tauto.
Qed.

Lemma find_recordsOf (f : Filter) (c : Collection) :
  find f c = find f (recordsOf (by_userId f) c).
Proof.
  unfold find, recordsOf. induction c as [|e c IH]; simpl.
  - reflexivity.
  - destruct (matches f e) eqn:Hm.
    + rewrite (matches_owner f e Hm). simpl. rewrite Hm, IH. reflexivity.
    + destruct (String.eqb (userId e) (by_userId f)); simpl;
        [rewrite Hm|]; exact IH.
Qed.

Lemma findOne_recordsOf (f : Filter) (c : Collection) :
  findOne f c = findOne f (recordsOf (by_userId f) c).
Proof.
  unfold findOne, recordsOf. induction c as [|e c IH]; simpl.
  - reflexivity.
  - destruct (matches f e) eqn:Hm.
    + rewrite (matches_owner f e Hm). simpl. rewrite Hm. reflexivity.
    + destruct (String.eqb (userId e) (by_userId f)); simpl;
        [rewrite Hm|]; exact IH.
Qed.

Lemma findOneAndDelete_others (f : Filter) (B : string) (c : Collection) :
  by_userId f <> B ->
  recordsOf B (snd (findOneAndDelete f c)) = recordsOf B c.
Proof.
  intros Hne. unfold recordsOf. induction c as [|e c IH]; simpl.
  - reflexivity.
  - destruct (matches f e) eqn:Hm; simpl.
    + apply matches_owner, String.eqb_eq in Hm.
      destruct (String.eqb (userId e) B) eqn:HB; [|reflexivity].
      apply String.eqb_eq in HB. congruence.
    + destruct (findOneAndDelete f c) as [r c'] eqn:Hd. simpl in *.
      rewrite IH. reflexivity.
Qed.

Lemma findOneAndDelete_own (f : Filter) (c : Collection) :
  recordsOf (by_userId f) (snd (findOneAndDelete f c))
  = snd (findOneAndDelete f (recordsOf (by_userId f) c)).
Proof.
  unfold recordsOf. induction c as [|e c IH]; simpl.
  - reflexivity.
  - destruct (matches f e) eqn:Hm; simpl.
    + rewrite (matches_owner f e Hm). simpl. rewrite Hm. reflexivity.
    + destruct (findOneAndDelete f c) as [r c'] eqn:Hd. simpl in *.
      destruct (String.eqb (userId e) (by_userId f)) eqn:Ho; simpl.
      * rewrite Hm.
        destruct (findOneAndDelete f (List.filter _ c)) as [r2 c2] eqn:Hd2.
        simpl in *. rewrite IH. reflexivity.
      * exact IH.
Qed.

Lemma same_id_same_owner (c : Collection) (e : Expense) :
  NoDup (map _id c) -> In e c ->
  forall d, In d c -> _id d = _id e -> userId d = userId e.
Proof.
  induction c as [|x c IH]; simpl; intros Hnd Hin d Hd Hid.
  - contradiction.
  - inversion Hnd as [|? ? Hnotin Hnd']; subst.
    destruct Hin as [-> | Hin], Hd as [-> | Hd].
    + reflexivity.
    + exfalso. apply Hnotin. rewrite <- Hid. apply in_map, Hd.
    + exfalso. apply Hnotin. rewrite Hid. apply in_map, Hin.
    + apply IH; assumption.
Qed.

Lemma updateOne_others (e' : Expense) (A B : string) (c : Collection) :
  A <> B -> userId e' = A ->
  (forall d, In d c -> _id d = _id e' -> userId d = A) ->
  recordsOf B (updateOne e' c) = recordsOf B c.
Proof.
  intros Hne He' Hown. unfold recordsOf.
  induction c as [|d c IH]; simpl.
  - reflexivity.
  - destruct (String.eqb (_id d) (_id e')) eqn:Hid; simpl.
    + apply String.eqb_eq in Hid.
      assert (Hd : userId d = A) by (apply Hown; [left; reflexivity | exact Hid]).
      assert (H1 : String.eqb (userId e') B = false)
        by (apply String.eqb_neq; congruence).
      assert (H2 : String.eqb (userId d) B = false)
        by (apply String.eqb_neq; congruence).
      rewrite H1, H2. reflexivity.
    + rewrite IH; [reflexivity|].
      intros x Hx. apply Hown. right. exact Hx.
Qed.

Lemma updateOne_own (e' : Expense) (A : string) (c : Collection) :
  userId e' = A ->
  (forall d, In d c -> _id d = _id e' -> userId d = A) ->
  recordsOf A (updateOne e' c) = updateOne e' (recordsOf A c).
Proof.
  intros He' Hown. unfold recordsOf.
  induction c as [|d c IH]; simpl.
  - reflexivity.
  - destruct (String.eqb (_id d) (_id e')) eqn:Hid; simpl.
    + assert (Hd : userId d = A)
        by (apply Hown; [left; reflexivity | apply String.eqb_eq, Hid]).
      rewrite He', Hd, String.eqb_refl. simpl. rewrite Hid. reflexivity.
    + destruct (String.eqb (userId d) A); simpl.
      * rewrite Hid, IH; [reflexivity|].
        intros x Hx. apply Hown. right. exact Hx.
      * apply IH. intros x Hx. apply Hown. right. exact Hx.
Qed.

Lemma recordsOf_NoDup (A : string) (c : Collection) :
  NoDup (map _id c) -> NoDup (map _id (recordsOf A c)).
Proof.
  unfold recordsOf. induction c as [|d c IH]; simpl; intros Hnd.
  - constructor.
  - inversion Hnd as [|? ? Hnotin Hnd']; subst.
    destruct (String.eqb (userId d) A); simpl; [|apply IH, Hnd'].
    constructor; [|apply IH, Hnd'].
    intros Hin. apply Hnotin. apply in_map_iff in Hin.
    destruct Hin as [x [Hx Hin]]. apply filter_In in Hin.
    rewrite <- Hx. apply in_map. tauto.
Qed.

Lemma recordsOf_In (A : string) (c : Collection) (e : Expense) :
  In e (recordsOf A c) <-> In e c /\ userId e = A.
Proof.
  unfold recordsOf. rewrite filter_In, String.eqb_eq. tauto.
Qed.

Lemma In_page {A : Type} (n m : nat) (l : list A) (x : A) :
  In x (firstn n (skipn m l)) -> In x l.
Proof.
  intros H. rewrite <- (firstn_skipn m l). apply in_or_app. right.
  rewrite <- (firstn_skipn n (skipn m l)). apply in_or_app. left. exact H.
Qed.

(** The list call sees the caller's records only. *)
Lemma getAllExpenses_recordsOf (uid : string) (q : ExpenseController.ListQuery)
  (c : Collection) :
  ExpenseController.getAllExpenses uid q c
  = ExpenseController.getAllExpenses uid q (recordsOf uid c).
Proof.
  unfold ExpenseController.getAllExpenses, countDocuments.
  rewrite (find_recordsOf (ExpenseController.listFilter uid q) c).
  reflexivity.
Qed.

Lemma getAllExpenses_In (uid : string) (q : ExpenseController.ListQuery)
  (c : Collection) (data : ExpenseController.ListData) (msg : string)
  (e : Expense) :
  ExpenseController.getAllExpenses uid q c = Json 200 msg data ->
  In e (ExpenseController.expenses data) ->
  In e (find (ExpenseController.listFilter uid q) c).
Proof.
  unfold ExpenseController.getAllExpenses.
  set (sorted := Store.sort _ _ (find _ c)).
  assert (Hsorted : forall x, In x sorted ->
                      In x (find (ExpenseController.listFilter uid q) c))
    by (intros x; apply sort_by_In).
  destruct (ExpenseController.truthyNumber (ExpenseController.q_limit q))
    as [l|].
  - unfold skip_limit. destruct (_ <? 0); [discriminate|].
    intros H Hin. inversion H; subst; clear H.
    cbn [ExpenseController.expenses] in Hin.
    apply Hsorted. eapply In_page. exact Hin.
  - intros H Hin. inversion H; subst; clear H.
    apply Hsorted. exact Hin.
Qed.

Lemma findOne_own (uid id : string) (c : Collection) :
  findOne (ExpenseController.byIdAndOwner id uid) (recordsOf uid c)
  = findOne (ExpenseController.byIdAndOwner id uid) c.
Proof.
  symmetry. exact (findOne_recordsOf (ExpenseController.byIdAndOwner id uid) c).
Qed.

Lemma getExpenseById_recordsOf (uid id : string) (c : Collection) :
  ExpenseController.getExpenseById uid id c
  = ExpenseController.getExpenseById uid id (recordsOf uid c).
Proof.
  unfold ExpenseController.getExpenseById.
  rewrite findOne_own. reflexivity.
Qed.

Lemma deleteExpense_recordsOf (uid id : string) (c : Collection) :
  fst (ExpenseController.deleteExpense uid id c)
  = fst (ExpenseController.deleteExpense uid id (recordsOf uid c))
  /\ recordsOf uid (snd (ExpenseController.deleteExpense uid id c))
     = snd (ExpenseController.deleteExpense uid id (recordsOf uid c)).
Proof.
  rewrite !deleteExpense_outcome.
  rewrite findOne_own.
  destruct (findOne _ c); cbn [fst snd].
  - split; [reflexivity|].
    apply (findOneAndDelete_own (ExpenseController.byIdAndOwner id uid) c).
  - split; reflexivity.
Qed.

Lemma applyUpdates_owner (updates : ExpenseController.Body) (e : Expense) :
  userId (fields (ExpenseController.applyUpdates updates (hydrate e))) = userId e
  /\ _id (fields (ExpenseController.applyUpdates updates (hydrate e))) = _id e.
Proof.
  split.
  - apply readPath_userId, (applyUpdates_frame updates (hydrate e)).
    right. exact not_allowed_userId.
  - apply readPath_id, (applyUpdates_frame updates (hydrate e)).
    right. exact not_allowed_id.
Qed.

Lemma updateExpense_recordsOf (now : Z) (uid id : string)
  (updates : ExpenseController.Body) (c : Collection) :
  NoDup (map _id c) ->
  fst (ExpenseController.updateExpense now uid id updates c)
  = fst (ExpenseController.updateExpense now uid id updates (recordsOf uid c))
  /\ recordsOf uid (snd (ExpenseController.updateExpense now uid id updates c))
     = snd (ExpenseController.updateExpense now uid id updates
              (recordsOf uid c)).
Proof.
  intros Hnd. rewrite !updateExpense_outcome.
  rewrite findOne_own.
  destruct (findOne _ c) as [e|] eqn:He; cbn [fst snd]; [|split; reflexivity].
  destruct (accepted updates e); cbv zeta; [|split; reflexivity].
  destruct (sameValues _ _); cbn [fst snd]; split; try reflexivity.
  apply findOne_Some_inv in He. destruct He as [Hin [Hid Hu]].
  destruct (applyUpdates_owner updates e) as [Hu' Hid'].
  apply updateOne_own.
  - cbn [touch userId]. congruence.
  - intros d Hd Hdid. cbn [touch _id] in Hdid.
    rewrite <- Hu. apply (same_id_same_owner c e Hnd Hin d Hd). congruence.
Qed.

(** C5: for users A and B that differ, what the list, get, update and
    delete operations of A return are records of A; the update and the
    delete of A leave the records of B as they were; and results and
    effects are independent of the records of others: on two collections
    that hold the same records of A, the four operations give the same
    responses and leave the same records of A.  (The ids of a collection
    are distinct.) *)
Theorem isolation (A B : string) (q : ExpenseController.ListQuery)
  (id : string) (now : Z) (updates : ExpenseController.Body)
  (c c2 : Collection) :
  A <> B ->
  NoDup (map _id c) -> NoDup (map _id c2) ->
  recordsOf A c2 = recordsOf A c ->
  (forall data msg,
     ExpenseController.getAllExpenses A q c = Json 200 msg data ->
     Forall (fun e => userId e = A /\ userId e <> B)
       (ExpenseController.expenses data))
  /\ (forall e msg,
        ExpenseController.getExpenseById A id c = Json 200 msg e ->
        userId e = A /\ userId e <> B)
  /\ (forall e msg,
        fst (ExpenseController.updateExpense now A id updates c)
        = Json 200 msg e ->
        userId e = A /\ userId e <> B)
  /\ (forall e msg,
        fst (ExpenseController.deleteExpense A id c) = Json 200 msg e ->
        userId e = A /\ userId e <> B)
  /\ recordsOf B (snd (ExpenseController.updateExpense now A id updates c))
     = recordsOf B c
  /\ recordsOf B (snd (ExpenseController.deleteExpense A id c)) = recordsOf B c
  /\ ExpenseController.getAllExpenses A q c2
     = ExpenseController.getAllExpenses A q c
  /\ ExpenseController.getExpenseById A id c2
     = ExpenseController.getExpenseById A id c
  /\ fst (ExpenseController.updateExpense now A id updates c2)
     = fst (ExpenseController.updateExpense now A id updates c)
  /\ recordsOf A (snd (ExpenseController.updateExpense now A id updates c2))
     = recordsOf A (snd (ExpenseController.updateExpense now A id updates c))
  /\ fst (ExpenseController.deleteExpense A id c2)
     = fst (ExpenseController.deleteExpense A id c)
  /\ recordsOf A (snd (ExpenseController.deleteExpense A id c2))
     = recordsOf A (snd (ExpenseController.deleteExpense A id c)).
Proof.
  intros HAB Hnd Hnd2 Hsame.
  assert (Hmine : forall e, userId e = A -> userId e = A /\ userId e <> B)
    by (intros e He; split; congruence).
  repeat match goal with |- _ /\ _ => split end.
  - intros data msg H. apply Forall_forall. intros e He. apply Hmine.
    pose proof (getAllExpenses_In A q c data msg e H He) as Hin.
    unfold find in Hin. apply filter_In in Hin. destruct Hin as [_ Hm].
    apply matches_owner, String.eqb_eq in Hm. exact Hm.
  - intros e msg H. apply Hmine.
    unfold ExpenseController.getExpenseById in H.
    destruct (findOne _ c) as [e'|] eqn:He; [|discriminate].
    inversion H; subst. apply findOne_Some_inv in He. tauto.
  - intros e msg H. apply Hmine. rewrite updateExpense_outcome in H.
    destruct (findOne _ c) as [e'|] eqn:He; [|discriminate].
    apply findOne_Some_inv in He. destruct He as [_ [_ Hu]].
    destruct (applyUpdates_owner updates e') as [Hu' _].
    destruct (accepted updates e'); cbv zeta in H; [|discriminate].
    destruct (sameValues _ _); cbn [fst] in H; inversion H; subst;
      cbn [touch userId]; congruence.
  - intros e msg H. apply Hmine. rewrite deleteExpense_outcome in H.
    destruct (findOne _ c) as [e'|] eqn:He; [|discriminate].
    cbn [fst] in H. inversion H; subst.
    apply findOne_Some_inv in He. tauto.
  - rewrite updateExpense_outcome.
    destruct (findOne _ c) as [e|] eqn:He; [|reflexivity].
    destruct (accepted updates e); cbv zeta; [|reflexivity].
    destruct (sameValues _ _); cbn [snd]; [reflexivity|].
    apply findOne_Some_inv in He. destruct He as [Hin [Hid Hu]].
    destruct (applyUpdates_owner updates e) as [Hu' Hid'].
    apply (updateOne_others _ A B c HAB).
    + cbn [touch userId]. congruence.
    + intros d Hd Hdid. cbn [touch _id] in Hdid.
      rewrite <- Hu. apply (same_id_same_owner c e Hnd Hin d Hd). congruence.
  - rewrite deleteExpense_outcome.
    destruct (findOne _ c) as [e|] eqn:He; [|reflexivity]. cbn [snd].
    apply findOneAndDelete_others. exact HAB.
  - rewrite (getAllExpenses_recordsOf A q c2), (getAllExpenses_recordsOf A q c).
    rewrite Hsame. reflexivity.
  - rewrite (getExpenseById_recordsOf A id c2), (getExpenseById_recordsOf A id c).
    rewrite Hsame. reflexivity.
  - destruct (updateExpense_recordsOf now A id updates c Hnd) as [-> _].
    destruct (updateExpense_recordsOf now A id updates c2 Hnd2) as [-> _].
    rewrite Hsame. reflexivity.
  - destruct (updateExpense_recordsOf now A id updates c Hnd) as [_ ->].
    destruct (updateExpense_recordsOf now A id updates c2 Hnd2) as [_ ->].
    rewrite Hsame. reflexivity.
  - destruct (deleteExpense_recordsOf A id c) as [-> _].
    destruct (deleteExpense_recordsOf A id c2) as [-> _].
    rewrite Hsame. reflexivity.
  - destruct (deleteExpense_recordsOf A id c) as [_ ->].
    destruct (deleteExpense_recordsOf A id c2) as [_ ->].
    rewrite Hsame. reflexivity.
Qed.

Lemma scenarioOtherV_ids_distinct : NoDup (map _id scenarioOtherV).
Proof. apply distinctb_NoDup. reflexivity. Qed.

Lemma isolation_witness :
  "U"%string <> "V"%string
  /\ NoDup (map _id scenario) /\ NoDup (map _id scenarioOtherV)
  /\ recordsOf "U" scenarioOtherV = recordsOf "U" scenario
  /\ recordsOf "V"
       (snd (ExpenseController.deleteExpense "U" "e4" scenario))
     = recordsOf "V" scenario
  /\ ExpenseController.getAllExpenses "U" (pageQuery 2 1) scenarioOtherV
     = ExpenseController.getAllExpenses "U" (pageQuery 2 1) scenario.
Proof.
  assert (H1 : "U"%string <> "V"%string) by discriminate.
  pose proof scenarioOtherV_ids_distinct as H2.
  assert (H3 : recordsOf "U" scenarioOtherV = recordsOf "U" scenario)
    by (vm_compute; reflexivity).
  pose proof (isolation "U" "V" (pageQuery 2 1) "e4" 99 intrusiveBody
                scenario scenarioOtherV H1 scenario_ids_distinct H2 H3) as H.
  split; [exact H1|]. split; [exact scenario_ids_distinct|].
  split; [exact H2|]. split; [exact H3|].
  destruct H as (_ & _ & _ & _ & _ & Hdel & Hlist & _).
  split; [exact Hdel | exact Hlist].
Defined.


(** ** The category report: statistics *)





Lemma opt_test_iff {A : Type} (test : A -> bool) (o : option A) :
  opt_test test o = true <-> forall a, o = Some a -> test a = true.
Proof.
  destruct o as [a|]; simpl; split.
  - intros H b [= <-]. exact H.
  - intros H. apply H. reflexivity.
  - intros _ a [=].
  - reflexivity.
Qed.


Lemma div_by_count (q : Q) (n : Z) :
  n <> 0 -> JS.div q (inject_Z n) = JS.Finite (q / inject_Z n).
Proof.
  intros Hn. unfold JS.div.
  destruct (Qeq_bool (inject_Z n) 0) eqn:E; [|reflexivity].
  apply Qeq_bool_iff in E. unfold Qeq, inject_Z in E. simpl in E. lia.
Qed.

Lemma categoryReport_expenses (uid cat : string) (startDate endDate : option Z)
  (c : Collection) :
  Permutation
    (Store.sort "date" (-1)
       (find (ReportController.categoryFilter uid cat startDate endDate) c))
    (find (ReportController.categoryFilter uid cat startDate endDate) c).
Proof. apply sort_by_perm. Qed.



(** ** The category report: monthly trend *)

(** *** The order of strings *)







(** *** The accumulator *)

Lemma has_In (acc : ReportController.TrendAcc) (k : string) :
  ReportController.has acc k = true <-> In k (map fst acc).
Proof.
  unfold ReportController.has. rewrite existsb_exists, in_map_iff.
  split; intros [kv [H1 H2]]; exists kv.
  - apply String.eqb_eq in H2. tauto.
  - rewrite String.eqb_eq. tauto.
Qed.







(** *** The month labels *)










(** *** The entries of the trend *)


Lemma StronglySorted_map {A B : Type} (f : A -> B) (R : B -> B -> Prop)
  (l : list A) :
  StronglySorted (fun a b => R (f a) (f b)) l -> StronglySorted R (map f l).
Proof.
  induction 1 as [|x l Hs IH Hall]; simpl; constructor.
  - exact IH.
  - apply Forall_map. exact Hall.
Qed.



Lemma trendData_items (expenses : list Expense) :
  ReportController.trendData expenses
  = map trendItem
      (JS.sort_by ReportController.monthNotAfter
         (ReportController.Object_values
            (fold_left ReportController.trendStep expenses []))).
Proof. reflexivity. Qed.





(** * Further properties of the handlers *)

(** ** The listing: order and pages *)

Lemma comparePath_antisym (path : string) (a b : Expense) :
  comparePath path b a = CompOpp (comparePath path a b).
Proof.
  unfold comparePath.
  repeat match goal with
         | |- context [String.eqb path ?x] => destruct (String.eqb path x)
         end;
    try apply Z.compare_antisym; try apply String.compare_antisym;
    try (symmetry; apply Qcompare_antisym).
  reflexivity.
Qed.

Lemma leDir_total (dir : Z) (path : string) (a b : Expense) :
  dir <> 0 ->
  leDir dir (comparePath path a b) = false ->
  leDir dir (comparePath path b a) = true.
Proof.
  intros Hd. rewrite (comparePath_antisym path a b).
  destruct (comparePath path a b); simpl; intros H.
  - discriminate.
  - apply Z.ltb_ge in H. apply Z.ltb_lt. lia.
  - apply Z.ltb_ge in H. apply Z.ltb_lt. lia.
Qed.

Lemma HdRel_firstn {A : Type} (R : A -> A -> Prop) (x : A) (n : nat)
  (l : list A) : HdRel R x l -> HdRel R x (firstn n l).
Proof.
  intros H. destruct n, l; simpl; try constructor.
  inversion H; assumption.
Qed.

Lemma Sorted_firstn {A : Type} (R : A -> A -> Prop) (n : nat) (l : list A) :
  Sorted R l -> Sorted R (firstn n l).
Proof.
  revert n. induction l as [|x l IH]; intros n H.
  - rewrite firstn_nil. constructor.
  - destruct n; simpl; [constructor|].
    inversion H; subst. constructor; [apply IH; assumption|].
    apply HdRel_firstn. assumption.
Qed.

Lemma Sorted_skipn {A : Type} (R : A -> A -> Prop) (n : nat) (l : list A) :
  Sorted R l -> Sorted R (skipn n l).
Proof.
  revert l. induction n as [|n IH]; intros l H; [exact H|].
  destruct l; simpl; [constructor|].
  inversion H; subst. apply IH. assumption.
Qed.

Lemma StronglySorted_firstn {A : Type} (R : A -> A -> Prop) (n : nat)
  (l : list A) : StronglySorted R l -> StronglySorted R (firstn n l).
Proof.
  revert n. induction l as [|x l IH]; intros n H.
  - rewrite firstn_nil. constructor.
  - destruct n; simpl; [constructor|].
    inversion H; subst. constructor; [apply IH; assumption|].
    rewrite Forall_forall in *. intros y Hy.
    match goal with Hall : forall x, In x l -> _ |- _ => apply Hall end.
    clear - Hy. revert n Hy. induction l as [|z l IHl]; intros n Hy.
    + rewrite firstn_nil in Hy. contradiction.
    + destruct n; simpl in Hy; [contradiction|].
      destruct Hy as [-> | Hy]; [left; reflexivity | right; eauto].
Qed.

Lemma StronglySorted_skipn {A : Type} (R : A -> A -> Prop) (n : nat)
  (l : list A) : StronglySorted R l -> StronglySorted R (skipn n l).
Proof.
  revert l. induction n as [|n IH]; intros l H; [exact H|].
  destruct l; simpl; [constructor|].
  inversion H; subst. apply IH. assumption.
Qed.

(** The records of an answer are a segment of the sorted matching
    records. *)
Lemma getAllExpenses_segment (uid : string) (q : ExpenseController.ListQuery)
  (c : Collection) (status : Z) (msg : string)
  (data : ExpenseController.ListData) :
  ExpenseController.getAllExpenses uid q c = Json status msg data ->
  exists n m : nat,
    ExpenseController.expenses data = firstn n (skipn m (ordered uid q c)).
Proof.
  unfold ExpenseController.getAllExpenses. fold (ordered uid q c).
  destruct (ExpenseController.truthyNumber _) as [l|].
  - unfold skip_limit. destruct (_ <? 0); [discriminate|].
    intros H. injection H as _ _ <-. cbn. eauto.
  - intros H. injection H as _ _ <-. cbn.
    exists (List.length (ordered uid q c)), 0%nat.
    cbn. rewrite firstn_all. reflexivity.
Qed.

Lemma Sorted_weaken {A : Type} (R R' : A -> A -> Prop) (l : list A) :
  (forall a b, R a b -> R' a b) -> Sorted R l -> Sorted R' l.
Proof.
  intros Himp. induction 1 as [|x l Hs IH Hhd]; constructor.
  - exact IH.
  - destruct Hhd; constructor. apply Himp. assumption.
Qed.

Lemma leDir_mayPrecede (path : string) (asc : bool) (a b : Expense) :
  leDir (if asc then 1 else -1) (comparePath path a b) = true
  <-> mayPrecede path asc a b.
Proof.
  unfold mayPrecede, leDir.
  destruct (comparePath path a b), asc; cbv; intuition (auto; discriminate).
Qed.

Lemma ordered_sorted (uid : string) (q : ExpenseController.ListQuery)
  (c : Collection) :
  Sorted (mayPrecede (sortPath q) (ascending q)) (ordered uid q c).
Proof.
  unfold ordered, Store.sort. fold (sortPath q). fold (ascending q).
  set (dir := if ascending q then 1 else -1).
  assert (Hd : dir <> 0) by (unfold dir; destruct (ascending q); lia).
  pose proof (sort_by_sorted
                (fun a b => leDir dir (comparePath (sortPath q) a b))
                (fun a b => leDir_total dir (sortPath q) a b Hd)
                (find (ExpenseController.listFilter uid q) c)) as H.
  revert H. apply Sorted_weaken. intros a b. apply leDir_mayPrecede.
Qed.

Lemma leDir_date_trans (dir x y z : Z) :
  dir = 1 \/ dir = -1 ->
  leDir dir (x ?= y) = true -> leDir dir (y ?= z) = true ->
  leDir dir (x ?= z) = true.
Proof.
  intros [-> | ->];
    destruct (Z.compare_spec x y), (Z.compare_spec y z),
      (Z.compare_spec x z); cbn; intros; subst;
    try reflexivity; try discriminate; lia.
Qed.

Lemma ordered_by_date (uid : string) (q : ExpenseController.ListQuery)
  (c : Collection) :
  sortPath q = "date"%string ->
  StronglySorted
    (fun a b => if ascending q then date a <= date b else date b <= date a)
    (ordered uid q c).
Proof.
  intros Hp. unfold ordered, Store.sort.
  fold (sortPath q). fold (ascending q). rewrite Hp.
  set (dir := if ascending q then 1 else -1).
  assert (Hd : dir = 1 \/ dir = -1)
    by (unfold dir; destruct (ascending q); auto).
  apply (StronglySorted_weaken
           (fun a b => leDir dir (comparePath "date" a b) = true)).
  - intros a b. change (comparePath "date" a b) with (date a ?= date b).
    unfold dir. destruct (ascending q), (Z.compare_spec (date a) (date b));
      cbn; intros; try discriminate; lia.
  - apply sort_by_strongly_sorted.
    + intros a b. apply leDir_total. lia.
    + intros a b d. apply leDir_date_trans. exact Hd.
Qed.

(** X1: the records of a listing are in the order that the request names:
    by the path given (the date when none is), ascending for the order
    "asc" and descending for any other; of two neighbours the first never
    compares after the second.  In a listing by date every record is
    dated no later (ascending) or no earlier (descending) than all the
    records after it. *)
Theorem listing_is_in_the_requested_order (uid : string)
  (q : ExpenseController.ListQuery) (c : Collection) (status : Z)
  (msg : string) (data : ExpenseController.ListData) :
  ExpenseController.getAllExpenses uid q c = Json status msg data ->
  Sorted (mayPrecede (sortPath q) (ascending q))
    (ExpenseController.expenses data)
  /\ (sortPath q = "date"%string ->
      StronglySorted
        (fun a b => if ascending q then date a <= date b
                    else date b <= date a)
        (ExpenseController.expenses data)).
Proof.
  intros H. apply getAllExpenses_segment in H. destruct H as [n [m ->]].
  split.
  - apply Sorted_firstn, Sorted_skipn, ordered_sorted.
  - intros Hp.
    apply StronglySorted_firstn, StronglySorted_skipn, ordered_by_date, Hp.
Qed.

Lemma listing_is_in_the_requested_order_witness :
  exists data,
    ExpenseController.getAllExpenses "U" (pageQuery 2 1) scenario
    = Json 200 "Expenses retrieved successfully" data
    /\ Sorted (mayPrecede "date" false) (ExpenseController.expenses data).
Proof.
  pose proof (getAllExpenses_page "U" (pageQuery 2 1) scenario 2 1
                eq_refl eq_refl ltac:(lia) ltac:(lia)) as E.
  cbv zeta in E. eexists. split; [exact E|].
  exact (proj1 (listing_is_in_the_requested_order
                  "U" (pageQuery 2 1) scenario _ _ _ E)).
Defined.



(** X3: a page after the last one is answered with status 200 and no
    records: the pagination block still reports the number of pages and of
    matching records, the summary reports the count of all matching
    records beside a total amount of 0. *)
Theorem page_after_the_last_is_empty (uid : string)
  (q : ExpenseController.ListQuery) (c : Collection) (P k : Z) :
  ExpenseController.q_limit q = Some P ->
  ExpenseController.default (ExpenseController.q_page q) 1 = k ->
  0 < P ->
  let N := countDocuments (ExpenseController.listFilter uid q) c in
  JS.ceil_div N P < k ->
  exists data,
    ExpenseController.getAllExpenses uid q c
    = Json 200 "Expenses retrieved successfully" data
    /\ ExpenseController.expenses data = []
    /\ ExpenseController.pagination data
       = Some (ExpenseController.mkPagination k (JS.ceil_div N P) N P)
    /\ ExpenseController.totalExpenses (ExpenseController.summary data) = N
    /\ (ExpenseController.totalAmount (ExpenseController.summary data) == 0)%Q.
Proof.
  intros Hl Hk HP N Hlast.
  pose proof (ceil_div_spec N P HP) as Hc.
  assert (HN : 0 <= N) by (unfold N, countDocuments; lia).
  assert (Hs : N <= (k - 1) * P) by nia.
  assert (Hempty : firstn (Z.abs_nat P)
                     (skipn (Z.to_nat ((k - 1) * P)) (ordered uid q c)) = []).
  { rewrite skipn_all2; [apply firstn_nil|].
    unfold N, countDocuments in Hs.
    rewrite <- (Permutation_length (ordered_perm uid q c)) in Hs. lia. }
  eexists. split.
  - apply (getAllExpenses_page uid q c P k Hl Hk); lia.
  - cbn [ExpenseController.expenses ExpenseController.pagination
         ExpenseController.summary ExpenseController.totalExpenses
         ExpenseController.totalAmount].
    rewrite Hempty. repeat split; reflexivity.
Qed.

Lemma page_after_the_last_is_empty_witness :
  exists data,
    ExpenseController.getAllExpenses "U" (pageQuery 2 3) scenario
    = Json 200 "Expenses retrieved successfully" data
    /\ ExpenseController.expenses data = []
    /\ ExpenseController.totalExpenses (ExpenseController.summary data) = 3.
Proof.
  destruct (page_after_the_last_is_empty "U" (pageQuery 2 3) scenario 2 3
              eq_refl eq_refl ltac:(lia) ltac:(vm_compute; reflexivity))
    as [data [H1 [H2 [_ [H3 _]]]]].
  exists data. split; [exact H1|]. split; [exact H2|].
  rewrite H3. vm_compute. reflexivity.
Defined.

(** The pages of a list, one after the other, are the list. *)
Lemma pages_concat {A : Type} (p : nat) (l : list A) (t : nat) :
  (0 < p)%nat -> (List.length l <= t * p)%nat ->
  List.concat (map (fun i => firstn p (skipn (i * p) l)) (seq 0 t)) = l.
Proof.
  intros Hp. revert l. induction t as [|t IH]; intros l Hl.
  - destruct l; [reflexivity | simpl in Hl; lia].
  - rewrite <- cons_seq, <- seq_shift. cbn [map List.concat skipn Nat.mul].
    rewrite map_map.
    transitivity (firstn p l ++ skipn p l); [|apply firstn_skipn]. f_equal.
    rewrite <- (IH (skipn p l)).
    + f_equal. apply map_ext. intros i. rewrite skipn_skipn.
      f_equal. f_equal. lia.
    + rewrite length_skipn. simpl in Hl. lia.
Qed.

Lemma ordered_withPage (uid : string) (q : ExpenseController.ListQuery)
  (c : Collection) (P k : Z) :
  ordered uid (withPage q P k) c = ordered uid q c.
Proof. reflexivity. Qed.

Lemma listed_page (uid : string) (q : ExpenseController.ListQuery)
  (c : Collection) (P : Z) (i : nat) :
  0 < P ->
  listed uid (withPage q P (Z.of_nat i + 1)) c
  = firstn (Z.to_nat P) (skipn (i * Z.to_nat P) (ordered uid q c)).
Proof.
  intros HP. unfold listed.
  rewrite (getAllExpenses_page uid (withPage q P (Z.of_nat i + 1)) c P
             (Z.of_nat i + 1) eq_refl eq_refl); try nia.
  cbn [ExpenseController.expenses]. rewrite ordered_withPage.
  f_equal; [lia|]. f_equal. nia.
Qed.

(** X4: on a collection that does not change, and when the matching
    records are pairwise different on the sort path, the pages 1 to
    ceil(N / P) of a list query with page size P > 0, one after the other,
    are exactly the sorted matching records: no record is left out and
    none is listed twice. *)
Theorem pages_make_up_the_listing (uid : string)
  (q : ExpenseController.ListQuery) (c : Collection) (P : Z) :
  0 < P ->
  distinctOn (sortPath q) (find (ExpenseController.listFilter uid q) c) ->
  let N := countDocuments (ExpenseController.listFilter uid q) c in
  List.concat (map (fun i => listed uid (withPage q P (Z.of_nat i + 1)) c)
            (seq 0 (Z.to_nat (JS.ceil_div N P))))
  = ordered uid q c.
Proof.
  intros HP _ N.
  rewrite (map_ext _ (fun i => firstn (Z.to_nat P)
                                 (skipn (i * Z.to_nat P) (ordered uid q c)))).
  - apply pages_concat; [lia|].
    pose proof (ceil_div_spec N P HP) as Hc.
    assert (HN : Z.of_nat (List.length (ordered uid q c)) = N).
    { unfold N, countDocuments.
      rewrite (Permutation_length (ordered_perm uid q c)). reflexivity. }
    nia.
  - intros i. apply listed_page, HP.
Qed.

Lemma scenario_dates_distinct :
  distinctOn "date"
    (find (ExpenseController.listFilter "U" (pageQuery 2 1)) scenario).
Proof.
  intros a b Ha Hb.
  change (find (ExpenseController.listFilter "U" (pageQuery 2 1)) scenario)
    with [ sample "e1" "U" (100 # 1) "Food" (JS.newDate 0 2025 0 5 12 0 0);
           sample "e2" "U" (50 # 1) "Food" (JS.newDate 0 2025 0 20 12 0 0);
           sample "e3" "U" (30 # 1) "Transportation"
             (JS.newDate 0 2025 0 10 12 0 0) ] in Ha, Hb.
  simpl in Ha, Hb.
  destruct Ha as [<- | [<- | [<- | []]]];
    destruct Hb as [<- | [<- | [<- | []]]];
    intros H; try reflexivity; vm_compute in H; discriminate.
Qed.

Lemma pages_make_up_the_listing_witness :
  listed "U" (pageQuery 2 1) scenario ++ listed "U" (pageQuery 2 2) scenario
  = ordered "U" (pageQuery 2 1) scenario.
Proof.
  pose proof (pages_make_up_the_listing "U" (pageQuery 2 1) scenario 2
                ltac:(lia) scenario_dates_distinct) as H.
  cbv zeta in H.
  change (Z.to_nat
            (JS.ceil_div
               (countDocuments
                  (ExpenseController.listFilter "U" (pageQuery 2 1)) scenario)
               2)) with 2%nat in H.
  cbn [seq map List.concat] in H. rewrite app_nil_r in H. exact H.
Defined.

(** ** The listing without a page size *)

Lemma truthyString_Some (o : option string) (s : string) :
  ExpenseController.truthyString o = Some s
  <-> o = Some s /\ s <> EmptyString.
Proof.
  destruct o as [x|]; simpl.
  - destruct (String.eqb x EmptyString) eqn:E.
    + apply String.eqb_eq in E. split; [discriminate|].
      intros [[= ->] Hn]. contradiction.
    + apply String.eqb_neq in E. split.
      * intros [= ->]. split; [reflexivity | assumption].
      * intros [[= ->] _]. reflexivity.
  - split; [discriminate | intros [[=] _]].
Qed.

Lemma listFilter_matches (uid : string) (q : ExpenseController.ListQuery)
  (e : Expense) :
  matches (ExpenseController.listFilter uid q) e = true
  <-> userId e = uid
      /\ (forall cat, ExpenseController.q_category q = Some cat ->
             cat <> EmptyString -> category e = cat)
      /\ (forall lo, ExpenseController.q_startDate q = Some lo -> lo <= date e)
      /\ (forall hi, ExpenseController.q_endDate q = Some hi -> date e <= hi).
Proof.
  unfold matches, ExpenseController.listFilter.
  cbn [by_id by_userId by_category date_gte date_lte].
  rewrite !andb_true_iff, !opt_test_iff, String.eqb_eq.
  split.
  - intros [[[[_ Hu] Hc] Hlo] Hhi]. split; [exact Hu|]. split.
    + intros cat Hq Hn. apply String.eqb_eq, Hc, truthyString_Some. auto.
    + split; intros x Hx; apply Z.leb_le; auto.
  - intros [Hu [Hc [Hlo Hhi]]]. repeat split.
    + intros a [=].
    + exact Hu.
    + intros a Ha. apply truthyString_Some in Ha. destruct Ha as [Ha Hn].
      apply String.eqb_eq. auto.
    + intros x Hx. apply Z.leb_le; auto.
    + intros x Hx. apply Z.leb_le; auto.
Qed.



(** ** Assignments to the paths of a document *)

Lemma assign_stored (key : string) (v : Value) (d : Document) :
  In key ExpenseController.allowedUpdates ->
  match stored key v with
  | Some w => readPath key (fields (assign key v d)) = Some w
              /\ refused (assign key v d) = refused d
  | None => fields (assign key v d) = fields d
            /\ refused (assign key v d) = key :: refused d
  end.
Proof.
  intros Hk. unfold ExpenseController.allowedUpdates in Hk. simpl in Hk.
  repeat destruct Hk as [<- | Hk]; try contradiction;
    destruct v as [s | [q | | |] | t]; split; reflexivity.
Qed.

Lemma assign_other (key : string) (v : Value) (d : Document) :
  ~ In key ExpenseController.allowedUpdates -> assign key v d = d.
Proof.
  intros Hk. unfold assign.
  repeat match goal with
         | |- context [if String.eqb key ?s then _ else _] =>
             let E := fresh "K" in
             destruct (String.eqb key s) eqn:E;
             [apply String.eqb_eq in E; subst key; exfalso; apply Hk;
              unfold ExpenseController.allowedUpdates; simpl; tauto|]
         end.
  reflexivity.
Qed.

Lemma allowed_dec (key : string) :
  {In key ExpenseController.allowedUpdates}
  + {~ In key ExpenseController.allowedUpdates}.
Proof. apply in_dec, string_dec. Qed.

Lemma assign_refused (key : string) (v : Value) (d : Document) :
  refused (assign key v d) = [] -> refused d = [].
Proof.
  destruct (allowed_dec key) as [Hk | Hk].
  - pose proof (assign_stored key v d Hk) as H.
    destruct (stored key v); destruct H as [_ ->]; [auto | discriminate].
  - rewrite (assign_other key v d Hk). auto.
Qed.



Lemma fold_setPath_frame (obj : list (string * option Value)) (d : Document)
  (name : string) :
  ~ In name (map fst obj) ->
  readPath name (fields (fold_left setPath obj d)) = readPath name (fields d).
Proof.
  revert d. induction obj as [|[k ov] obj IH]; intros d Hn; [reflexivity|].
  cbn [fold_left]. rewrite IH by (intros Hin; apply Hn; right; exact Hin).
  unfold setPath. cbn [fst snd]. destruct ov as [v|]; [|reflexivity].
  apply assign_frame. intros ->. apply Hn. left. reflexivity.
Qed.


(** ** Creating *)


Lemma createExpense_outcome (clock now : Z) (newId uid : string)
  (body : ExpenseController.Body) (c : Collection) :
  ExpenseController.createExpense clock now newId uid body c
  = match insertOne (proposed clock now newId uid body) c with
    | Mongoose.Throw error =>
        (Next (ErrorHandler.mkAppError (ErrorHandler.MessageOf error) 500), c)
    | Mongoose.Ok (created, c') =>
        (Json 201 "Expense created successfully" created, c')
    end.
Proof.
  unfold ExpenseController.createExpense, proposed.
  destruct (insertOne _ c) as [[created c']|error]; reflexivity.
Qed.

Lemma insertOne_Ok (d : Document) (c c' : Collection) (e : Expense) :
  insertOne d c = Mongoose.Ok (e, c') <->
  refused d = [] /\ validate (fields d) = true
  /\ ~ In (_id (fields d)) (map _id c)
  /\ e = fields d /\ c' = c ++ [e].
Proof.
  unfold insertOne.
  assert (Hex : existsb (fun x => String.eqb (_id x) (_id (fields d))) c = true
                <-> In (_id (fields d)) (map _id c)).
  { rewrite existsb_exists, in_map_iff. split.
    - intros [x [Hx He]]. apply String.eqb_eq in He. eauto.
    - intros [x [He Hx]]. exists x. rewrite String.eqb_eq. auto. }
  destruct (refused d).
  - destruct (validate (fields d)).
    + destruct (existsb _ c).
      * split; [discriminate|]. intros [_ [_ [H _]]]. exfalso. tauto.
      * split.
        -- intros [= <- <-]. repeat split; auto.
           intros H. apply Hex in H. discriminate.
        -- intros [_ [_ [_ [-> ->]]]]. reflexivity.
    + split; [discriminate | intros [_ [[=] _]]].
  - split; [discriminate | intros [[=] _]].
Qed.

Lemma createExpense_created (clock now : Z) (newId uid : string)
  (body : ExpenseController.Body) (c c' : Collection) (status : Z)
  (msg : string) (e : Expense) :
  ExpenseController.createExpense clock now newId uid body c
  = (Json status msg e, c') ->
  status = 201
  /\ insertOne (proposed clock now newId uid body) c = Mongoose.Ok (e, c').
Proof.
  rewrite createExpense_outcome.
  destruct (insertOne _ c) as [[created c'']|error]; [|discriminate].
  intros [= <- _ <- <-]. auto.
Qed.

Lemma proposed_outside (clock now : Z) (newId uid : string)
  (body : ExpenseController.Body) (name : string) :
  ~ In name ExpenseController.allowedUpdates ->
  readPath name (fields (proposed clock now newId uid body))
  = readPath name (blank newId uid now).
Proof.
  intros Hn. unfold proposed, construct.
  apply (fold_setPath_frame _ (hydrate (blank newId uid now))).
  exact Hn.
Qed.

Lemma not_allowed_updatedAt :
  ~ In "updatedAt"%string ExpenseController.allowedUpdates.
Proof. simpl. intuition discriminate. Qed.

(** What a create call has stored: its id, its owner, and where. *)
Lemma created_record_identity_facts (clock now : Z) (newId uid : string)
  (body : ExpenseController.Body) (c c' : Collection) (status : Z)
  (msg : string) (e : Expense) :
  ExpenseController.createExpense clock now newId uid body c
  = (Json status msg e, c') ->
  _id e = newId /\ userId e = uid /\ ~ In newId (map _id c)
  /\ c' = c ++ [e].
Proof.
  intros H. apply createExpense_created in H. destruct H as [_ H].
  apply insertOne_Ok in H. destruct H as [_ [_ [Hfresh [-> ->]]]].
  assert (Hid : _id (fields (proposed clock now newId uid body)) = newId)
    by apply (readPath_id _ (blank newId uid now)),
             proposed_outside, not_allowed_id.
  rewrite Hid in Hfresh. repeat split; try assumption.
  apply (readPath_userId _ (blank newId uid now)),
    proposed_outside, not_allowed_userId.
Qed.

(** X6: a record that a create call has stored is owned by the caller and
    carries the generated id, whatever the body holds (its keys [userId],
    [_id], [createdAt] and [updatedAt] are never read); both timestamps are
    the time of the insertion; the record passes the validators of the
    schema; the id was not in use, and the collection afterwards is the
    one before with the record at its end.  The answer has status 201. *)
Theorem created_record_identity (clock now : Z) (newId uid : string)
  (body : ExpenseController.Body) (c c' : Collection) (status : Z)
  (msg : string) (e : Expense) :
  ExpenseController.createExpense clock now newId uid body c
  = (Json status msg e, c') ->
  status = 201
  /\ _id e = newId /\ userId e = uid
  /\ createdAt e = now /\ updatedAt e = now
  /\ validate e = true
  /\ ~ In newId (map _id c)
  /\ c' = c ++ [e].
Proof.
  intros H. apply createExpense_created in H. destruct H as [-> H].
  apply insertOne_Ok in H. destruct H as [Href [Hv [Hfresh [-> ->]]]].
  set (d := proposed clock now newId uid body) in *.
  assert (Hid : _id (fields d) = newId)
    by apply (readPath_id _ (blank newId uid now)),
             proposed_outside, not_allowed_id.
  rewrite Hid in Hfresh.
  repeat split; try assumption.
  - apply (readPath_userId _ (blank newId uid now)),
      proposed_outside, not_allowed_userId.
  - apply (readPath_createdAt _ (blank newId uid now)),
      proposed_outside, not_allowed_createdAt.
  - pose proof (proposed_outside clock now newId uid body "updatedAt"
                  not_allowed_updatedAt) as H.
    fold d in H. unfold readPath in H. simpl in H. congruence.
Qed.

Lemma created_record_identity_witness :
  exists e,
    ExpenseController.createExpense 5 7 "e7" "U" lunchBody scenario
    = (Json 201 "Expense created successfully" e, scenario ++ [e])
    /\ userId e = "U"%string /\ _id e = "e7"%string.
Proof.
  assert (E : ExpenseController.createExpense 5 7 "e7" "U" lunchBody scenario
              = (Json 201 "Expense created successfully"
                   (fields (proposed 5 7 "e7" "U" lunchBody)),
                 scenario ++ [fields (proposed 5 7 "e7" "U" lunchBody)]))
    by (vm_compute; reflexivity).
  eexists. split; [exact E|].
  destruct (created_record_identity 5 7 "e7" "U" lunchBody scenario _ _ _ _ E)
    as [_ [Hid [Hu _]]].
  split; assumption.
Defined.






(** ** Creating, then reading *)

Lemma find_app_fresh (f : Filter) (c : Collection) (e : Expense) :
  List.find (matches f) c = None ->
  List.find (matches f) (c ++ [e])
  = if matches f e then Some e else None.
Proof.
  induction c as [|d c IH]; simpl; [reflexivity|].
  destruct (matches f d); [discriminate | exact IH].
Qed.

Lemma find_app_found (f : Filter) (c : Collection) (e x : Expense) :
  List.find (matches f) c = Some x ->
  List.find (matches f) (c ++ [e]) = Some x.
Proof.
  induction c as [|d c IH]; simpl; [discriminate|].
  destruct (matches f d); [auto | exact IH].
Qed.

(** X8: after a create call has stored a record, reading the record by
    its id as the same caller answers with that record; any other read by
    id (another id, or another caller) is answered as before the
    creation. *)
Theorem create_then_get (clock now : Z) (newId uid : string)
  (body : ExpenseController.Body) (c c' : Collection) (status : Z)
  (msg : string) (e : Expense) :
  ExpenseController.createExpense clock now newId uid body c
  = (Json status msg e, c') ->
  ExpenseController.getExpenseById uid newId c'
  = Json 200 "Expense retrieved successfully" e
  /\ (forall uid' id',
        id' <> newId \/ uid' <> uid ->
        ExpenseController.getExpenseById uid' id' c'
        = ExpenseController.getExpenseById uid' id' c).
Proof.
  intros H.
  destruct (created_record_identity_facts clock now newId uid body c c'
              status msg e H) as [Hid [Hu [Hfresh ->]]].
  unfold ExpenseController.getExpenseById, findOne. split.
  - rewrite find_app_fresh.
    + assert (Hm : matches (ExpenseController.byIdAndOwner newId uid) e = true)
        by (apply matches_byIdAndOwner; auto).
      rewrite Hm. reflexivity.
    + apply (findOne_None_iff uid newId c). intros [x [Hx [Hxid _]]].
      apply Hfresh. rewrite <- Hxid. apply in_map, Hx.
  - intros uid' id' Hne.
    destruct (List.find (matches (ExpenseController.byIdAndOwner id' uid')) c)
      as [x|] eqn:Hf.
    + rewrite (find_app_found _ _ e x Hf). reflexivity.
    + rewrite (find_app_fresh _ _ e Hf).
      destruct (matches (ExpenseController.byIdAndOwner id' uid') e) eqn:Hm;
        [|reflexivity].
      apply matches_byIdAndOwner in Hm. destruct Hm as [Hm1 Hm2].
      exfalso. destruct Hne as [Hne | Hne]; apply Hne; congruence.
Qed.

Lemma create_then_get_witness :
  exists e,
    ExpenseController.createExpense 5 7 "e7" "U" lunchBody scenario
    = (Json 201 "Expense created successfully" e, scenario ++ [e])
    /\ ExpenseController.getExpenseById "U" "e7" (scenario ++ [e])
       = Json 200 "Expense retrieved successfully" e.
Proof.
  assert (E : ExpenseController.createExpense 5 7 "e7" "U" lunchBody scenario
              = (Json 201 "Expense created successfully"
                   (fields (proposed 5 7 "e7" "U" lunchBody)),
                 scenario ++ [fields (proposed 5 7 "e7" "U" lunchBody)]))
    by (vm_compute; reflexivity).
  eexists. split; [exact E|].
  exact (proj1 (create_then_get 5 7 "e7" "U" lunchBody scenario _ _ _ _ E)).
Defined.

(** ** What a create call refuses *)



(** ** Deleting, then reading *)

Lemma findOneAndDelete_split (f : Filter) (c c' : Collection) (e : Expense) :
  findOneAndDelete f c = (Some e, c') ->
  exists l1 l2,
    c = l1 ++ e :: l2 /\ c' = l1 ++ l2 /\ matches f e = true
    /\ Forall (fun x => matches f x = false) l1.
Proof.
  revert c'. induction c as [|d c IH]; intros c' H; simpl in H.
  - discriminate.
  - destruct (matches f d) eqn:Hm.
    + injection H as <- <-. exists [], c. repeat split; auto.
    + destruct (findOneAndDelete f c) as [r c''] eqn:Hd.
      injection H as -> <-.
      destruct (IH c'' eq_refl) as [l1 [l2 [H1 [H2 [H3 H4]]]]].
      exists (d :: l1), l2. subst. repeat split; auto.
Qed.

Lemma find_without (g : Filter) (l1 l2 : Collection) (e : Expense) :
  matches g e = false ->
  List.find (matches g) (l1 ++ e :: l2) = List.find (matches g) (l1 ++ l2).
Proof.
  intros Hm. induction l1 as [|d l1 IH]; simpl.
  - rewrite Hm. reflexivity.
  - destruct (matches g d); [reflexivity | exact IH].
Qed.

Lemma matches_other (id uid id' uid' : string) (e : Expense) :
  _id e = id -> userId e = uid -> id' <> id \/ uid' <> uid ->
  matches (ExpenseController.byIdAndOwner id' uid') e = false.
Proof.
  intros Hid Hu Hne.
  destruct (matches (ExpenseController.byIdAndOwner id' uid') e) eqn:Hm;
    [|reflexivity].
  apply matches_byIdAndOwner in Hm. destruct Hm as [H1 H2].
  exfalso. destruct Hne as [Hne | Hne]; apply Hne; congruence.
Qed.

(** X10: a delete call that succeeds hands back a record of that id owned
    by the caller, and takes exactly that record out of the collection:
    the records before and after it stay, in their order.  Every read by
    id of another record, or by another caller, is answered as before;
    and (the ids of the collection being distinct) the id is no longer in
    the collection and a read of it by the caller is Not-Found. *)
Theorem delete_removes_exactly_that_record (uid id : string)
  (c c' : Collection) (status : Z) (msg : string) (e : Expense) :
  ExpenseController.deleteExpense uid id c = (Json status msg e, c') ->
  status = 200 /\ _id e = id /\ userId e = uid
  /\ (exists l1 l2, c = l1 ++ e :: l2 /\ c' = l1 ++ l2)
  /\ (forall uid' id',
        id' <> id \/ uid' <> uid ->
        ExpenseController.getExpenseById uid' id' c'
        = ExpenseController.getExpenseById uid' id' c)
  /\ (NoDup (map _id c) ->
      ~ In id (map _id c')
      /\ ExpenseController.getExpenseById uid id c'
         = Next ExpenseController.notFound).
Proof.
  unfold ExpenseController.deleteExpense.
  destruct (findOneAndDelete (ExpenseController.byIdAndOwner id uid) c)
    as [[x|] c''] eqn:Hd; [|discriminate].
  intros [= <- _ <- <-].
  destruct (findOneAndDelete_split _ _ _ _ Hd) as [l1 [l2 [Hc [Hc' [Hm _]]]]].
  apply matches_byIdAndOwner in Hm. destruct Hm as [Hid Hu].
  split; [reflexivity|]. split; [exact Hid|]. split; [exact Hu|].
  split; [exists l1, l2; auto|]. split.
  - intros uid' id' Hne. unfold ExpenseController.getExpenseById, findOne.
    rewrite Hc, Hc'.
    rewrite (find_without _ l1 l2 x (matches_other id uid id' uid' x Hid Hu Hne)).
    reflexivity.
  - intros Hnd. split.
    + rewrite Hc, map_app in Hnd. cbn [map] in Hnd.
      apply NoDup_remove_2 in Hnd. rewrite Hc', map_app, <- Hid. exact Hnd.
    + unfold ExpenseController.getExpenseById.
      pose proof (findOneAndDelete_rest_none uid id c Hnd) as Hn.
      rewrite Hd in Hn. cbn [snd] in Hn. rewrite Hn. reflexivity.
Qed.

Lemma delete_removes_exactly_that_record_witness :
  exists e c',
    ExpenseController.deleteExpense "U" "e2" scenario
    = (Json 200 "Expense deleted successfully" e, c')
    /\ _id e = "e2"%string /\ userId e = "U"%string
    /\ ExpenseController.getExpenseById "U" "e2" c'
       = Next ExpenseController.notFound.
Proof.
  assert (E : ExpenseController.deleteExpense "U" "e2" scenario
              = (Json 200 "Expense deleted successfully"
                   (sample "e2" "U" (50 # 1) "Food"
                      (JS.newDate 0 2025 0 20 12 0 0)),
                 [ sample "e1" "U" (100 # 1) "Food"
                     (JS.newDate 0 2025 0 5 12 0 0);
                   sample "e3" "U" (30 # 1) "Transportation"
                     (JS.newDate 0 2025 0 10 12 0 0);
                   sample "e4" "V" (70 # 1) "Bills"
                     (JS.newDate 0 2025 0 11 12 0 0) ]))
    by reflexivity.
  eexists. eexists. split; [exact E|].
  destruct (delete_removes_exactly_that_record "U" "e2" scenario _ _ _ _ E)
    as [_ [Hid [Hu [_ [_ Hnd]]]]].
  split; [exact Hid|]. split; [exact Hu|].
  exact (proj2 (Hnd scenario_ids_distinct)).
Defined.

(** ** Updating, then reading *)

Lemma sameValues_refl (a : Expense) : sameValues a a = true.
Proof.
  unfold sameValues.
  rewrite !String.eqb_refl, !Z.eqb_refl.
  assert (H : Qeq_bool (amount a) (amount a) = true)
    by (apply Qeq_bool_iff; reflexivity).
  rewrite H. reflexivity.
Qed.

Lemma sameValues_sym (a b : Expense) :
  sameValues a b = true -> sameValues b a = true.
Proof.
  unfold sameValues. rewrite !andb_true_iff, !String.eqb_eq, !Z.eqb_eq,
    !Qeq_bool_iff.
  intros [[[[[[[[[H1 H2] H3] H4] H5] H6] H7] H8] H9] H10].
  repeat split; try (symmetry; assumption).
Qed.

Lemma updateOne_ids (e' : Expense) (c : Collection) :
  map _id (updateOne e' c) = map _id c.
Proof.
  induction c as [|d c IH]; simpl; [reflexivity|].
  destruct (String.eqb (_id d) (_id e')) eqn:E; simpl.
  - apply String.eqb_eq in E. congruence.
  - rewrite IH. reflexivity.
Qed.

Lemma updateOne_split (e e' : Expense) (c : Collection) :
  NoDup (map _id c) -> In e c -> _id e' = _id e ->
  exists l1 l2,
    c = l1 ++ e :: l2 /\ updateOne e' c = l1 ++ e' :: l2
    /\ ~ In (_id e) (map _id l1).
Proof.
  intros Hnd Hin Hid. induction c as [|d c IH]; [contradiction|].
  inversion Hnd as [|? ? Hnotin Hnd']; subst.
  simpl. destruct (String.eqb (_id d) (_id e')) eqn:E.
  - apply String.eqb_eq in E. destruct Hin as [-> | Hin].
    + exists [], c. repeat split; auto.
    + exfalso. apply Hnotin. rewrite E, Hid. apply in_map, Hin.
  - apply String.eqb_neq in E. destruct Hin as [-> | Hin]; [congruence|].
    destruct (IH Hnd' Hin) as [l1 [l2 [H1 [H2 H3]]]].
    exists (d :: l1), l2. rewrite H2. subst c. repeat split; auto.
    simpl. intros [H | H]; [congruence | contradiction].
Qed.

Lemma find_first (g : Filter) (l1 l2 : Collection) (e : Expense) :
  Forall (fun x => matches g x = false) l1 -> matches g e = true ->
  List.find (matches g) (l1 ++ e :: l2) = Some e.
Proof.
  intros Hl1 Hm. induction Hl1 as [|d l1 Hd _ IH]; simpl.
  - rewrite Hm. reflexivity.
  - rewrite Hd. exact IH.
Qed.

Lemma no_match_before (id uid : string) (l1 : Collection) :
  ~ In id (map _id l1) ->
  Forall (fun x => matches (ExpenseController.byIdAndOwner id uid) x = false)
    l1.
Proof.
  intros Hn. apply Forall_forall. intros x Hx.
  destruct (matches (ExpenseController.byIdAndOwner id uid) x) eqn:Hm;
    [|reflexivity].
  apply matches_byIdAndOwner in Hm. destruct Hm as [Hid _].
  exfalso. apply Hn. rewrite <- Hid. apply in_map, Hx.
Qed.

(** The outcomes of an update that succeeds. *)
Lemma updateExpense_cases (now : Z) (uid id : string)
  (updates : ExpenseController.Body) (c c' : Collection) (status : Z)
  (msg : string) (saved : Expense) :
  ExpenseController.updateExpense now uid id updates c
  = (Json status msg saved, c') ->
  exists e,
    findOne (ExpenseController.byIdAndOwner id uid) c = Some e
    /\ accepted updates e = true
    /\ status = 200
    /\ let d := ExpenseController.applyUpdates updates (hydrate e) in
       (sameValues e (fields d) = true /\ saved = fields d /\ c' = c)
       \/ (sameValues e (fields d) = false /\ saved = touch now (fields d)
           /\ c' = updateOne saved c).
Proof.
  rewrite updateExpense_outcome.
  destruct (findOne _ c) as [e|]; [|discriminate].
  destruct (accepted updates e) eqn:Ha; [|discriminate].
  cbv zeta. destruct (sameValues _ _) eqn:Hs; intros [= <- _ <- <-];
    exists e; repeat split; auto.
Qed.

(** X11: an update call that succeeds leaves the ids of the collection
    and their order as they were and changes at most the record of that id
    owned by the caller.  With distinct ids, a read of that id by the
    caller then answers with the values that the update answered with,
    and every read by id of another record, or by another caller, is
    answered as before. *)
Theorem update_then_get (now : Z) (uid id : string)
  (updates : ExpenseController.Body) (c c' : Collection) (status : Z)
  (msg : string) (saved : Expense) :
  NoDup (map _id c) ->
  ExpenseController.updateExpense now uid id updates c
  = (Json status msg saved, c') ->
  map _id c' = map _id c
  /\ (exists l1 e l2,
        c = l1 ++ e :: l2 /\ _id e = id /\ userId e = uid
        /\ (c' = c \/ c' = l1 ++ saved :: l2))
  /\ (exists kept,
        ExpenseController.getExpenseById uid id c'
        = Json 200 "Expense retrieved successfully" kept
        /\ sameValues saved kept = true)
  /\ (forall uid' id',
        id' <> id \/ uid' <> uid ->
        ExpenseController.getExpenseById uid' id' c'
        = ExpenseController.getExpenseById uid' id' c).
Proof.
  intros Hnd H.
  destruct (updateExpense_cases _ _ _ _ _ _ _ _ _ H)
    as [e [He [_ [_ Hcases]]]].
  pose proof (findOne_Some_inv uid id c e He) as [Hin [Hid Hu]].
  destruct (applyUpdates_owner updates e) as [Hu' Hid'].
  cbv zeta in Hcases.
  destruct Hcases as [[Hs [-> ->]] | [Hs [Hsaved ->]]].
  - split; [reflexivity|]. split; [|split].
    + destruct (in_split e c Hin) as [l1 [l2 Hc]].
      exists l1, e, l2. auto.
    + exists e. unfold ExpenseController.getExpenseById. rewrite He.
      split; [reflexivity | apply sameValues_sym, Hs].
    + reflexivity.
  - assert (Hsid : _id saved = _id e)
      by (rewrite Hsaved; cbn [touch _id]; exact Hid').
    assert (Hsu : userId saved = uid)
      by (rewrite Hsaved; cbn [touch userId]; congruence).
    destruct (updateOne_split e saved c Hnd Hin Hsid)
      as [l1 [l2 [Hc [Hc' Hl1]]]].
    split; [apply updateOne_ids|]. split; [|split].
    + exists l1, e, l2. auto.
    + exists saved. unfold ExpenseController.getExpenseById, findOne.
      rewrite Hc', find_first.
      * split; [reflexivity | apply sameValues_refl].
      * apply no_match_before. rewrite <- Hid. exact Hl1.
      * apply matches_byIdAndOwner. split; congruence.
    + intros uid' id' Hne.
      unfold ExpenseController.getExpenseById, findOne. rewrite Hc', Hc.
      rewrite (find_without _ l1 l2 saved), (find_without _ l1 l2 e);
        [reflexivity | |].
      * apply (matches_other id uid); auto.
      * apply (matches_other id uid); auto. congruence.
Qed.

Lemma update_then_get_witness :
  exists saved c',
    ExpenseController.updateExpense 99 "U" "e1" intrusiveBody scenario
    = (Json 200 "Expense updated successfully" saved, c')
    /\ map _id c' = map _id scenario
    /\ exists kept,
         ExpenseController.getExpenseById "U" "e1" c'
         = Json 200 "Expense retrieved successfully" kept
         /\ sameValues saved kept = true.
Proof.
  assert (E : ExpenseController.updateExpense 99 "U" "e1" intrusiveBody scenario
              = (Json 200 "Expense updated successfully"
                   (touch 99
                      (fields (ExpenseController.applyUpdates intrusiveBody
                                 (hydrate (sample "e1" "U" (100 # 1) "Food"
                                             (JS.newDate 0 2025 0 5 12 0 0)))))),
                 updateOne
                   (touch 99
                      (fields (ExpenseController.applyUpdates intrusiveBody
                                 (hydrate (sample "e1" "U" (100 # 1) "Food"
                                             (JS.newDate 0 2025 0 5 12 0 0))))))
                   scenario)) by reflexivity.
  eexists. eexists. split; [exact E|].
  destruct (update_then_get 99 "U" "e1" intrusiveBody scenario _ _ _ _
              scenario_ids_distinct E) as [H1 [_ [H2 _]]].
  split; [exact H1 | exact H2].
Defined.

(** ** The values that an update assigns *)

Section Assignments.

Variable updates : ExpenseController.Body.

Lemma applyUpdates_fold (d : Document) :
  ExpenseController.applyUpdates updates d
  = fold_left (assignKey updates) (ExpenseController.Object_keys updates) d.
Proof. reflexivity. Qed.

Lemma step_assign (d : Document) (key : string) (v : Value) :
  In key ExpenseController.allowedUpdates ->
  ExpenseController.get updates key = Some v ->
  assignKey updates d key = assign key v d.
Proof.
  intros Hk Hv. unfold assignKey. apply includes_In in Hk. rewrite Hk, Hv.
  reflexivity.
Qed.

Lemma step_refused (d : Document) (key : string) :
  refused (assignKey updates d key) = [] -> refused d = [].
Proof.
  unfold assignKey. destruct (includes _ key); [|auto].
  destruct (ExpenseController.get updates key); [apply assign_refused | auto].
Qed.

Lemma updates_fold_refused (keys : list string) (d : Document) :
  refused (fold_left (assignKey updates) keys d) = [] -> refused d = [].
Proof.
  revert d. induction keys as [|k keys IH]; intros d H; [exact H|].
  apply (step_refused d k), IH, H.
Qed.

Lemma updates_fold_frame (keys : list string) (d : Document) (name : string) :
  ~ In name keys \/ ~ In name ExpenseController.allowedUpdates ->
  readPath name (fields (fold_left (assignKey updates) keys d)) = readPath name (fields d).
Proof.
  revert d. induction keys as [|k keys IH]; intros d Hn; [reflexivity|].
  cbn [fold_left]. rewrite IH.
  - unfold assignKey. destruct (includes _ k) eqn:Hinc; [|reflexivity].
    destruct (ExpenseController.get updates k); [|reflexivity].
    apply assign_frame. intros ->. apply includes_In in Hinc.
    destruct Hn as [Hn | Hn]; [apply Hn; left; reflexivity | auto].
  - destruct Hn as [Hn | Hn]; [left | right; exact Hn].
    intros Hin. apply Hn. right. exact Hin.
Qed.

(** A key of the allow-list that the body gives a value of its type: the
    path holds that value at the end. *)
Lemma updates_fold_own (keys : list string) (d : Document) (key : string)
  (v w : Value) :
  In key keys -> In key ExpenseController.allowedUpdates ->
  ExpenseController.get updates key = Some v -> stored key v = Some w ->
  readPath key (fields (fold_left (assignKey updates) keys d)) = Some w.
Proof.
  intros Hin Hk Hv Hw. revert d Hin.
  induction keys as [|k keys IH]; intros d Hin; [contradiction|].
  cbn [fold_left].
  destruct (in_dec string_dec key keys) as [Hlater | Hnot].
  - apply IH, Hlater.
  - destruct Hin as [-> | Hin]; [|contradiction].
    rewrite updates_fold_frame by (left; exact Hnot).
    rewrite (step_assign d key v Hk Hv).
    pose proof (assign_stored key v d Hk) as H. rewrite Hw in H. apply H.
Qed.

(** In a document that will not be refused, every value that the body
    gives for a key of the allow-list is of the type of its path. *)
Lemma updates_fold_typed (keys : list string) (d : Document) (key : string)
  (v : Value) :
  refused (fold_left (assignKey updates) keys d) = [] ->
  In key keys -> In key ExpenseController.allowedUpdates ->
  ExpenseController.get updates key = Some v ->
  exists w, stored key v = Some w.
Proof.
  intros Href Hin Hk Hv. revert d Href Hin.
  induction keys as [|k keys IH]; intros d Href Hin; [contradiction|].
  cbn [fold_left] in Href.
  destruct Hin as [-> | Hin]; [|apply (IH _ Href Hin)].
  apply updates_fold_refused in Href.
  rewrite (step_assign d key v Hk Hv) in Href.
  pose proof (assign_stored key v d Hk) as H.
  destruct (stored key v) as [w|]; [exists w; reflexivity|].
  destruct H as [_ H]. rewrite H in Href. discriminate.
Qed.

(** Whether a document will be refused does not depend on the record that
    was loaded. *)
Lemma updates_fold_refused_same (keys : list string) (d1 d2 : Document) :
  refused d1 = refused d2 ->
  refused (fold_left (assignKey updates) keys d1) = refused (fold_left (assignKey updates) keys d2).
Proof.
  revert d1 d2. induction keys as [|k keys IH]; intros d1 d2 H; [exact H|].
  cbn [fold_left]. apply IH. unfold assignKey.
  destruct (includes _ k) eqn:Hinc; [|exact H].
  destruct (ExpenseController.get updates k) as [v|]; [|exact H].
  apply includes_In in Hinc.
  pose proof (assign_stored k v d1 Hinc) as H1.
  pose proof (assign_stored k v d2 Hinc) as H2.
  destruct (stored k v); destruct H1 as [_ ->]; destruct H2 as [_ ->];
    congruence.
Qed.

Lemma get_Some_In (key : string) (v : Value) :
  ExpenseController.get updates key = Some v ->
  In key (ExpenseController.Object_keys updates).
Proof.
  induction updates as [|[k x] o IH]; simpl; [discriminate|].
  destruct (String.eqb k key) eqn:E.
  - apply String.eqb_eq in E. auto.
  - auto.
Qed.

Lemma get_None_not_In (key : string) :
  ExpenseController.get updates key = None ->
  ~ In key (ExpenseController.Object_keys updates).
Proof.
  induction updates as [|[k x] o IH]; simpl; [auto|].
  destruct (String.eqb k key) eqn:E; [discriminate|].
  apply String.eqb_neq in E. intros Hn [H | H]; [contradiction|].
  exact (IH Hn H).
Qed.

End Assignments.

Lemma allowed_not_updatedAt (key : string) :
  In key ExpenseController.allowedUpdates -> key <> "updatedAt"%string.
Proof. intros Hk ->. exact (not_allowed_updatedAt Hk). Qed.




(** ** A repeated update *)

Lemma readPath_ext (a b : Expense) :
  (forall name, readPath name a = readPath name b) -> a = b.
Proof.
  intros H.
  pose proof (H "_id"%string) as H1. pose proof (H "userId"%string) as H2.
  pose proof (H "title"%string) as H3. pose proof (H "amount"%string) as H4.
  pose proof (H "category"%string) as H5. pose proof (H "date"%string) as H6.
  pose proof (H "notes"%string) as H7.
  pose proof (H "paymentMethod"%string) as H8.
  pose proof (H "createdAt"%string) as H9.
  pose proof (H "updatedAt"%string) as H10.
  destruct a, b. unfold readPath in *. simpl in *. congruence.
Qed.

Lemma validate_touch (now : Z) (e : Expense) :
  validate (touch now e) = validate e.
Proof. reflexivity. Qed.

Lemma accepted_inv (updates : ExpenseController.Body) (e : Expense) :
  accepted updates e = true
  <-> refused (ExpenseController.applyUpdates updates (hydrate e)) = []
      /\ validate (fields (ExpenseController.applyUpdates updates (hydrate e)))
         = true.
Proof.
  unfold accepted. destruct (refused _); split.
  - auto.
  - tauto.
  - discriminate.
  - intros [[=] _].
Qed.

(** Applying the body again to the record that the update has saved gives
    that record. *)
Lemma applyUpdates_again (now : Z) (updates : ExpenseController.Body)
  (e : Expense) :
  accepted updates e = true ->
  let saved :=
    touch now (fields (ExpenseController.applyUpdates updates (hydrate e))) in
  refused (ExpenseController.applyUpdates updates (hydrate saved)) = []
  /\ fields (ExpenseController.applyUpdates updates (hydrate saved)) = saved.
Proof.
  intros Ha saved. apply accepted_inv in Ha. destruct Ha as [Href _].
  assert (Href' : refused (ExpenseController.applyUpdates updates
                             (hydrate saved)) = []).
  { rewrite applyUpdates_fold in *.
    rewrite (updates_fold_refused_same updates _ (hydrate saved) (hydrate e));
      [exact Href | reflexivity]. }
  split; [exact Href'|].
  apply readPath_ext. intros name.
  destruct (allowed_dec name) as [Hk | Hk].
  - destruct (ExpenseController.get updates name) as [v|] eqn:Hv.
    + pose proof (get_Some_In updates name v Hv) as Hin.
      rewrite applyUpdates_fold in Href.
      destruct (updates_fold_typed updates _ _ name v Href Hin Hk Hv)
        as [w Hw].
      rewrite applyUpdates_fold.
      rewrite (updates_fold_own updates _ _ name v w Hin Hk Hv Hw).
      unfold saved.
      rewrite touch_frame by (apply allowed_not_updatedAt, Hk).
      rewrite applyUpdates_fold.
      rewrite (updates_fold_own updates _ _ name v w Hin Hk Hv Hw).
      reflexivity.
    + apply applyUpdates_frame. left.
      apply (get_None_not_In updates name Hv).
  - apply applyUpdates_frame. right. exact Hk.
Qed.

(** X13: an update that succeeded, repeated with the same body (the ids
    of the collection being distinct), succeeds again, answers with the
    same values and writes nothing: the collection stays as the first
    update left it, and the update timestamp is not refreshed a second
    time. *)
Theorem repeated_update_changes_nothing (now now' : Z) (uid id : string)
  (updates : ExpenseController.Body) (c c' : Collection) (status : Z)
  (msg : string) (saved : Expense) :
  NoDup (map _id c) ->
  ExpenseController.updateExpense now uid id updates c
  = (Json status msg saved, c') ->
  ExpenseController.updateExpense now' uid id updates c'
  = (Json 200 "Expense updated successfully" saved, c').
Proof.
  intros Hnd H.
  destruct (updateExpense_cases _ _ _ _ _ _ _ _ _ H)
    as [e [He [Ha [_ Hcases]]]].
  cbv zeta in Hcases.
  destruct Hcases as [[Hs [-> ->]] | [Hs [Hsaved ->]]].
  - rewrite updateExpense_outcome, He, Ha. cbv zeta. rewrite Hs. reflexivity.
  - pose proof (findOne_Some_inv uid id c e He) as [Hin [Hid Hu]].
    destruct (applyUpdates_owner updates e) as [Hu' Hid'].
    assert (Hsid : _id saved = _id e)
      by (rewrite Hsaved; cbn [touch _id]; exact Hid').
    assert (Hsu : userId saved = uid)
      by (rewrite Hsaved; cbn [touch userId]; congruence).
    destruct (updateOne_split e saved c Hnd Hin Hsid)
      as [l1 [l2 [Hc [Hc' Hl1]]]].
    assert (Hf : findOne (ExpenseController.byIdAndOwner id uid)
                   (updateOne saved c) = Some saved).
    { unfold findOne. rewrite Hc'. apply find_first.
      - apply no_match_before. rewrite <- Hid. exact Hl1.
      - apply matches_byIdAndOwner. split; congruence. }
    destruct (applyUpdates_again now updates e Ha) as [Href Hfields].
    cbv zeta in Href, Hfields. rewrite <- Hsaved in Href, Hfields.
    assert (Ha' : accepted updates saved = true).
    { apply accepted_inv. split; [exact Href|]. rewrite Hfields, Hsaved.
      rewrite validate_touch. apply accepted_inv in Ha. apply Ha. }
    rewrite updateExpense_outcome, Hf, Ha'. cbv zeta.
    rewrite Hfields, sameValues_refl. reflexivity.
Qed.

Lemma repeated_update_changes_nothing_witness :
  exists saved c',
    ExpenseController.updateExpense 99 "U" "e1" intrusiveBody scenario
    = (Json 200 "Expense updated successfully" saved, c')
    /\ ExpenseController.updateExpense 120 "U" "e1" intrusiveBody c'
       = (Json 200 "Expense updated successfully" saved, c')
    /\ updatedAt saved = 99.
Proof.
  assert (E : ExpenseController.updateExpense 99 "U" "e1" intrusiveBody scenario
              = (Json 200 "Expense updated successfully"
                   (touch 99
                      (fields (ExpenseController.applyUpdates intrusiveBody
                                 (hydrate (sample "e1" "U" (100 # 1) "Food"
                                             (JS.newDate 0 2025 0 5 12 0 0)))))),
                 updateOne
                   (touch 99
                      (fields (ExpenseController.applyUpdates intrusiveBody
                                 (hydrate (sample "e1" "U" (100 # 1) "Food"
                                             (JS.newDate 0 2025 0 5 12 0 0))))))
                   scenario)) by reflexivity.
  eexists. eexists. split; [exact E|]. split; [|reflexivity].
  exact (repeated_update_changes_nothing 99 120 "U" "e1" intrusiveBody
           scenario _ _ _ _ scenario_ids_distinct E).
Defined.

(** ** The invariant of the collection *)

Lemma validStore_insert (c : Collection) (e : Expense) :
  validStore c -> validate e = true -> ~ In (_id e) (map _id c) ->
  validStore (c ++ [e]).
Proof.
  intros [Hv Hnd] He Hfresh. split.
  - apply Forall_app. split; [exact Hv | constructor; [exact He | constructor]].
  - rewrite map_app. cbn [map].
    apply (Permutation_NoDup (Permutation_cons_append (map _id c) (_id e))).
    constructor; assumption.
Qed.

Lemma validStore_updateOne (c : Collection) (e' : Expense) :
  validStore c -> validate e' = true -> validStore (updateOne e' c).
Proof.
  intros [Hv Hnd] He. split; [|rewrite updateOne_ids; exact Hnd].
  clear Hnd. induction Hv as [|d c Hd Hc IH]; simpl; [constructor|].
  destruct (String.eqb (_id d) (_id e')); constructor; auto.
Qed.

Lemma validStore_delete (f : Filter) (c : Collection) :
  validStore c -> validStore (snd (findOneAndDelete f c)).
Proof.
  intros [Hv Hnd]. split.
  - apply Forall_forall. intros x Hx. rewrite Forall_forall in Hv.
    apply Hv, (findOneAndDelete_rest_In f c x Hx).
  - clear Hv. induction c as [|d c IH]; simpl; [constructor|].
    inversion Hnd as [|? ? Hnotin Hnd']; subst.
    destruct (matches f d); simpl; [exact Hnd'|].
    destruct (findOneAndDelete f c) as [r c'] eqn:Hd. simpl in *.
    constructor; [|apply IH, Hnd'].
    intros Hin. apply Hnotin. apply in_map_iff in Hin.
    destruct Hin as [x [Hx Hin]]. rewrite <- Hx. apply in_map.
    apply (findOneAndDelete_rest_In f c x). rewrite Hd. exact Hin.
Qed.

(** X14: the three handlers that write keep the invariant of the
    collection, whatever the request: if every stored record passes the
    validators of the schema and no two records share an id, the same
    holds after a create, an update or a delete call, successful or
    not. *)
Theorem writes_keep_the_store_valid (c : Collection) :
  validStore c ->
  (forall clock now newId uid body,
     validStore
       (snd (ExpenseController.createExpense clock now newId uid body c)))
  /\ (forall now uid id updates,
        validStore
          (snd (ExpenseController.updateExpense now uid id updates c)))
  /\ (forall uid id,
        validStore (snd (ExpenseController.deleteExpense uid id c))).
Proof.
  intros Hc. split; [|split].
  - intros clock now newId uid body. rewrite createExpense_outcome.
    destruct (insertOne _ c) as [[e c']|error] eqn:Hi; [|exact Hc].
    apply insertOne_Ok in Hi. destruct Hi as [_ [Hv [Hfresh [-> ->]]]].
    apply validStore_insert; assumption.
  - intros now uid id updates. rewrite updateExpense_outcome.
    destruct (findOne _ c) as [e|]; [|exact Hc].
    destruct (accepted updates e) eqn:Ha; [|exact Hc].
    cbv zeta. destruct (sameValues _ _); [exact Hc|]. cbn [snd].
    apply validStore_updateOne; [exact Hc|].
    rewrite validate_touch. apply accepted_inv in Ha. apply Ha.
  - intros uid id. rewrite deleteExpense_outcome.
    destruct (findOne _ c); [|exact Hc].
    apply validStore_delete, Hc.
Qed.

Lemma scenario_valid : validStore scenario.
Proof.
  split; [|exact scenario_ids_distinct].
  repeat constructor.
Qed.

Lemma writes_keep_the_store_valid_witness :
  validStore
    (snd (ExpenseController.createExpense 5 7 "e7" "U" lunchBody scenario))
  /\ validStore
       (snd (ExpenseController.updateExpense 99 "U" "e1" intrusiveBody
               scenario))
  /\ validStore (snd (ExpenseController.deleteExpense "U" "e2" scenario)).
Proof.
  destruct (writes_keep_the_store_valid scenario scenario_valid)
    as [H1 [H2 H3]].
  split; [apply H1|]. split; [apply H2 | apply H3].
Defined.

(** ** The errors of the handlers *)


(** ** Listings by date *)

Lemma sort_date_desc (l : list Expense) :
  StronglySorted (fun a b => date b <= date a) (Store.sort "date" (-1) l).
Proof.
  unfold Store.sort.
  apply (StronglySorted_weaken
           (fun a b => leDir (-1) (comparePath "date" a b) = true)).
  - intros a b. change (comparePath "date" a b) with (date a ?= date b).
    destruct (Z.compare_spec (date a) (date b)); cbn; intros;
      try discriminate; lia.
  - apply sort_by_strongly_sorted.
    + intros a b. apply leDir_total. lia.
    + intros a b d. apply leDir_date_trans. auto.
Qed.

(** X16: the static method [getExpensesByCategory] returns the records of
    the collection that belong to that user and have that category, each
    once and no other, the most recent first. *)
Theorem expenses_by_category (uid cat : string) (c : Collection) :
  Permutation (getExpensesByCategory uid cat c)
    (List.filter
       (fun e => String.eqb (userId e) uid && String.eqb (category e) cat) c)
  /\ (forall e, In e (getExpensesByCategory uid cat c)
                <-> In e c /\ userId e = uid /\ category e = cat)
  /\ StronglySorted (fun a b => date b <= date a)
       (getExpensesByCategory uid cat c).
Proof.
  unfold getExpensesByCategory.
  assert (Hf : forall e,
             matches (mkFilter None uid (Some cat) None None) e
             = String.eqb (userId e) uid && String.eqb (category e) cat).
  { intros e. unfold matches, opt_test.
    cbn [by_id by_userId by_category date_gte date_lte].
    rewrite !andb_true_r. reflexivity. }
  split; [|split].
  - unfold Store.sort, find.
    rewrite (filter_ext _ _ Hf). apply sort_by_perm.
  - intros e. unfold Store.sort. rewrite sort_by_In.
    unfold find. rewrite filter_In, Hf, andb_true_iff, !String.eqb_eq.
    reflexivity.
  - apply sort_date_desc.
Qed.

(** ** Reports and creation: the records of other users *)

(** X17: the three reports and [getExpensesByCategory] of a user depend
    on the records of that user only: on two collections that hold the
    same records of the user, whatever the records of others, their
    answers are the same. *)
Theorem reports_see_only_own_records (tza : Z) (A : string)
  (c c2 : Collection) :
  recordsOf A c2 = recordsOf A c ->
  (forall month year,
     ReportController.getMonthlyReport tza A month year c2
     = ReportController.getMonthlyReport tza A month year c)
  /\ (forall cat startDate endDate,
        ReportController.getCategoryReport A cat startDate endDate c2
        = ReportController.getCategoryReport A cat startDate endDate c)
  /\ (forall startDate endDate,
        ReportController.getOverallStats A startDate endDate c2
        = ReportController.getOverallStats A startDate endDate c)
  /\ (forall cat, getExpensesByCategory A cat c2 = getExpensesByCategory A cat c).
Proof.
  intros Hrec.
  assert (Hfind : forall f, by_userId f = A -> find f c2 = find f c).
  { intros f Hf.
    rewrite (find_recordsOf f c2), (find_recordsOf f c), Hf, Hrec.
    reflexivity. }
  split; [|split; [|split]].
  - intros month year.
    unfold ReportController.getMonthlyReport, getMonthlySummary, monthlyGroups.
    rewrite (Hfind (monthFilter tza A month year) eq_refl). reflexivity.
  - intros cat startDate endDate. unfold ReportController.getCategoryReport.
    rewrite (Hfind (ReportController.categoryFilter A cat startDate endDate)
               eq_refl).
    reflexivity.
  - intros startDate endDate. unfold ReportController.getOverallStats.
    rewrite (Hfind (ReportController.statsFilter A startDate endDate) eq_refl).
    reflexivity.
  - intros cat. unfold getExpensesByCategory.
    rewrite (Hfind (mkFilter None A (Some cat) None None) eq_refl).
    reflexivity.
Qed.

Lemma reports_see_only_own_records_witness :
  ReportController.getOverallStats "U" None None scenarioOtherV
  = ReportController.getOverallStats "U" None None scenario.
Proof.
  apply (reports_see_only_own_records 0 "U" scenario scenarioOtherV).
  vm_compute. reflexivity.
Defined.

Lemma recordsOf_app (B : string) (c1 c2 : Collection) :
  recordsOf B (c1 ++ c2) = recordsOf B c1 ++ recordsOf B c2.
Proof. apply filter_app. Qed.

(** X18: a create call of one user leaves the records of every other
    user as they were. *)
Theorem create_leaves_other_users_records (clock now : Z)
  (newId A B : string) (body : ExpenseController.Body) (c : Collection) :
  A <> B ->
  recordsOf B
    (snd (ExpenseController.createExpense clock now newId A body c))
  = recordsOf B c.
Proof.
  intros Hne. rewrite createExpense_outcome.
  destruct (insertOne _ c) as [[e c']|error] eqn:Hi; [|reflexivity].
  cbn [snd]. apply insertOne_Ok in Hi. destruct Hi as [_ [_ [_ [He ->]]]].
  rewrite recordsOf_app. unfold recordsOf at 2. cbn [List.filter].
  assert (Hu : userId e = A).
  { rewrite He. apply (readPath_userId _ (blank newId A now)),
      proposed_outside, not_allowed_userId. }
  rewrite Hu. apply String.eqb_neq in Hne. rewrite Hne. apply app_nil_r.
Qed.

Lemma create_leaves_other_users_records_witness :
  recordsOf "V"
    (snd (ExpenseController.createExpense 5 7 "e7" "U" lunchBody scenario))
  = recordsOf "V" scenario.
Proof.
  apply create_leaves_other_users_records. discriminate.
Defined.

(** ** The monthly window and the monthly report *)

(** X19: for a month from 1 to 12 of a year from 100 to 9999 (the
    constructor of Date reads a year below 100 as a year of the twentieth
    century), the offset of the time zone of the server being constant,
    the window of the monthly queries starts at the first instant, in the time of the server, of the first
    day of that month of that year, and ends one second before the start of
    the next month, which comes after the 28 to 31 days of the Gregorian
    calendar (29 for a February of a leap year); a record is matched if
    and only if it belongs to the user and is dated in the window, both
    ends included. *)
Theorem monthly_window (tza : Z) (uid : string) (month year : Z) :
  1 <= month <= 12 -> 100 <= year <= 9999 ->
  let start := monthStartDate tza year month in
  (JS.YearFromTime (start + tza) = year
   /\ JS.MonthFromTime (start + tza) = month - 1
   /\ JS.DateFromTime (start + tza) = 1
   /\ JS.TimeWithinDay (start + tza) = 0)
  /\ monthStartDate tza year (month + 1)
     = start + daysOfMonth year month * JS.msPerDay
  /\ monthEndDate tza year month
     = start + daysOfMonth year month * JS.msPerDay - 1000
  /\ (forall e,
        matches (monthFilter tza uid month year) e = true
        <-> userId e = uid
            /\ start <= date e
               <= start + daysOfMonth year month * JS.msPerDay - 1000).
Proof.
  intros Hm _ start.
  pose proof (month_length tza year month Hm) as Hlen. fold start in Hlen.
  split; [|split; [exact Hlen|split]].
  - assert (Hs : start + tza
                 = JS.MakeDate (JS.MakeDay year (month - 1) 1) 0).
    { unfold start, monthStartDate, JS.newDate, JS.MakeTime, JS.MakeDate.
      lia. }
    rewrite Hs.
    pose proof (daysOfMonth_bounds year month) as Hb.
    destruct (calendar_round_trip year month 1 0 Hm ltac:(lia)
                ltac:(unfold JS.msPerDay; lia)) as [H1 [H2 H3]].
    repeat split; try assumption.
    unfold JS.TimeWithinDay, JS.MakeDate. rewrite Z.add_0_r.
    apply Z_mod_mult.
  - rewrite monthEndDate_is_next_start_minus_second, Hlen. reflexivity.
  - intros e. rewrite monthFilter_matches, Hlen. reflexivity.
Qed.

Lemma monthly_window_witness :
  monthStartDate 0 2024 3
  = monthStartDate 0 2024 2 + 29 * JS.msPerDay
  /\ JS.DateFromTime (monthStartDate 0 2024 2 + 0) = 1.
Proof.
  destruct (monthly_window 0 "U" 2 2024 ltac:(lia) ltac:(lia))
    as [[_ [_ [H1 _]]] [H2 _]].
  split; [exact H2 | exact H1].
Defined.




(** ** The category report: the counts of the trend *)

Lemma modify_counted (k : string)
  (f : ReportController.TrendEntry -> ReportController.TrendEntry)
  (acc : ReportController.TrendAcc) :
  (forall v, ReportController.count (f v) = ReportController.count v + 1) ->
  In k (map fst acc) ->
  countedBy (ReportController.modify k f acc) = countedBy acc + 1.
Proof.
  intros Hf. unfold countedBy, ReportController.Object_values.
  induction acc as [|[k' v] acc IH]; simpl; [contradiction|].
  destruct (String.eqb k' k) eqn:E; simpl.
  - intros _. rewrite Hf. lia.
  - apply String.eqb_neq in E. intros [H | H]; [contradiction|].
    rewrite (IH H). lia.
Qed.

Lemma trendStep_counted (acc : ReportController.TrendAcc) (e : Expense) :
  countedBy (ReportController.trendStep acc e) = countedBy acc + 1.
Proof.
  unfold ReportController.trendStep.
  destruct (ReportController.has acc (ReportController.monthKey e)) eqn:Hh.
  - apply modify_counted; [reflexivity | apply has_In, Hh].
  - rewrite modify_counted; [|reflexivity|].
    + unfold countedBy, ReportController.Object_values.
      rewrite !map_app, fold_right_app. simpl.
      generalize (map ReportController.count (map snd acc)) as l.
      induction l as [|x l IHl]; simpl; lia.
    + rewrite map_app, in_app_iff. right. left. reflexivity.
Qed.

Lemma trend_counted (docs : list Expense) (acc : ReportController.TrendAcc) :
  countedBy (fold_left ReportController.trendStep docs acc)
  = countedBy acc + Z.of_nat (List.length docs).
Proof.
  revert acc. induction docs as [|e docs IH]; intros acc.
  - simpl. lia.
  - cbn [fold_left List.length]. rewrite IH, trendStep_counted. lia.
Qed.

(** X21: in a category report the counts of the months of the trend add
    up to the number of expenses of the statistics, which is the number of
    the expenses listed; these are listed the most recent first, and the
    report names the category asked for. *)
Theorem category_report_consistency (uid cat : string)
  (startDate endDate : option Z) (c : Collection) :
  exists data,
    ReportController.getCategoryReport uid cat startDate endDate c
    = Json 200 ("Category report for " ++ cat ++ " generated successfully")
        data
    /\ ReportController.report_category data = cat
    /\ StronglySorted (fun a b => date b <= date a)
         (ReportController.report_expenses data)
    /\ ReportController.totalExpenses (ReportController.statistics data)
       = Z.of_nat (List.length (ReportController.report_expenses data))
    /\ fold_right Z.add 0
         (map ReportController.trend_count (ReportController.monthlyTrend data))
       = ReportController.totalExpenses (ReportController.statistics data).
Proof.
  eexists. split; [reflexivity|].
  cbn [ReportController.report_category ReportController.report_expenses
       ReportController.statistics ReportController.totalExpenses
       ReportController.monthlyTrend].
  split; [reflexivity|]. split; [apply sort_date_desc|].
  split; [reflexivity|].
  rewrite trendData_items, map_map.
  change (fun x => ReportController.trend_count (trendItem x))
    with ReportController.count.
  rewrite (Zsum_perm _ _
             (Permutation_map ReportController.count
                (sort_by_perm ReportController.monthNotAfter _))).
  fold (countedBy (fold_left ReportController.trendStep
                     (Store.sort "date" (-1)
                        (find (ReportController.categoryFilter uid cat
                                 startDate endDate) c)) [])).
  rewrite trend_counted. reflexivity.
Qed.

(** ** The overall statistics *)





(** ** The order of the breakdowns *)

Lemma toFixed2_mono (x y : Q) :
  (0 <= x)%Q -> (x <= y)%Q -> (JS.toFixed2 x <= JS.toFixed2 y)%Q.
Proof.
  intros Hx Hxy.
  assert (Hy : (0 <= y)%Q) by (eapply Qle_trans; eassumption).
  assert (Hfloor : forall a b : Z, (a <= b)%Z -> (a # 100 <= b # 100)%Q)
    by (intros a b Hab; unfold Qle; simpl; lia).
  unfold JS.toFixed2.
  assert (Hsx : Qle_bool 0 x = true) by (apply Qle_bool_iff, Hx).
  assert (Hsy : Qle_bool 0 y = true) by (apply Qle_bool_iff, Hy).
  rewrite Hsx, Hsy.
  destruct (Qle_bool (1000000000000000000000 # 1) (Qabs x)) eqn:Ex;
    destruct (Qle_bool (1000000000000000000000 # 1) (Qabs y)) eqn:Ey.
  - exact Hxy.
  - exfalso. apply Qle_bool_iff in Ex. rewrite (Qabs_pos x Hx) in Ex.
    assert (Hbig : Qle_bool (1000000000000000000000 # 1) (Qabs y) = true).
    { apply Qle_bool_iff. rewrite (Qabs_pos y Hy).
      eapply Qle_trans; eassumption. }
    congruence.
  - apply Qle_bool_iff in Ey. rewrite (Qabs_pos y Hy) in Ey.
    assert (Hsmall : (x <= 1000000000000000000000 # 1)%Q).
    { destruct (Qlt_le_dec (1000000000000000000000 # 1) x) as [Hlt | Hle];
        [|exact Hle].
      exfalso.
      assert (Hbig : Qle_bool (1000000000000000000000 # 1) (Qabs x) = true).
      { apply Qle_bool_iff. rewrite (Qabs_pos x Hx).
        apply Qlt_le_weak, Hlt. }
      congruence. }
    apply (Qle_trans _ (1000000000000000000000 # 1)); [|exact Ey].
    apply (Qle_trans _ (100000000000000000000000 # 100));
      [|unfold Qle; simpl; lia].
    apply Hfloor.
    change 100000000000000000000000%Z
      with (Qfloor ((1000000000000000000000 # 1) * (100 # 1) + (1 # 2))).
    apply Qfloor_resp_le.
    apply Qplus_le_l, Qmult_le_compat_r; [exact Hsmall | discriminate].
  - apply Hfloor, Qfloor_resp_le.
    apply Qplus_le_l, Qmult_le_compat_r; [exact Hxy | discriminate].
Qed.

Lemma StronglySorted_weaken_In {A : Type} (R R' : A -> A -> Prop)
  (l : list A) :
  (forall a b, In a l -> In b l -> R a b -> R' a b) ->
  StronglySorted R l -> StronglySorted R' l.
Proof.
  intros Himp Hs. induction Hs as [|x l Hs IH Hall]; constructor.
  - apply IH. intros a b Ha Hb. apply Himp; right; assumption.
  - rewrite Forall_forall in *. intros b Hb.
    apply Himp; [left; reflexivity | right; exact Hb | apply Hall, Hb].
Qed.

(** The groups of records of positive amounts, sorted by their totals, are
    also in the descending order of their rounded totals. *)
Lemma rounded_totals_descend (key : Expense -> string) (docs : list Expense) :
  Forall (fun e => (0 < amount e)%Q) docs ->
  StronglySorted
    (fun a b => (JS.toFixed2 (group_total b) <= JS.toFixed2 (group_total a))%Q)
    (sort_total_desc (group_by key docs)).
Proof.
  intros Hpos.
  apply (StronglySorted_weaken_In
           (fun a b => (group_total b <= group_total a)%Q));
    [|apply sort_total_desc_sorted].
  intros a b _ Hb Hab. apply toFixed2_mono; [|exact Hab].
  apply Qlt_le_weak.
  apply (group_total_positive key docs Hpos _ b (sorted_groups_of key docs) Hb).
Qed.

(** X23: when the amounts of the stored records are positive, the
    breakdown of a monthly summary and the two breakdowns of the overall
    statistics are listed in the descending order of the amounts that they
    report (the rounded totals of the groups). *)
Theorem breakdowns_are_in_descending_order (tza : Z) (uid : string)
  (month year : Z) (startDate endDate : option Z) (c : Collection) :
  Forall (fun e => (0 < amount e)%Q) c ->
  StronglySorted (fun a b => (item_amount b <= item_amount a)%Q)
    (summary_categoryBreakdown (getMonthlySummary tza uid month year c))
  /\ exists data,
       ReportController.getOverallStats uid startDate endDate c
       = Json 200 "Overall statistics generated successfully" data
       /\ StronglySorted
            (fun a b => (ReportController.share_total b
                         <= ReportController.share_total a)%Q)
            (ReportController.categoryBreakdown data)
       /\ StronglySorted
            (fun a b => (ReportController.share_total b
                         <= ReportController.share_total a)%Q)
            (ReportController.paymentMethodBreakdown data).
Proof.
  intros Hpos. split.
  - unfold getMonthlySummary, monthlyGroups. cbn [summary_categoryBreakdown].
    apply StronglySorted_map. cbn [item_amount].
    apply rounded_totals_descend, find_positive, Hpos.
  - eexists. split; [reflexivity|].
    cbn [ReportController.categoryBreakdown
         ReportController.paymentMethodBreakdown].
    unfold ReportController.shares.
    split; apply StronglySorted_map; cbn [ReportController.share_total];
      apply rounded_totals_descend, find_positive, Hpos.
Qed.

Lemma breakdowns_are_in_descending_order_witness :
  StronglySorted (fun a b => (item_amount b <= item_amount a)%Q)
    (summary_categoryBreakdown (getMonthlySummary 0 "U" 1 2025 scenario)).
Proof.
  exact (proj1 (breakdowns_are_in_descending_order 0 "U" 1 2025 None None
                  scenario scenario_positive)).
Defined.

(** ** The authentication middleware *)

Lemma prefix_Bearer (h : string) :
  String.prefix "Bearer " h = true -> exists body, h = ("Bearer " ++ body)%string.
Proof.
  intros H.
  do 7 (destruct h as [|? h]; [discriminate|];
        cbn [String.prefix] in H;
        match type of H with
        | context [ascii_dec ?a ?b] =>
            destruct (ascii_dec a b); [subst | discriminate]
        end).
  exists h. reflexivity.
Qed.

Lemma occursIn_prefix_Bearer (s : string) :
  occursIn " " s = false -> String.prefix "Bearer " s = false.
Proof.
  intros H. destruct (String.prefix "Bearer " s) eqn:E; [|reflexivity].
  apply prefix_Bearer in E. destruct E as [body ->].
  simpl in H. discriminate.
Qed.

Lemma append_nil_r (s : string) : (s ++ EmptyString)%string = s.
Proof. induction s as [|c s IH]; simpl; [|rewrite IH]; reflexivity. Qed.

Lemma append_assoc (a b c : string) :
  ((a ++ b) ++ c)%string = (a ++ b ++ c)%string.
Proof. induction a as [|x a IH]; simpl; [|rewrite IH]; reflexivity. Qed.

(** A string without a space holds no occurrence of the separator: it is
    one piece. *)
Lemma splitFrom_plain (piece s : string) :
  occursIn " " s = false ->
  AuthMiddleware.splitFrom "Bearer " 0 piece s = [(piece ++ s)%string].
Proof.
  revert piece. induction s as [|c s IH]; intros piece H.
  - simpl. rewrite append_nil_r. reflexivity.
  - cbn [AuthMiddleware.splitFrom].
    rewrite (occursIn_prefix_Bearer _ H).
    simpl in H. apply orb_false_iff in H. destruct H as [_ H].
    rewrite (IH _ H), append_assoc. reflexivity.
Qed.

(** The first piece is cut from the front of the string. *)
Lemma splitFrom_first (piece s p : string) (ps : list string) :
  AuthMiddleware.splitFrom "Bearer " 0 piece s = p :: ps ->
  exists u rest, p = (piece ++ u)%string /\ s = (u ++ rest)%string.
Proof.
  revert piece. induction s as [|c s IH]; intros piece H.
  - simpl in H. injection H as <- _. exists EmptyString, EmptyString.
    rewrite append_nil_r. auto.
  - cbn [AuthMiddleware.splitFrom] in H.
    destruct (String.prefix "Bearer " (String c s)).
    + injection H as <- _. exists EmptyString, (String c s).
      rewrite append_nil_r. auto.
    + apply IH in H. destruct H as [u [rest [-> ->]]].
      exists (String c u), rest. rewrite append_assoc. auto.
Qed.

Lemma split_Bearer (body : string) :
  AuthMiddleware.split ("Bearer " ++ body) "Bearer "
  = EmptyString :: AuthMiddleware.splitFrom "Bearer " 0 EmptyString body.
Proof. destruct body; reflexivity. Qed.

Lemma startsWith_Bearer (body : string) :
  AuthMiddleware.startsWith ("Bearer " ++ body) "Bearer " = true.
Proof. destruct body; reflexivity. Qed.

(** X24: the middleware lets a request through only with a header of
    the form "Bearer " followed by a token that is not empty and that the
    check of Firebase accepts, and the user that it attaches is the one of
    the decoded token; every answer that it gives itself has status 401;
    without the header, or with a header that does not start with
    "Bearer ", the answer does not depend on the check. *)
Theorem only_verified_tokens_proceed
  (verifyIdToken : string -> AuthMiddleware.DecodedToken + AuthMiddleware.AuthError)
  (authorization : option string) :
  (forall user,
     AuthMiddleware.verifyFirebaseToken verifyIdToken authorization
     = AuthMiddleware.Proceed user ->
     exists token rest decoded,
       authorization = Some ("Bearer " ++ token ++ rest)%string
       /\ token <> EmptyString
       /\ verifyIdToken token = inl decoded
       /\ user = userOf decoded)
  /\ (forall status message error,
        AuthMiddleware.verifyFirebaseToken verifyIdToken authorization
        = AuthMiddleware.Respond status message error ->
        status = 401)
  /\ (authorization = None
      \/ (exists h, authorization = Some h
                    /\ AuthMiddleware.startsWith h "Bearer " = false) ->
      AuthMiddleware.verifyFirebaseToken verifyIdToken authorization
      = AuthMiddleware.Respond 401 "Unauthorized: No token provided"
          "Missing or invalid Authorization header").
Proof.
  split; [|split].
  - intros user. unfold AuthMiddleware.verifyFirebaseToken.
    destruct authorization as [h|]; [|discriminate].
    destruct (String.eqb h EmptyString
              || negb (AuthMiddleware.startsWith h "Bearer ")) eqn:E;
      [discriminate|].
    apply orb_false_iff in E. destruct E as [_ E].
    apply negb_false_iff, prefix_Bearer in E. destruct E as [body ->].
    rewrite split_Bearer. cbn [nth_error].
    destruct (AuthMiddleware.splitFrom "Bearer " 0 EmptyString body)
      as [|p ps] eqn:Hs; [discriminate|].
    apply splitFrom_first in Hs. destruct Hs as [u [rest [-> ->]]].
    cbn [append]. destruct u as [|ch u]; [discriminate|].
    destruct (verifyIdToken (String ch u)) as [decoded|error] eqn:Hv.
    + intros [= <-]. exists (String ch u), rest, decoded.
      repeat split; [discriminate | exact Hv].
    + repeat match goal with
             | |- context [String.eqb ?a ?b] => destruct (String.eqb a b)
             end; discriminate.
  - intros status message error. unfold AuthMiddleware.verifyFirebaseToken.
    destruct authorization as [h|]; [|intros [= <- _ _]; reflexivity].
    destruct (_ || _); [intros [= <- _ _]; reflexivity|].
    destruct (nth_error _ 1) as [[|ch t]|];
      try (intros [= <- _ _]; reflexivity).
    destruct (verifyIdToken (String ch t)) as [decoded|err]; [discriminate|].
    repeat match goal with
           | |- context [String.eqb ?a ?b] => destruct (String.eqb a b)
           end; intros [= <- _ _]; reflexivity.
  - intros [-> | [h [-> Hs]]]; [reflexivity|].
    unfold AuthMiddleware.verifyFirebaseToken. rewrite Hs, orb_true_r.
    reflexivity.
Qed.

(** X25: for a header "Bearer " followed by a token that is not empty
    and holds no space, the check of Firebase is asked about exactly that
    token: the request goes on, as the user of the decoded token, if the
    check accepts the token, and is answered with status 401 if not. *)
Theorem bearer_token_is_what_is_verified
  (verifyIdToken : string -> AuthMiddleware.DecodedToken + AuthMiddleware.AuthError)
  (token : string) :
  token <> EmptyString -> occursIn " " token = false ->
  (forall decoded,
     verifyIdToken token = inl decoded ->
     AuthMiddleware.verifyFirebaseToken verifyIdToken
       (Some ("Bearer " ++ token)%string)
     = AuthMiddleware.Proceed (userOf decoded))
  /\ (forall error,
        verifyIdToken token = inr error ->
        exists message detail,
          AuthMiddleware.verifyFirebaseToken verifyIdToken
            (Some ("Bearer " ++ token)%string)
          = AuthMiddleware.Respond 401 message detail).
Proof.
  intros Hne Hsp. destruct token as [|ch t]; [contradiction|].
  unfold AuthMiddleware.verifyFirebaseToken.
  rewrite startsWith_Bearer, split_Bearer,
    (splitFrom_plain EmptyString (String ch t) Hsp).
  cbn [append nth_error String.eqb negb orb].
  split.
  - intros decoded Hv. rewrite Hv. reflexivity.
  - intros error Hv. rewrite Hv.
    repeat match goal with
           | |- context [String.eqb ?a ?b] => destruct (String.eqb a b)
           end; eauto.
Qed.

Lemma bearer_token_is_what_is_verified_witness :
  AuthMiddleware.verifyFirebaseToken
    (fun _ => inl (AuthMiddleware.mkDecodedToken "U" "u@example.org" true))
    (Some "Bearer abc.def.ghi"%string)
  = AuthMiddleware.Proceed (AuthMiddleware.mkUser "U" "u@example.org" true).
Proof.
  exact (proj1 (bearer_token_is_what_is_verified
                  (fun _ => inl (AuthMiddleware.mkDecodedToken "U"
                                   "u@example.org" true))
                  "abc.def.ghi" ltac:(discriminate) eq_refl)
           (AuthMiddleware.mkDecodedToken "U" "u@example.org" true) eq_refl).
Defined.


(** ** Writes and the count of the listing *)

Lemma countDocuments_app (f : Filter) (c1 c2 : Collection) :
  countDocuments f (c1 ++ c2) = countDocuments f c1 + countDocuments f c2.
Proof.
  unfold countDocuments, find. rewrite filter_app, length_app. lia.
Qed.

Lemma countDocuments_one (f : Filter) (e : Expense) (c : Collection) :
  countDocuments f (e :: c)
  = (if matches f e then 1 else 0) + countDocuments f c.
Proof.
  unfold countDocuments, find. cbn [List.filter].
  destruct (matches f e); cbn [List.length]; lia.
Qed.

(** X26: the number of matching records that a listing reports follows
    the writes of the caller: after a create call that succeeds it is one
    more if the new record matches the filters of the listing, and the
    same if not; after a delete call that succeeds it is one less if the
    deleted record matched, and the same if not.  For a listing without
    filters the record of the caller always matches. *)
Theorem listing_count_follows_writes (uid : string)
  (q : ExpenseController.ListQuery) (c : Collection) :
  let count := countDocuments (ExpenseController.listFilter uid q) in
  let hit e :=
    if matches (ExpenseController.listFilter uid q) e then 1 else 0 in
  (forall clock now newId body status msg e c',
     ExpenseController.createExpense clock now newId uid body c
     = (Json status msg e, c') ->
     count c' = count c + hit e)
  /\ (forall id status msg e c',
        ExpenseController.deleteExpense uid id c = (Json status msg e, c') ->
        count c' = count c - hit e)
  /\ (ExpenseController.q_category q = None ->
      ExpenseController.q_startDate q = None ->
      ExpenseController.q_endDate q = None ->
      forall e, userId e = uid -> hit e = 1).
Proof.
  intros count hit. split; [|split].
  - intros clock now newId body status msg e c' H.
    destruct (created_record_identity_facts _ _ _ _ _ _ _ _ _ _ H)
      as [_ [_ [_ ->]]].
    unfold count. rewrite countDocuments_app, countDocuments_one.
    unfold hit, countDocuments. simpl. lia.
  - intros id status msg e c'. unfold ExpenseController.deleteExpense.
    destruct (findOneAndDelete (ExpenseController.byIdAndOwner id uid) c)
      as [[x|] c''] eqn:Hd; [|discriminate].
    intros [= _ _ <- <-].
    destruct (findOneAndDelete_split _ _ _ _ Hd) as [l1 [l2 [-> [-> _]]]].
    unfold count.
    rewrite !countDocuments_app, countDocuments_one. unfold hit. lia.
  - intros Hc Hs He e Hu. unfold hit.
    assert (Hm : matches (ExpenseController.listFilter uid q) e = true).
    { apply listFilter_matches. split; [exact Hu|].
      rewrite Hc, Hs, He. repeat split; intros x [=]. }
    rewrite Hm. reflexivity.
Qed.

(** ** The reports and the listing *)




(** ** Further edge cases *)

Lemma fold_assignKey_outside (updates : ExpenseController.Body)
  (keys : list string) (d : Document) :
  (forall key, In key keys -> ~ In key ExpenseController.allowedUpdates) ->
  fold_left (assignKey updates) keys d = d.
Proof.
  revert d. induction keys as [|k keys IH]; intros d H; [reflexivity|].
  cbn [fold_left].
  assert (Hk : assignKey updates d k = d).
  { unfold assignKey.
    destruct (includes ExpenseController.allowedUpdates k) eqn:E;
      [|reflexivity].
    apply includes_In in E. exfalso. apply (H k); [left; reflexivity | exact E]. }
  rewrite Hk. apply IH. intros key Hin. apply H. right. exact Hin.
Qed.

(** X28: an update whose body names none of the six fields of the
    allow-list (an empty body, or only keys such as [userId]) writes
    nothing: for a stored record that passes the validators of the schema
    it answers with the record as it is stored, and the update timestamp
    is not refreshed. *)
Theorem update_without_allowed_keys_changes_nothing (now : Z)
  (uid id : string) (updates : ExpenseController.Body) (c : Collection)
  (e : Expense) :
  (forall key, In key (ExpenseController.Object_keys updates) ->
               ~ In key ExpenseController.allowedUpdates) ->
  findOne (ExpenseController.byIdAndOwner id uid) c = Some e ->
  validate e = true ->
  ExpenseController.updateExpense now uid id updates c
  = (Json 200 "Expense updated successfully" e, c).
Proof.
  intros Hkeys He Hv. rewrite updateExpense_outcome, He.
  assert (Hd : ExpenseController.applyUpdates updates (hydrate e) = hydrate e).
  { rewrite applyUpdates_fold. apply fold_assignKey_outside, Hkeys. }
  unfold accepted. rewrite Hd. cbn [hydrate refused fields].
  rewrite Hv. cbv zeta. cbn [hydrate fields].
  rewrite sameValues_refl. reflexivity.
Qed.

Lemma update_without_allowed_keys_changes_nothing_witness :
  ExpenseController.updateExpense 99 "U" "e1"
    [("userId"%string, VString "V")] scenario
  = (Json 200 "Expense updated successfully"
       (sample "e1" "U" (100 # 1) "Food" (JS.newDate 0 2025 0 5 12 0 0)),
     scenario).
Proof.
  apply (update_without_allowed_keys_changes_nothing 99 "U" "e1"
           [("userId"%string, VString "V")] scenario
           (sample "e1" "U" (100 # 1) "Food" (JS.newDate 0 2025 0 5 12 0 0))).
  - simpl. intros key [<- | []]. exact not_allowed_userId.
  - reflexivity.
  - reflexivity.
Defined.

(** X29: with a page size P > 0, every page before the last one (page k
    with 1 <= k < ceil(N / P)) holds exactly P records. *)
Theorem pages_before_the_last_are_full (uid : string)
  (q : ExpenseController.ListQuery) (c : Collection) (P k : Z) :
  ExpenseController.q_limit q = Some P ->
  ExpenseController.default (ExpenseController.q_page q) 1 = k ->
  0 < P ->
  let N := countDocuments (ExpenseController.listFilter uid q) c in
  1 <= k < JS.ceil_div N P ->
  exists data,
    ExpenseController.getAllExpenses uid q c
    = Json 200 "Expenses retrieved successfully" data
    /\ Z.of_nat (List.length (ExpenseController.expenses data)) = P.
Proof.
  intros Hl Hk HP N Hrange.
  pose proof (ceil_div_spec N P HP) as Hc.
  eexists. split.
  - apply (getAllExpenses_page uid q c P k Hl Hk); nia.
  - cbn [ExpenseController.expenses].
    rewrite page_length by nia.
    assert (HN : Z.of_nat (List.length (ordered uid q c)) = N).
    { unfold N, countDocuments.
      rewrite (Permutation_length (ordered_perm uid q c)). reflexivity. }
    rewrite HN. nia.
Qed.

Lemma pages_before_the_last_are_full_witness :
  exists data,
    ExpenseController.getAllExpenses "U" (pageQuery 2 1) scenario
    = Json 200 "Expenses retrieved successfully" data
    /\ Z.of_nat (List.length (ExpenseController.expenses data)) = 2.
Proof.
  apply (pages_before_the_last_are_full "U" (pageQuery 2 1) scenario 2 1
           eq_refl eq_refl ltac:(lia)).
  vm_compute. split; [discriminate | reflexivity].
Defined.

(** X30: the monthly report of a month (1 to 12, of a year from 100 to
    9999) without a matching record reports a total of 0, no transaction,
    an empty breakdown, no expense, and a daily average of 0: nothing is
    divided by zero. *)
Theorem empty_month_report (tza : Z) (uid : string) (month year : Z)
  (c : Collection) :
  1 <= month <= 12 -> 100 <= year <= 9999 ->
  find (monthFilter tza uid month year) c = [] ->
  exists data avg,
    ReportController.getMonthlyReport tza uid month year c
    = Json 200 "Monthly report generated successfully" data
    /\ (summary_totalExpenses (ReportController.monthly_summary data) == 0)%Q
    /\ summary_totalTransactions (ReportController.monthly_summary data) = 0
    /\ summary_categoryBreakdown (ReportController.monthly_summary data) = []
    /\ ReportController.monthly_expenses data = []
    /\ ReportController.dailyAverage data = JS.Finite avg
    /\ (avg == 0)%Q.
Proof.
  intros Hm _ Hempty. pose proof (daysOfMonth_bounds year month) as Hb.
  unfold ReportController.getMonthlyReport, getMonthlySummary, monthlyGroups.
  rewrite Hempty, (getDate_day_0 tza year month Hm).
  cbn [group_by fold_left sort_total_desc JS.sort_by fold_right map
       Store.sort summary_totalExpenses].
  rewrite div_by_count by lia.
  eexists. eexists. split; [reflexivity|].
  cbn [ReportController.monthly_summary ReportController.dailyAverage
       ReportController.monthly_expenses summary_totalExpenses
       summary_totalTransactions summary_categoryBreakdown
       JS.parseFloat_toFixed2].
  split; [reflexivity|]. split; [reflexivity|]. split; [reflexivity|].
  split; [reflexivity|]. split; [reflexivity|].
  assert (Hz : (JS.toFixed2 (0 # 1) / inject_Z (daysOfMonth year month) == 0)%Q).
  { assert (H0 : (JS.toFixed2 (0 # 1) == 0)%Q) by reflexivity.
    rewrite H0. unfold Qdiv. apply Qmult_0_l. }
  rewrite (toFixed2_Qeq _ _ Hz). reflexivity.
Qed.

Lemma empty_month_report_witness :
  exists data,
    ReportController.getMonthlyReport 0 "U" 2 2025 scenario
    = Json 200 "Monthly report generated successfully" data
    /\ summary_totalTransactions (ReportController.monthly_summary data) = 0
    /\ ReportController.monthly_expenses data = [].
Proof.
  destruct (empty_month_report 0 "U" 2 2025 scenario ltac:(lia) ltac:(lia)
              ltac:(vm_compute; reflexivity))
    as [data [avg [H1 [_ [H2 [_ [H3 _]]]]]]].
  exists data. split; [exact H1|]. split; [exact H2 | exact H3].
Defined.
